(** * The distributed TTS trainer of [apps/tts/train.py]

    A shallow embedding of the coordination code of the trainer: the
    configuration and state records, the checkpoint bundle, the trainer's
    methods ([_create_optimizer], [_create_dataloaders], [_create_scheduler],
    [save_checkpoint], [load_checkpoint], [train_epoch], [validate]) and the
    driver [train].

    What the file fixes about the world around that code:
    - Python [int] is [Z]; [//] and [%] raise [ZeroDivisionError] on a zero
      divisor and otherwise round towards minus infinity, as [Z.div] and
      [Z.modulo] do.
    - Python [float] is IEEE binary64 and a default-dtype [torch.tensor] is
      binary32, both taken from the Standard Library's [SpecFloat]; an
      [int] that meets a [float] is rounded to binary64.
    - An exception leaves every mutation made before it in place, so a
      computation is a function from the run state to an outcome and the
      run state it left behind.
    - The model, the data sets, the optimizer, the scheduler and the
      collective transport are the trainer's collaborators, taken at their
      interface.  A data loader is its length and, for every epoch counter,
      batch index and rank, the scalar loss the model computes there.  A
      collective sum adds the contributions of the ranks in rank order.  The
      model and the data sets can be built and an optimizer takes any number
      of steps.  The constructors the trainer hands its configuration to
      keep their contracts: [AdamW] wants [0.0 <= lr]; a [DataLoader] wants
      a positive batch size and workers that are not negative, and positive
      where they persist; [OneCycleLR] wants an optimizer and a positive
      total, and refuses the step after the last.  A scheduler's state dict
      carries its total and its step count, and loading it replaces both.
      What is not one of them (the exception object a factory returned) has
      none of their methods.
    - A process is followed while its group lives: [destroy_process_group]
      is the last thing [train] does, and nothing is run on the process it
      leaves.
    - The checkpoint store is the list of the writes made to it, and a
      flag says whether the process can write to it. *)

From Stdlib Require Import ZArith List String Ascii Bool Lia.
From Stdlib Require Import DecimalString DecimalPos DecimalN.
From Stdlib Require Import Floats.SpecFloat.
Import ListNotations.
Local Open Scope string_scope.
Local Open Scope Z_scope.

(** ** Python values *)

Module Py.

Inductive exn : Type :=
| ZeroDivisionError
  (* attribute lookup on the object of the named class failed *)
| AttributeError (cls attr : string)
  (* whatever [torch.load] raises when no bundle can be read *)
| LoadError (path : option string)
  (* whatever [torch.save] raises when the target cannot be written *)
| SaveError (path : string)
  (* [OneCycleLR] was handed something that is no optimizer *)
| TypeError
  (* a constructor refused an argument ([AdamW] a learning rate,
     [DataLoader] a batch size or worker count, [OneCycleLR] a total), or
     [OneCycleLR] was stepped beyond its total *)
| ValueError.

Inductive result (A : Type) : Type :=
| Ok (a : A)
| Raise (e : exn).
Arguments Ok {A} a.
Arguments Raise {A} e.

Definition floordiv (a b : Z) : result Z :=
  if b =? 0 then Raise ZeroDivisionError else Ok (a / b).

Definition mod_ (a b : Z) : result Z :=
  if b =? 0 then Raise ZeroDivisionError else Ok (a mod b).

(** binary64 *)
Definition float : Type := spec_float.
Definition inf : float := S754_infinity false.
Definition zero : float := S754_zero false.
Definition fadd : float -> float -> float := SFadd 53 1024.
Definition fdiv : float -> float -> float := SFdiv 53 1024.
Definition flt : float -> float -> bool := SFltb.
Definition float_of_int (n : Z) : float := binary_normalize 53 1024 n 0 false.

(** [x / n] for a float [x] and an int [n]. *)
Definition truediv (x : float) (n : Z) : result float :=
  if n =? 0 then Raise ZeroDivisionError else Ok (fdiv x (float_of_int n)).

(** The float a decimal literal [a/b] denotes, e.g. [0.4] as [lit 4 10]. *)
Definition lit (a b : Z) : float := fdiv (float_of_int a) (float_of_int b).

(** [x <= y] on floats, as "equal or strictly below". *)
Definition fle (x y : float) : Prop := x = y \/ flt x y = true.

Definition digits (n : Z) : string :=
  NilZero.string_of_uint (N.to_uint (Z.to_N n)).

Fixpoint zeros (n : nat) : string :=
  match n with
  | O => ""
  | S k => String "0" (zeros k)
  end.

Definition zfill (width : nat) (s : string) : string :=
  zeros (width - String.length s) ++ s.

(** The format specification [:04d]. *)
Definition format_04d (n : Z) : string :=
  if n <? 0 then "-" ++ zfill 3 (digits (- n)) else zfill 4 (digits n).

(** [pathlib.Path.__truediv__] on a directory and a file name. *)
Definition path_join (dir file : string) : string := dir ++ "/" ++ file.

End Py.
Import Py.

(** ** Tensors of the default dtype (binary32) *)

Module Tensor.

Definition t : Type := spec_float.

(** [torch.tensor(x)] for a Python float [x]. *)
Definition tensor (x : float) : t :=
  match x with
  | S754_finite s m e => binary_normalize 24 128 (cond_Zopp s (Zpos m)) e s
  | _ => x
  end.

(** [t.item()]. *)
Definition item (x : t) : float :=
  match x with
  | S754_finite s m e => binary_normalize 53 1024 (cond_Zopp s (Zpos m)) e s
  | _ => x
  end.

Definition add : t -> t -> t := SFadd 24 128.

(** The sum of the ranks' contributions, rank 0 first. *)
Definition sum (xs : list t) : t :=
  match xs with
  | [] => S754_zero false
  | x :: rest => fold_left add rest x
  end.

End Tensor.

(** ** Records of the source *)

Module TrainingConfig.

Record t : Type := mk {
  epochs : Z;
  batch_size : Z;
  learning_rate : float;
  grad_accum_steps : Z;
  grad_clip_norm : float;
  optimizer : string;
  lr_scheduler : string;
  data_dir : string;
  checkpoint_dir : string;
  text_pad_id : Z;
  audio_pad_id : Z;
  num_workers : Z;
  seed : Z;
  backend : string;
  checkpoint_freq : Z;
  validation_freq : Z;
  resume_checkpoint : option string
}.

(** The field defaults of the dataclass.  The class also defines a method
    [post_init__] that would create [checkpoint_dir]; a dataclass calls
    [__post_init__], so nothing calls it and construction checks and
    creates nothing. *)
Definition default : t := {|
  epochs := 100;
  batch_size := 8;
  learning_rate := lit 3 10000;
  grad_accum_steps := 1;
  grad_clip_norm := float_of_int 1;
  optimizer := "AdamW";
  lr_scheduler := "OneCycleLR";
  data_dir := "data";
  checkpoint_dir := "checkpoints";
  text_pad_id := 0;
  audio_pad_id := 0;
  num_workers := 4;
  seed := 42;
  backend := "nccl";
  checkpoint_freq := 1;
  validation_freq := 1;
  resume_checkpoint := None
|}.

End TrainingConfig.

Module TrainerState.

Record t : Type := mk {
  epoch : Z;
  global_step : Z;
  best_loss : float
}.

Definition default : t :=
  {| epoch := 0; global_step := 0; best_loss := inf |}.

End TrainerState.

(** The model replica as the trainer sees it: how many optimizer updates its
    parameters have received and how many micro-batch gradients are
    accumulated since the last [zero_grad]. *)
Record Model : Type := mkModel {
  updates : nat;
  pending_grads : nat
}.

(** What [_create_optimizer] can hand back: an optimizer, or the exception
    object it builds and returns. *)
Inductive OptimizerObj : Type :=
| AdamW (lr : float) (steps : nat)
| OptimizerNotImplementedError (msg : string).

(** What [_create_scheduler] can hand back. *)
Inductive SchedulerObj : Type :=
| OneCycleLR (max_lr : float) (total_steps : Z) (ticks : nat)
| SchedulerNotImplementedError (msg : string).

(** The state dict of a [OneCycleLR]: the total it was built with and the
    steps it has counted. *)
Record SchedulerState : Type := mkSchedulerState {
  saved_total : Z;
  saved_ticks : nat
}.

Module CheckpointState.

Record t : Type := mk {
  model_state : nat;
  optimizer_state : nat;
  scheduler_state : option SchedulerState;
  trainer_state : TrainerState.t;
  config : TrainingConfig.t
}.

End CheckpointState.

(** A data loader: [len(loader)] and the loss of batch [i] on rank [k] when
    the loader is iterated at epoch counter [e]. *)
Record DataLoader : Type := mkDataLoader {
  len : nat;
  loss : Z -> nat -> nat -> float
}.

Inductive LogRecord : Type :=
| LogSaved (path : string)
| LogResumed (path : option string) (epoch : Z)
| LogTrain (epoch global_step : Z) (avg_loss : float)
| LogValidation (avg_loss : float).

Inductive Event : Type :=
| AllReduce (reduced : Tensor.t)
| Broadcast (objects : list Z)
| Logged (r : LogRecord)
| DestroyProcessGroup.

(** The process a trainer lives in: its place in the process group, the
    checkpoint files it can see (newest write first), whether it can write
    them, what rank 0 contributes to a broadcast, and the collectives and
    log lines so far (newest first). *)
Record Process : Type := mkProcess {
  rank : nat;
  world_size : positive;
  disk : list (string * CheckpointState.t);
  writable : bool;
  broadcast_src : list Z;
  trace : list Event
}.

Record DistributedTTSTrainer : Type := mkTrainer {
  config : TrainingConfig.t;
  is_main : bool;
  model : Model;
  optimizer : OptimizerObj;
  train_loader : DataLoader;
  val_loader : DataLoader;
  scheduler : SchedulerObj;
  state : TrainerState.t
}.

(** ** Computations: run state and exceptions *)

Record Run : Type := mkRun {
  self : DistributedTTSTrainer;
  proc : Process
}.

Definition M (A : Type) : Type := Run -> result A * Run.

Definition ret {A} (a : A) : M A := fun r => (Ok a, r).

Definition bind {A B} (m : M A) (k : A -> M B) : M B :=
  fun r =>
    match m r with
    | (Ok a, r') => k a r'
    | (Raise e, r') => (Raise e, r')
    end.

Definition raise {A} (e : exn) : M A := fun r => (Raise e, r).

Definition lift {A} (x : result A) : M A := fun r => (x, r).

Definition get_self : M DistributedTTSTrainer := fun r => (Ok (self r), r).

Definition get_proc : M Process := fun r => (Ok (proc r), r).

Definition modify_self (f : DistributedTTSTrainer -> DistributedTTSTrainer)
  : M unit :=
  fun r => (Ok tt, {| self := f (self r); proc := proc r |}).

Definition modify_proc (f : Process -> Process) : M unit :=
  fun r => (Ok tt, {| self := self r; proc := f (proc r) |}).

Declare Scope py_scope.
Delimit Scope py_scope with py.
Notation "x <- m ;; k" := (bind m (fun x => k))
  (at level 61, m at next level, right associativity) : py_scope.
Notation "m ;; k" := (bind m (fun _ => k))
  (at level 61, right associativity) : py_scope.
Local Open Scope py_scope.

(** [for x in xs: locals = body(x, locals)] *)
Fixpoint for_each {A L} (xs : list A) (body : A -> L -> M L) (l : L) : M L :=
  match xs with
  | [] => ret l
  | x :: rest => l' <- body x l ;; for_each rest body l'
  end.

(** [for i in range(start, start + n): body(i)] *)
Fixpoint for_count (n : nat) (i : Z) (body : Z -> M unit) : M unit :=
  match n with
  | O => ret tt
  | S k => body i ;; for_count k (i + 1) body
  end.

Definition for_range (start stop : Z) (body : Z -> M unit) : M unit :=
  for_count (Z.to_nat (stop - start)) start body.

(** ** Field updates *)

Definition set_state (s : TrainerState.t) (t : DistributedTTSTrainer)
  : DistributedTTSTrainer :=
  {| config := config t; is_main := is_main t; model := model t;
     optimizer := optimizer t; train_loader := train_loader t;
     val_loader := val_loader t; scheduler := scheduler t; state := s |}.

Definition set_model (m : Model) (t : DistributedTTSTrainer)
  : DistributedTTSTrainer :=
  {| config := config t; is_main := is_main t; model := m;
     optimizer := optimizer t; train_loader := train_loader t;
     val_loader := val_loader t; scheduler := scheduler t; state := state t |}.

Definition set_optimizer (o : OptimizerObj) (t : DistributedTTSTrainer)
  : DistributedTTSTrainer :=
  {| config := config t; is_main := is_main t; model := model t;
     optimizer := o; train_loader := train_loader t;
     val_loader := val_loader t; scheduler := scheduler t; state := state t |}.

Definition set_scheduler (s : SchedulerObj) (t : DistributedTTSTrainer)
  : DistributedTTSTrainer :=
  {| config := config t; is_main := is_main t; model := model t;
     optimizer := optimizer t; train_loader := train_loader t;
     val_loader := val_loader t; scheduler := s; state := state t |}.

Definition emit (e : Event) (p : Process) : Process :=
  {| rank := rank p; world_size := world_size p; disk := disk p;
     writable := writable p; broadcast_src := broadcast_src p;
     trace := e :: trace p |}.

Definition write_file (path : string) (c : CheckpointState.t) (p : Process)
  : Process :=
  {| rank := rank p; world_size := world_size p; disk := (path, c) :: disk p;
     writable := writable p; broadcast_src := broadcast_src p;
     trace := trace p |}.

Fixpoint read_file (path : string) (d : list (string * CheckpointState.t))
  : option CheckpointState.t :=
  match d with
  | [] => None
  | (p, c) :: rest => if String.eqb p path then Some c else read_file path rest
  end.

(** ** The collaborators' calls *)

Definition logger_info (r : LogRecord) : M unit := modify_proc (emit (Logged r)).

(** The ranks of the group, [0 .. world_size - 1]. *)
Definition ranks (p : Process) : list nat := seq 0 (Pos.to_nat (world_size p)).

(** [dist.all_reduce(tensor, op=SUM)]: every rank contributes the tensor it
    built from its own value; [value k] is rank [k]'s Python float. *)
Definition all_reduce (value : nat -> float) : M Tensor.t :=
  p <- get_proc ;;
  let reduced := Tensor.sum (map (fun k => Tensor.tensor (value k)) (ranks p)) in
  modify_proc (emit (AllReduce reduced)) ;;
  ret reduced.

(** [dist.broadcast_object_list(object_list, src=0)]: the contents of the
    list after the call. *)
Definition broadcast_object_list (object_list : list Z) : M (list Z) :=
  p <- get_proc ;;
  let received :=
    if Nat.eqb (rank p) 0 then object_list else broadcast_src p in
  modify_proc (emit (Broadcast received)) ;;
  ret received.

(** [torch.save]. *)
Definition torch_save (c : CheckpointState.t) (path : string) : M unit :=
  p <- get_proc ;;
  if writable p then modify_proc (write_file path c)
  else raise (SaveError path).

(** [CheckpointState.load]. *)
Definition CheckpointState_load (path : option string) : M CheckpointState.t :=
  p <- get_proc ;;
  match path with
  | Some f =>
      match read_file f (disk p) with
      | Some c => ret c
      | None => raise (LoadError path)
      end
  | None => raise (LoadError None)
  end.

Definition optimizer_state_dict (o : OptimizerObj) : result nat :=
  match o with
  | AdamW _ steps => Ok steps
  | OptimizerNotImplementedError _ =>
      Raise (AttributeError "NotImplementedError" "state_dict")
  end.

Definition optimizer_load_state_dict (o : OptimizerObj) (s : nat)
  : result OptimizerObj :=
  match o with
  | AdamW lr _ => Ok (AdamW lr s)
  | OptimizerNotImplementedError _ =>
      Raise (AttributeError "NotImplementedError" "load_state_dict")
  end.

Definition optimizer_step (o : OptimizerObj) : result OptimizerObj :=
  match o with
  | AdamW lr steps => Ok (AdamW lr (S steps))
  | OptimizerNotImplementedError _ =>
      Raise (AttributeError "NotImplementedError" "step")
  end.

Definition optimizer_zero_grad (o : OptimizerObj) : result unit :=
  match o with
  | AdamW _ _ => Ok tt
  | OptimizerNotImplementedError _ =>
      Raise (AttributeError "NotImplementedError" "zero_grad")
  end.

Definition scheduler_state_dict (s : SchedulerObj) : result SchedulerState :=
  match s with
  | OneCycleLR _ total ticks =>
      Ok {| saved_total := total; saved_ticks := ticks |}
  | SchedulerNotImplementedError _ =>
      Raise (AttributeError "NotImplementedError" "state_dict")
  end.

(** [scheduler.load_state_dict(state)] replaces what the state dict holds:
    the total and the step count. *)
Definition scheduler_load_state_dict (s : SchedulerObj) (saved : SchedulerState)
  : result SchedulerObj :=
  match s with
  | OneCycleLR lr _ _ =>
      Ok (OneCycleLR lr (saved_total saved) (saved_ticks saved))
  | SchedulerNotImplementedError _ =>
      Raise (AttributeError "NotImplementedError" "load_state_dict")
  end.

(** [AdamW(params, lr=lr)]: the learning rate must not be below [0.0]. *)
Definition AdamW_new (lr : float) : result OptimizerObj :=
  if SFleb zero lr then Ok (AdamW lr 0) else Raise ValueError.

(** [DataLoader(dataset, batch_size=..., sampler=..., num_workers=...,
    persistent_workers=...)] over the batches [batches] the data set and its
    sampler give: the workers must not be negative, and positive where they
    persist; the batch size must be positive. *)
Definition DataLoader_new (batches : DataLoader) (batch_size num_workers : Z)
    (persistent_workers : bool) : result DataLoader :=
  if num_workers <? 0 then Raise ValueError
  else if persistent_workers && (num_workers =? 0) then Raise ValueError
  else if batch_size <=? 0 then Raise ValueError
  else Ok batches.

(** [torch.optim.lr_scheduler.OneCycleLR(optimizer, max_lr, total_steps)]:
    the optimizer must be one, the total positive. *)
Definition OneCycleLR_new (o : OptimizerObj) (max_lr : float) (total_steps : Z)
  : result SchedulerObj :=
  match o with
  | AdamW _ _ =>
      if total_steps <=? 0 then Raise ValueError
      else Ok (OneCycleLR max_lr total_steps 0)
  | OptimizerNotImplementedError _ => Raise TypeError
  end.

(** [scheduler.step()]: the outcome and the scheduler afterwards.  A
    [OneCycleLR] counts the step, then refuses it when the count has passed
    the total. *)
Definition scheduler_step (s : SchedulerObj) : result unit * SchedulerObj :=
  match s with
  | OneCycleLR lr total ticks =>
      (if total <? Z.of_nat (S ticks) then Raise ValueError else Ok tt,
       OneCycleLR lr total (S ticks))
  | SchedulerNotImplementedError _ =>
      (Raise (AttributeError "NotImplementedError" "step"), s)
  end.

(** ** class DistributedTTSTrainer *)

Definition _create_optimizer (cfg : TrainingConfig.t) : result OptimizerObj :=
  if String.eqb (TrainingConfig.optimizer cfg) "AdamW" then
    AdamW_new (TrainingConfig.learning_rate cfg)
  else
    Ok (OptimizerNotImplementedError
          ("Optimizer: " ++ TrainingConfig.optimizer cfg ++ " not implemented!")).

(** [_create_dataloaders], [train_data] and [val_data] being the batches
    the two data sets give on this rank. *)
Definition _create_dataloaders (cfg : TrainingConfig.t)
    (train_data val_data : DataLoader) : result (DataLoader * DataLoader) :=
  match DataLoader_new train_data (TrainingConfig.batch_size cfg)
          (TrainingConfig.num_workers cfg) true with
  | Raise e => Raise e
  | Ok train_loader =>
      match DataLoader_new val_data (TrainingConfig.batch_size cfg)
              (TrainingConfig.num_workers cfg) false with
      | Raise e => Raise e
      | Ok val_loader => Ok (train_loader, val_loader)
      end
  end.

Definition _create_scheduler (cfg : TrainingConfig.t) (optimizer : OptimizerObj)
    (train_loader : DataLoader) : result SchedulerObj :=
  if String.eqb (TrainingConfig.lr_scheduler cfg) "OneCycleLR" then
    match floordiv (Z.of_nat (len train_loader))
                   (TrainingConfig.grad_accum_steps cfg) with
    | Ok windows =>
        OneCycleLR_new optimizer (TrainingConfig.learning_rate cfg)
          (TrainingConfig.epochs cfg * windows)
    | Raise e => Raise e
    end
  else
    Ok (SchedulerNotImplementedError
          ("lr_scheduler:" ++ TrainingConfig.lr_scheduler cfg
             ++ " not implemented!")).

Definition checkpoint_filename (epoch : Z) (best : bool) : string :=
  if negb best then "checkpoint_" ++ format_04d epoch ++ ".pt" else "best.pt".

Definition save_checkpoint (best : bool) : M unit :=
  t <- get_self ;;
  if negb (is_main t) then ret tt
  else
    let model_state := updates (model t) in
    optimizer_state <- lift (optimizer_state_dict (optimizer t)) ;;
    (* [self.scheduler] is an object without [__bool__]: always true *)
    scheduler_state <- lift (scheduler_state_dict (scheduler t)) ;;
    let checkpoint :=
      {| CheckpointState.model_state := model_state;
         CheckpointState.optimizer_state := optimizer_state;
         CheckpointState.scheduler_state := Some scheduler_state;
         CheckpointState.trainer_state := state t;
         CheckpointState.config := config t |} in
    let filename :=
      checkpoint_filename (TrainerState.epoch (state t)) best in
    let path := path_join (TrainingConfig.checkpoint_dir (config t)) filename in
    torch_save checkpoint path ;;
    logger_info (LogSaved path).

Definition load_checkpoint : M unit :=
  t <- get_self ;;
  checkpoint <-
    CheckpointState_load (TrainingConfig.resume_checkpoint (config t)) ;;
  modify_self
    (set_model {| updates := CheckpointState.model_state checkpoint;
                  pending_grads := pending_grads (model t) |}) ;;
  o <- lift (optimizer_load_state_dict
               (optimizer t) (CheckpointState.optimizer_state checkpoint)) ;;
  modify_self (set_optimizer o) ;;
  match CheckpointState.scheduler_state checkpoint with
  | Some snapshot =>
      s <- lift (scheduler_load_state_dict (scheduler t) snapshot) ;;
      modify_self (set_scheduler s)
  | None => ret tt
  end ;;
  modify_self (set_state (CheckpointState.trainer_state checkpoint)) ;;
  t <- get_self ;;
  (* the list handed to the broadcast is a temporary: nothing reads it back *)
  _ <- broadcast_object_list
         [TrainerState.epoch (state t); TrainerState.global_step (state t)] ;;
  logger_info
    (LogResumed (TrainingConfig.resume_checkpoint (config t))
                (TrainerState.epoch (state t))).

(** [DistributedTTSTrainer(config, model, device)], [train_data] and
    [val_data] being the batches the two data sets give on this rank. *)
Definition __init__ (cfg : TrainingConfig.t) (model : Model)
    (train_data val_data : DataLoader) (p : Process)
  : result DistributedTTSTrainer * Process :=
  let is_main := Nat.eqb (rank p) 0 in
  match _create_optimizer cfg with
  | Raise e => (Raise e, p)
  | Ok optimizer =>
      match _create_dataloaders cfg train_data val_data with
      | Raise e => (Raise e, p)
      | Ok (train_loader, val_loader) =>
          match _create_scheduler cfg optimizer train_loader with
          | Raise e => (Raise e, p)
          | Ok scheduler =>
              let t :=
                {| config := cfg; is_main := is_main; model := model;
                   optimizer := optimizer; train_loader := train_loader;
                   val_loader := val_loader; scheduler := scheduler;
                   state := TrainerState.default |} in
              match TrainingConfig.resume_checkpoint cfg with
              | Some _ =>
                  match load_checkpoint {| self := t; proc := p |} with
                  | (Ok _, r) => (Ok (self r), proc r)
                  | (Raise e, r) => (Raise e, proc r)
                  end
              | None => (Ok t, p)
              end
          end
      end
  end.

(** The variables local to the loop of [train_epoch].  [total_loss k] is the
    running sum on rank [k]: the collective at a window boundary reads every
    rank's. *)
Record EpochLocals : Type := mkLocals {
  total_loss : nat -> float;
  accum_steps : nat
}.

Definition backward (m : Model) : Model :=
  {| updates := updates m; pending_grads := S (pending_grads m) |}.

Definition apply_update (m : Model) : Model :=
  {| updates := S (updates m); pending_grads := pending_grads m |}.

Definition clear_grads (m : Model) : Model :=
  {| updates := updates m; pending_grads := 0 |}.

Definition bump_global_step (s : TrainerState.t) : TrainerState.t :=
  {| TrainerState.epoch := TrainerState.epoch s;
     TrainerState.global_step := TrainerState.global_step s + 1;
     TrainerState.best_loss := TrainerState.best_loss s |}.

Definition bump_epoch (s : TrainerState.t) : TrainerState.t :=
  {| TrainerState.epoch := TrainerState.epoch s + 1;
     TrainerState.global_step := TrainerState.global_step s;
     TrainerState.best_loss := TrainerState.best_loss s |}.

Definition set_best_loss (x : float) (s : TrainerState.t) : TrainerState.t :=
  {| TrainerState.epoch := TrainerState.epoch s;
     TrainerState.global_step := TrainerState.global_step s;
     TrainerState.best_loss := x |}.

(** The body of the loop of [train_epoch] for the batch at [batch_idx], the
    sampler being set to epoch [e]. *)
Definition train_batch (e : Z) (batch_idx : nat) (l : EpochLocals)
  : M EpochLocals :=
  t <- get_self ;;
  let batch_loss := loss (train_loader t) e batch_idx in
  (* scaled_loss = loss / grad_accum_steps is a tensor division: no raise *)
  modify_self (set_model (backward (model t))) ;;
  let total_loss := fun k => fadd (total_loss l k) (batch_loss k) in
  let accum_steps := S (accum_steps l) in
  r <- lift (mod_ (Z.of_nat batch_idx + 1)
                  (TrainingConfig.grad_accum_steps (config t))) ;;
  if r =? 0 then
    reduced <- all_reduce total_loss ;;
    (if is_main t then
       p <- get_proc ;;
       avg_loss <- lift (truediv (Tensor.item reduced)
                           (Z.of_nat accum_steps * Zpos (world_size p))) ;;
       logger_info (LogTrain (TrainerState.epoch (state t))
                             (TrainerState.global_step (state t)) avg_loss)
     else ret tt) ;;
    (* clip_grad_norm_ rescales the gradients in place *)
    o <- lift (optimizer_step (optimizer t)) ;;
    modify_self (set_optimizer o) ;;
    t <- get_self ;;
    modify_self (set_model (apply_update (model t))) ;;
    _ <- lift (optimizer_zero_grad o) ;;
    t <- get_self ;;
    modify_self (set_model (clear_grads (model t))) ;;
    modify_self (set_scheduler (snd (scheduler_step (scheduler t)))) ;;
    _ <- lift (fst (scheduler_step (scheduler t))) ;;
    t <- get_self ;;
    modify_self (set_state (bump_global_step (state t))) ;;
    ret {| total_loss := fun _ => zero; accum_steps := 0 |}
  else
    ret {| total_loss := total_loss; accum_steps := accum_steps |}.

Definition train_epoch : M unit :=
  t <- get_self ;;
  (* self.train_loader.sampler.set_epoch(self.state.epoch) *)
  let e := TrainerState.epoch (state t) in
  _ <- for_each (seq 0 (len (train_loader t))) (train_batch e)
         {| total_loss := fun _ => zero; accum_steps := 0 |} ;;
  t <- get_self ;;
  modify_self (set_state (bump_epoch (state t))).

(** The body of the loop of [validate]. *)
Definition validate_batch (e : Z) (world_size : Z) (batch_idx : nat)
    (total_loss : float) : M float :=
  t <- get_self ;;
  reduced <- all_reduce (loss (val_loader t) e batch_idx) ;;
  mean <- lift (truediv (Tensor.item reduced) world_size) ;;
  ret (fadd total_loss mean).

Definition validate : M unit :=
  t <- get_self ;;
  (* a DataLoader is false when its length is 0 *)
  if Nat.eqb (len (val_loader t)) 0 then ret tt
  else
    p <- get_proc ;;
    let world_size := Zpos (world_size p) in
    total_loss <-
      for_each (seq 0 (len (val_loader t)))
        (validate_batch (TrainerState.epoch (state t)) world_size) zero ;;
    avg_loss <- lift (truediv total_loss (Z.of_nat (len (val_loader t)))) ;;
    if is_main t then
      logger_info (LogValidation avg_loss) ;;
      if flt avg_loss (TrainerState.best_loss (state t)) then
        modify_self (set_state (set_best_loss avg_loss (state t))) ;;
        save_checkpoint true
      else ret tt
    else ret tt.

(** ** def train *)

(** One turn of the epoch loop of [train]. *)
Definition train_iteration (cfg : TrainingConfig.t) (epoch : Z) : M unit :=
  train_epoch ;;
  r <- lift (mod_ (epoch + 1) (TrainingConfig.validation_freq cfg)) ;;
  (if r =? 0 then validate else ret tt) ;;
  r <- lift (mod_ (epoch + 1) (TrainingConfig.checkpoint_freq cfg)) ;;
  if r =? 0 then save_checkpoint false else ret tt.

Definition train_loop (cfg : TrainingConfig.t) : M unit :=
  t <- get_self ;;
  let start_epoch := TrainerState.epoch (state t) in
  for_range start_epoch (TrainingConfig.epochs cfg) (train_iteration cfg).

(** [dist.destroy_process_group()], the last statement of [train]: the
    trace records it.  The process is followed no further: nothing is run on
    a process once its group is gone. *)
Definition destroy_process_group : M unit :=
  modify_proc (emit DestroyProcessGroup).

(** A freshly built [TTSTransformer]. *)
Definition TTSTransformer : Model := {| updates := 0; pending_grads := 0 |}.

(** [train(config)] in the process [p] that [setup_distributed] joined to
    the group: the outcome, the trainer if one was constructed, and the
    process afterwards. *)
Definition train (cfg : TrainingConfig.t) (train_loader val_loader : DataLoader)
    (p : Process)
  : result unit * option DistributedTTSTrainer * Process :=
  match __init__ cfg TTSTransformer train_loader val_loader p with
  | (Raise e, p') => (Raise e, None, p')
  | (Ok trainer, p') =>
      let '(r, run) :=
        (train_loop cfg ;; destroy_process_group)
          {| self := trainer; proc := p' |} in
      (r, Some (self run), proc run)
  end.

(** * Vocabulary of the statements *)

(** ** Observations on a run state *)

Definition epoch_of (r : Run) : Z := TrainerState.epoch (state (self r)).

Definition global_step_of (r : Run) : Z :=
  TrainerState.global_step (state (self r)).

Definition best_loss_of (r : Run) : float :=
  TrainerState.best_loss (state (self r)).

Definition optimizer_steps (r : Run) : nat :=
  match optimizer (self r) with
  | AdamW _ steps => steps
  | OptimizerNotImplementedError _ => 0
  end.

Definition scheduler_ticks (r : Run) : nat :=
  match scheduler (self r) with
  | OneCycleLR _ _ ticks => ticks
  | SchedulerNotImplementedError _ => 0
  end.

(** The steps a scheduler still takes. *)
Definition ticks_left (r : Run) : nat :=
  match scheduler (self r) with
  | OneCycleLR _ total ticks => Z.to_nat (total - Z.of_nat ticks)
  | SchedulerNotImplementedError _ => 0
  end.

(** The optimizer and the data loaders can be built from [cfg]: the learning
    rate is one [AdamW] accepts where [AdamW] is asked for, and the batch
    size and the number of workers are positive. *)
Definition buildable (cfg : TrainingConfig.t) : bool :=
  (negb (String.eqb (TrainingConfig.optimizer cfg) "AdamW")
   || SFleb zero (TrainingConfig.learning_rate cfg))
  && (0 <? TrainingConfig.batch_size cfg)
  && (0 <? TrainingConfig.num_workers cfg).

(** Both factories produced a working object. *)
Definition operational (r : Run) : bool :=
  match optimizer (self r), scheduler (self r) with
  | AdamW _ _, OneCycleLR _ _ _ => true
  | _, _ => false
  end.

(** The accumulation-boundary test of [train_epoch] for window [W]. *)
Definition window_closes (W : Z) (batch_idx : nat) : bool :=
  (Z.of_nat batch_idx + 1) mod W =? 0.

Definition windows_closed (W : Z) (idxs : list nat) : nat :=
  List.length (filter (window_closes W) idxs).

(** What no method of the trainer touches. *)
Record same_setting (r r' : Run) : Prop := mkSame {
  keep_config : config (self r') = config (self r);
  keep_is_main : is_main (self r') = is_main (self r);
  keep_train_loader : train_loader (self r') = train_loader (self r);
  keep_val_loader : val_loader (self r') = val_loader (self r);
  keep_rank : rank (proc r') = rank (proc r);
  keep_world_size : world_size (proc r') = world_size (proc r);
  keep_writable : writable (proc r') = writable (proc r);
  keep_broadcast_src : broadcast_src (proc r') = broadcast_src (proc r)
}.

(** The progress counters a window boundary advances together. *)
Definition advanced (n : nat) (r r' : Run) : Prop :=
  global_step_of r' = global_step_of r + Z.of_nat n /\
  optimizer_steps r' = (optimizer_steps r + n)%nat /\
  scheduler_ticks r' = (scheduler_ticks r + n)%nat /\
  ticks_left r' = (ticks_left r - n)%nat /\
  updates (model (self r')) = (updates (model (self r)) + n)%nat.

(** What a training pass leaves alone besides the setting. *)
Definition training_frame (r r' : Run) : Prop :=
  same_setting r r' /\
  epoch_of r' = epoch_of r /\
  best_loss_of r' = best_loss_of r /\
  disk (proc r') = disk (proc r).

(** ** Saving *)

(** The bundle [save_checkpoint] builds from a working trainer. *)
Definition bundle_of (t : DistributedTTSTrainer) : CheckpointState.t :=
  {| CheckpointState.model_state := updates (model t);
     CheckpointState.optimizer_state :=
       match optimizer t with AdamW _ n => n | _ => O end;
     CheckpointState.scheduler_state :=
       Some (match scheduler t with
             | OneCycleLR _ total n =>
                 {| saved_total := total; saved_ticks := n |}
             | _ => {| saved_total := 0; saved_ticks := O |}
             end);
     CheckpointState.trainer_state := state t;
     CheckpointState.config := config t |}.

Definition checkpoint_path (t : DistributedTTSTrainer) (best : bool) : string :=
  path_join (TrainingConfig.checkpoint_dir (config t))
            (checkpoint_filename (TrainerState.epoch (state t)) best).

(** The process after a successful write by [save_checkpoint]. *)
Definition saved (t : DistributedTTSTrainer) (best : bool) (p : Process)
  : Process :=
  emit (Logged (LogSaved (checkpoint_path t best)))
       (write_file (checkpoint_path t best) (bundle_of t) p).

(** ** Validation *)

(** The mean validation loss in the words of the specification: per batch,
    the collective sum of the ranks' losses divided by the world size; these
    summed over the batches and divided by the number of batches. *)
Definition collective_sum (w : positive) (per_rank : nat -> float) : Tensor.t :=
  Tensor.sum (map (fun k => Tensor.tensor (per_rank k)) (seq 0 (Pos.to_nat w))).

Definition batch_mean (vl : DataLoader) (e : Z) (w : positive) (i : nat)
  : float :=
  fdiv (Tensor.item (collective_sum w (loss vl e i))) (float_of_int (Zpos w)).

Definition float_sum (xs : list float) : float := fold_left fadd xs zero.

Definition mean_validation_loss (vl : DataLoader) (e : Z) (w : positive)
  : float :=
  fdiv (float_sum (map (batch_mean vl e w) (seq 0 (len vl))))
       (float_of_int (Z.of_nat (len vl))).

(** The collectives a validation pass over the batches [idxs] performs. *)
Definition validation_reduces (vl : DataLoader) (e : Z) (w : positive)
    (idxs : list nat) : list Event :=
  map (fun i => AllReduce (collective_sum w (loss vl e i))) idxs.

Definition emit_all (es : list Event) (p : Process) : Process :=
  fold_left (fun q ev => emit ev q) es p.

(** The part of [validate] that follows the computation of [avg_loss]. *)
Definition judge (avg_loss : float) (r : Run) : result unit * Run :=
  if is_main (self r) then
    let logged :=
      {| self := self r;
         proc := emit (Logged (LogValidation avg_loss)) (proc r) |} in
    if flt avg_loss (best_loss_of r) then
      save_checkpoint true
        {| self := set_state (set_best_loss avg_loss (state (self r))) (self r);
           proc := proc logged |}
    else (Ok tt, logged)
  else (Ok tt, r).

(** The periodic saves on a disk whose checkpoint directory is [dir]: the
    files other than the best one, with the epoch their bundle records. *)
Definition is_periodic (dir : string) (entry : string * CheckpointState.t)
  : bool :=
  negb (String.eqb (fst entry) (path_join dir "best.pt")).

Definition periodic_saves (dir : string) (d : list (string * CheckpointState.t))
  : list (string * Z) :=
  map (fun entry =>
         (fst entry,
          TrainerState.epoch (CheckpointState.trainer_state (snd entry))))
      (filter (is_periodic dir) d).

(** The best saves on that disk, with the best loss their bundle records. *)
Definition best_saves (dir : string) (d : list (string * CheckpointState.t))
  : list float :=
  map (fun entry =>
         TrainerState.best_loss (CheckpointState.trainer_state (snd entry)))
      (filter (fun entry => negb (is_periodic dir entry)) d).

Definition improved (avg : float) (t : DistributedTTSTrainer)
  : DistributedTTSTrainer :=
  set_state (set_best_loss avg (state t)) t.

Definition after_validation (r : Run) : Run :=
  let vl := val_loader (self r) in
  let w := world_size (proc r) in
  let avg := mean_validation_loss vl (epoch_of r) w in
  let reduced :=
    emit_all (validation_reduces vl (epoch_of r) w (seq 0 (len vl))) (proc r) in
  let logged := emit (Logged (LogValidation avg)) reduced in
  if is_main (self r) then
    if flt avg (best_loss_of r) then
      {| self := improved avg (self r);
         proc := saved (improved avg (self r)) true logged |}
    else {| self := self r; proc := logged |}
  else {| self := self r; proc := reduced |}.

(** ** The epoch loop *)

(** A run the epoch loop of [train] goes through without an exception. *)
Record ready (cfg : TrainingConfig.t) (r : Run) : Prop := mkReady {
  ready_config : config (self r) = cfg;
  ready_operational : operational r = true;
  ready_window : TrainingConfig.grad_accum_steps cfg <> 0;
  ready_validation : TrainingConfig.validation_freq cfg <> 0;
  ready_checkpoint : TrainingConfig.checkpoint_freq cfg <> 0;
  ready_disk : is_main (self r) = true -> writable (proc r) = true
}.

Definition periodic_entry (dir : string) (e : Z) : string * Z :=
  (path_join dir (checkpoint_filename e false), e).

(** The optimizer steps of one epoch. *)
Definition steps_per_epoch (r : Run) : nat :=
  windows_closed (TrainingConfig.grad_accum_steps (config (self r)))
    (seq 0 (len (train_loader (self r)))).

(** What one turn of the epoch loop does to a ready run. *)
Record turn (cfg : TrainingConfig.t) (r r' : Run) : Prop := mkTurn {
  turn_ready : ready cfg r';
  turn_setting : same_setting r r';
  turn_epoch : epoch_of r' = epoch_of r + 1;
  turn_steps : advanced (steps_per_epoch r) r r';
  turn_best : fle (best_loss_of r') (best_loss_of r);
  turn_other :
    is_main (self r) = false ->
    best_loss_of r' = best_loss_of r /\ disk (proc r') = disk (proc r);
  turn_saves :
    is_main (self r) = true ->
    periodic_saves (TrainingConfig.checkpoint_dir cfg) (disk (proc r')) =
    ((if (epoch_of r + 1) mod TrainingConfig.checkpoint_freq cfg =? 0
      then [periodic_entry (TrainingConfig.checkpoint_dir cfg) (epoch_of r + 1)]
      else [])
       ++ periodic_saves (TrainingConfig.checkpoint_dir cfg) (disk (proc r)))%list
}.

(** The epochs completed by [n] turns of the loop entered at [start]. *)
Definition completed_epochs (start : Z) (n : nat) : list Z :=
  map (fun k => start + 1 + Z.of_nat k) (seq 0 n).

(** The periodic saves those turns owe, oldest first. *)
Definition periodic_expected (cfg : TrainingConfig.t) (start : Z) (n : nat)
  : list (string * Z) :=
  map (periodic_entry (TrainingConfig.checkpoint_dir cfg))
      (filter (fun e => e mod TrainingConfig.checkpoint_freq cfg =? 0)
              (completed_epochs start n)).

(** Non-decreasing epoch, non-increasing best loss, untouched setting. *)
Definition monotone (r r' : Run) : Prop :=
  same_setting r r' /\
  epoch_of r <= epoch_of r' /\
  fle (best_loss_of r') (best_loss_of r).

(** ** Scenarios *)

Module Scenario.

(** Rank [k] of a group of two, with an empty, writable checkpoint store. *)
Definition process (k : nat) : Process :=
  {| rank := k; world_size := 2; disk := []; writable := true;
     broadcast_src := []; trace := [] |}.

(** The default configuration with the given epoch count, accumulation
    window, checkpoint cadence and validation cadence. *)
Definition run_config (epochs window checkpoint_freq validation_freq : Z)
  : TrainingConfig.t :=
  {| TrainingConfig.epochs := epochs;
     TrainingConfig.batch_size := 8;
     TrainingConfig.learning_rate := lit 3 10000;
     TrainingConfig.grad_accum_steps := window;
     TrainingConfig.grad_clip_norm := float_of_int 1;
     TrainingConfig.optimizer := "AdamW";
     TrainingConfig.lr_scheduler := "OneCycleLR";
     TrainingConfig.data_dir := "data";
     TrainingConfig.checkpoint_dir := "checkpoints";
     TrainingConfig.text_pad_id := 0;
     TrainingConfig.audio_pad_id := 0;
     TrainingConfig.num_workers := 4;
     TrainingConfig.seed := 42;
     TrainingConfig.backend := "nccl";
     TrainingConfig.checkpoint_freq := checkpoint_freq;
     TrainingConfig.validation_freq := validation_freq;
     TrainingConfig.resume_checkpoint := None |}.

(** Four training batches per epoch and rank: loss 0.5 on rank 0 and 0.25
    on rank 1. *)
Definition four_batches : DataLoader :=
  {| len := 4;
     loss := fun _ _ k => if Nat.eqb k 0 then lit 1 2 else lit 1 4 |}.

(** One validation batch: loss 0.4 on rank 0 and 0.6 on rank 1. *)
Definition one_validation_batch : DataLoader :=
  {| len := 1;
     loss := fun _ _ k => if Nat.eqb k 0 then lit 4 10 else lit 6 10 |}.

Definition no_batches : DataLoader :=
  {| len := 0; loss := fun _ _ _ => zero |}.

(** The trainer [__init__] builds on rank [k] from [cfg]. *)
Definition trainer (cfg : TrainingConfig.t) (k : nat) : DistributedTTSTrainer :=
  {| config := cfg;
     is_main := Nat.eqb k 0;
     model := TTSTransformer;
     optimizer := AdamW (TrainingConfig.learning_rate cfg) 0;
     train_loader := four_batches;
     val_loader := one_validation_batch;
     scheduler :=
       OneCycleLR (TrainingConfig.learning_rate cfg)
         (TrainingConfig.epochs cfg
            * (4 / TrainingConfig.grad_accum_steps cfg)) 0;
     state := TrainerState.default |}.

Definition run (cfg : TrainingConfig.t) (k : nat) : Run :=
  {| self := trainer cfg k; proc := process k |}.

(** Rank 0 of the default run, without validation data. *)
Definition without_validation : DistributedTTSTrainer :=
  {| config := run_config 1 2 1 1;
     is_main := true;
     model := TTSTransformer;
     optimizer := AdamW (lit 3 10000) 0;
     train_loader := four_batches;
     val_loader := no_batches;
     scheduler := OneCycleLR (lit 3 10000) 2 0;
     state := TrainerState.default |}.

End Scenario.

(** A configuration of kinds the factories do not know. *)
Definition unsupported_kinds : TrainingConfig.t :=
  {| TrainingConfig.epochs := 1;
     TrainingConfig.batch_size := 8;
     TrainingConfig.learning_rate := lit 3 10000;
     TrainingConfig.grad_accum_steps := 2;
     TrainingConfig.grad_clip_norm := float_of_int 1;
     TrainingConfig.optimizer := "SGD";
     TrainingConfig.lr_scheduler := "StepLR";
     TrainingConfig.data_dir := "data";
     TrainingConfig.checkpoint_dir := "checkpoints";
     TrainingConfig.text_pad_id := 0;
     TrainingConfig.audio_pad_id := 0;
     TrainingConfig.num_workers := 4;
     TrainingConfig.seed := 42;
     TrainingConfig.backend := "nccl";
     TrainingConfig.checkpoint_freq := 1;
     TrainingConfig.validation_freq := 1;
     TrainingConfig.resume_checkpoint := None |}.

(** One training batch per epoch: with window 2 no window ever closes. *)
Definition one_batch : DataLoader :=
  {| len := 1; loss := fun _ _ _ => lit 1 2 |}.

Module Resume.

Definition path : string := "checkpoints/checkpoint_0003.pt".

Definition resuming : TrainingConfig.t :=
  {| TrainingConfig.epochs := 5;
     TrainingConfig.batch_size := 8;
     TrainingConfig.learning_rate := lit 3 10000;
     TrainingConfig.grad_accum_steps := 2;
     TrainingConfig.grad_clip_norm := float_of_int 1;
     TrainingConfig.optimizer := "AdamW";
     TrainingConfig.lr_scheduler := "OneCycleLR";
     TrainingConfig.data_dir := "data";
     TrainingConfig.checkpoint_dir := "checkpoints";
     TrainingConfig.text_pad_id := 0;
     TrainingConfig.audio_pad_id := 0;
     TrainingConfig.num_workers := 4;
     TrainingConfig.seed := 42;
     TrainingConfig.backend := "nccl";
     TrainingConfig.checkpoint_freq := 1;
     TrainingConfig.validation_freq := 1;
     TrainingConfig.resume_checkpoint := Some path |}.

(** A bundle saved after [epoch] epochs and [steps] optimizer steps by a run
    of as many epochs as [resuming] has, with as many steps in each. *)
Definition bundle (epoch : Z) (steps : nat) (best : float)
  : CheckpointState.t :=
  {| CheckpointState.model_state := steps;
     CheckpointState.optimizer_state := steps;
     CheckpointState.scheduler_state :=
       Some {| saved_total :=
                 TrainingConfig.epochs resuming * (Z.of_nat steps / epoch);
               saved_ticks := steps |};
     CheckpointState.trainer_state :=
       {| TrainerState.epoch := epoch;
          TrainerState.global_step := Z.of_nat steps;
          TrainerState.best_loss := best |};
     CheckpointState.config := resuming |}.

(** Rank [k] of two, seeing [b] at the resume path, while rank 0 contributes
    [src] to the broadcast. *)
Definition process (k : nat) (b : CheckpointState.t) (src : list Z) : Process :=
  {| rank := k; world_size := 2; disk := [(path, b)]; writable := true;
     broadcast_src := src; trace := [] |}.

End Resume.

(** * Vocabulary of the further properties *)

(** ** File names *)

(** Reading an epoch tag back, the way Python's [int] reads a decimal
    string. *)
Definition read_04d (s : string) : option Z :=
  option_map Z.of_int (NilZero.int_of_string s).

(** ** Resuming *)

(** [cfg] with [resume_checkpoint] set to [path]. *)
Definition resuming_from (path : string) (cfg : TrainingConfig.t)
  : TrainingConfig.t :=
  {| TrainingConfig.epochs := TrainingConfig.epochs cfg;
     TrainingConfig.batch_size := TrainingConfig.batch_size cfg;
     TrainingConfig.learning_rate := TrainingConfig.learning_rate cfg;
     TrainingConfig.grad_accum_steps := TrainingConfig.grad_accum_steps cfg;
     TrainingConfig.grad_clip_norm := TrainingConfig.grad_clip_norm cfg;
     TrainingConfig.optimizer := TrainingConfig.optimizer cfg;
     TrainingConfig.lr_scheduler := TrainingConfig.lr_scheduler cfg;
     TrainingConfig.data_dir := TrainingConfig.data_dir cfg;
     TrainingConfig.checkpoint_dir := TrainingConfig.checkpoint_dir cfg;
     TrainingConfig.text_pad_id := TrainingConfig.text_pad_id cfg;
     TrainingConfig.audio_pad_id := TrainingConfig.audio_pad_id cfg;
     TrainingConfig.num_workers := TrainingConfig.num_workers cfg;
     TrainingConfig.seed := TrainingConfig.seed cfg;
     TrainingConfig.backend := TrainingConfig.backend cfg;
     TrainingConfig.checkpoint_freq := TrainingConfig.checkpoint_freq cfg;
     TrainingConfig.validation_freq := TrainingConfig.validation_freq cfg;
     TrainingConfig.resume_checkpoint := Some path |}.

(** What the broadcast of [load_checkpoint] leaves in the list it was
    handed, on the rank of process [p] that resumed at state [s]. *)
Definition resume_broadcast (p : Process) (s : TrainerState.t) : list Z :=
  if Nat.eqb (rank p) 0
  then [TrainerState.epoch s; TrainerState.global_step s]
  else broadcast_src p.


(** ** Tearing the group down *)

Definition is_teardown (e : Event) : bool :=
  match e with
  | DestroyProcessGroup => true
  | _ => false
  end.

(** How often the process group was destroyed. *)
Definition teardowns (p : Process) : nat :=
  List.length (filter is_teardown (trace p)).

(** The run state keeps its count of teardowns. *)
Definition quiet (r r' : Run) : Prop :=
  teardowns (proc r') = teardowns (proc r).


(** ** The best checkpoint on disk *)

(** The bundle a reader finds under the best name in the checkpoint
    directory of [r], if there is one. *)
Definition best_file (r : Run) : option CheckpointState.t :=
  read_file (path_join (TrainingConfig.checkpoint_dir (config (self r)))
               "best.pt")
    (disk (proc r)).

(** From [r] to [r']: either the best loss and the best file are what they
    were, or the best loss fell and the best file records it. *)
Definition best_file_tracks (r r' : Run) : Prop :=
  same_setting r r' /\
  ((best_loss_of r' = best_loss_of r /\ best_file r' = best_file r) \/
   (exists c,
       best_file r' = Some c /\
       TrainerState.best_loss (CheckpointState.trainer_state c)
         = best_loss_of r' /\
       flt (best_loss_of r') (best_loss_of r) = true)).


(** ** The training log *)

(** What rank [k] has summed up over window [j] of the epoch whose sampler
    was set to [e], the window being [W] batches long: the losses of the
    batches [j * W .. j * W + W - 1], added in that order to [0.0]. *)
Definition window_loss (tl : DataLoader) (e : Z) (W j k : nat) : float :=
  fold_left fadd (map (fun i => loss tl e i k) (seq (j * W) W)) zero.

(** What the boundary of window [j] adds to the trace, oldest first: the
    collective sum of the ranks' window sums and, on rank 0, the line that
    reports it divided by [W * world_size]; [g] is the global step at the
    start of the epoch. *)
Definition window_events (main : bool) (tl : DataLoader) (e g : Z)
    (w : positive) (W j : nat) : list Event :=
  let reduced := collective_sum w (window_loss tl e W j) in
  AllReduce reduced
    :: (if main
        then [Logged (LogTrain e (g + Z.of_nat j)
                        (fdiv (Tensor.item reduced)
                              (float_of_int (Z.of_nat W * Zpos w))))]
        else []).

(** The trace of one training epoch of [r], oldest first. *)
Definition epoch_events (r : Run) : list Event :=
  let W := Z.to_nat (TrainingConfig.grad_accum_steps (config (self r))) in
  flat_map
    (window_events (is_main (self r)) (train_loader (self r)) (epoch_of r)
       (global_step_of r) (world_size (proc r)) W)
    (seq 0 (len (train_loader (self r)) / W)).

Definition is_collective (e : Event) : bool :=
  match e with
  | AllReduce _ => true
  | _ => false
  end.


(** ** Lines of the log *)

Definition is_validation_line (e : Event) : bool :=
  match e with
  | Logged (LogValidation _) => true
  | _ => false
  end.

(** How many validation passes the log of [p] reports. *)
Definition validation_lines (p : Process) : nat :=
  List.length (filter is_validation_line (trace p)).

(** The run state keeps its count of validation lines. *)
Definition calm (r r' : Run) : Prop :=
  validation_lines (proc r') = validation_lines (proc r).

(** Whether a validation pass of [r] reports: on rank 0, given batches. *)
Definition reports_validation (r : Run) : bool :=
  is_main (self r) && negb (Nat.eqb (len (val_loader (self r))) 0).

(** The epochs among those [n] turns complete after which a validation pass
    is due. *)
Definition validation_due (cfg : TrainingConfig.t) (start : Z) (n : nat)
  : list Z :=
  filter (fun e => e mod TrainingConfig.validation_freq cfg =? 0)
         (completed_epochs start n).

Definition is_log_line (e : Event) : bool :=
  match e with
  | Logged _ => true
  | _ => false
  end.

Definition log_lines (p : Process) : list Event :=
  filter is_log_line (trace p).

(** On a rank other than 0, nothing was logged and nothing written. *)
Definition silent (r r' : Run) : Prop :=
  same_setting r r' /\
  (is_main (self r) = false ->
   log_lines (proc r') = log_lines (proc r) /\
   disk (proc r') = disk (proc r)).


(** ** The bundle as a file *)

Module Pickle.

(** The objects a checkpoint file holds and a [CheckpointState] carries in
    its fields: the dataclass does not check what it is given. *)
Inductive obj : Type :=
| StateDict (n : nat)
| SchedulerStateDict (s : SchedulerState)
| NoneObj
| TrainerStateObj (s : TrainerState.t)
| ConfigObj (c : TrainingConfig.t).

(** A [dict] with string keys, newest binding first. *)
Definition dict : Type := list (string * obj).

Fixpoint lookup (key : string) (d : dict) : option obj :=
  match d with
  | [] => None
  | (k, v) :: rest => if String.eqb k key then Some v else lookup key rest
  end.

Inductive outcome (A : Type) : Type :=
| Loaded (a : A)
| KeyError (key : string).
Arguments Loaded {A} a.
Arguments KeyError {A} key.

(** [d[key]] *)
Definition getitem (d : dict) (key : string) : outcome obj :=
  match lookup key d with
  | Some v => Loaded v
  | None => KeyError key
  end.

(** [d.get(key)] *)
Definition get (d : dict) (key : string) : obj :=
  match lookup key d with
  | Some v => v
  | None => NoneObj
  end.

(** The fields of a [CheckpointState] instance. *)
Record fields : Type := mkFields {
  model_state : obj;
  optimizer_state : obj;
  scheduler_state : obj;
  trainer_state : obj;
  config : obj
}.

(** The dictionary [CheckpointState.save] hands to [torch.save]. *)
Definition save (c : fields) : dict :=
  [("model_state", model_state c);
   ("optimizer_state", optimizer_state c);
   ("scheduler_state", scheduler_state c);
   ("trainer_state", trainer_state c);
   ("config", config c)].

(** [CheckpointState.load] on the dictionary [torch.load] returned: the
    arguments of [cls(...)] are evaluated in the order written. *)
Definition load (checkpoint : dict) : outcome fields :=
  match getitem checkpoint "model_state" with
  | KeyError k => KeyError k
  | Loaded m =>
      match getitem checkpoint "optimizer_state" with
      | KeyError k => KeyError k
      | Loaded o =>
          let s := get checkpoint "scheduler_state" in
          match getitem checkpoint "trainer_state" with
          | KeyError k => KeyError k
          | Loaded t =>
              match getitem checkpoint "config" with
              | KeyError k => KeyError k
              | Loaded c =>
                  Loaded {| model_state := m; optimizer_state := o;
                            scheduler_state := s; trainer_state := t;
                            config := c |}
              end
          end
      end
  end.

(** The keys [load] subscripts, in the order it does. *)
Definition required : list string :=
  ["model_state"; "optimizer_state"; "trainer_state"; "config"].

(** The fields [save_checkpoint] fills in for a bundle. *)
Definition of_bundle (c : CheckpointState.t) : fields :=
  {| model_state := StateDict (CheckpointState.model_state c);
     optimizer_state := StateDict (CheckpointState.optimizer_state c);
     scheduler_state :=
       match CheckpointState.scheduler_state c with
       | Some s => SchedulerStateDict s
       | None => NoneObj
       end;
     trainer_state := TrainerStateObj (CheckpointState.trainer_state c);
     config := ConfigObj (CheckpointState.config c) |}.

End Pickle.

(** * Lemmas and theorems *)

(** ** The setting of a run *)

Lemma same_setting_refl r : same_setting r r.
Proof. constructor; reflexivity. Qed.

Lemma same_setting_trans r1 r2 r3 :
  same_setting r1 r2 -> same_setting r2 r3 -> same_setting r1 r3.
Proof.
  intros [] []; constructor; etransitivity; eassumption.
Qed.

(** ** Tactics for running the monad *)

Ltac expose r :=
  let t := fresh "t" in
  let p := fresh "p" in
  let cfg := fresh "cfg" in
  let main := fresh "main" in
  let mdl := fresh "mdl" in
  let opt := fresh "opt" in
  let tl := fresh "tl" in
  let vl := fresh "vl" in
  let sch := fresh "sch" in
  let st := fresh "st" in
  let rk := fresh "rk" in
  let ws := fresh "ws" in
  let dk := fresh "dk" in
  let wr := fresh "wr" in
  let bsrc := fresh "bsrc" in
  let tr := fresh "tr" in
  destruct r as [t p];
  destruct t as [cfg main mdl opt tl vl sch st];
  destruct p as [rk ws dk wr bsrc tr].

Ltac run_monad :=
  cbv [bind ret raise lift get_self get_proc modify_self modify_proc
       logger_info all_reduce broadcast_object_list torch_save
       destroy_process_group set_state set_model set_optimizer
       set_scheduler emit write_file epoch_of global_step_of best_loss_of
       optimizer_steps scheduler_ticks ticks_left operational] in *;
  cbn [self proc fst snd config is_main model optimizer train_loader
       val_loader scheduler state rank world_size disk writable
       broadcast_src trace] in *.

(** Case analysis on a scrutinee that has no case analysis inside it. *)
Ltac split_match :=
  match goal with
  | |- context [match ?x with _ => _ end] =>
      lazymatch x with
      | context [match _ with _ => _ end] => fail
      | _ => destruct x eqn:?
      end
  end.

(** ** Arithmetic of the collaborators *)

Lemma truediv_nonzero x n : n <> 0 -> truediv x n = Ok (fdiv x (float_of_int n)).
Proof.
  intros H. unfold truediv. destruct (Z.eqb_spec n 0); [contradiction|reflexivity].
Qed.

Lemma window_divisor_nonzero (a : nat) (w : positive) :
  Z.of_nat (S a) * Zpos w <> 0.
Proof. lia. Qed.

(** ** One micro-batch *)

Lemma advanced_zero r : advanced 0 r r.
Proof. unfold advanced. repeat split; lia. Qed.

Lemma advanced_trans n m r1 r2 r3 :
  advanced n r1 r2 -> advanced m r2 r3 -> advanced (n + m) r1 r3.
Proof.
  unfold advanced. intros (?&?&?&?&?) (?&?&?&?&?). repeat split; lia.
Qed.

Lemma training_frame_refl r : training_frame r r.
Proof. repeat split. Qed.

Lemma training_frame_trans r1 r2 r3 :
  training_frame r1 r2 -> training_frame r2 r3 -> training_frame r1 r3.
Proof.
  intros (S1&?&?&?) (S2&?&?&?).
  split; [exact (same_setting_trans _ _ _ S1 S2)|].
  repeat split; congruence.
Qed.

Lemma train_batch_frame e i l r :
  training_frame r (snd (train_batch e i l r)).
Proof.
  expose r. unfold train_batch, mod_, truediv, optimizer_step,
    optimizer_zero_grad, scheduler_step.
  run_monad.
  repeat (split_match; run_monad; cbn);
    repeat split; reflexivity.
Qed.

Lemma train_batch_ok e i l r :
  operational r = true ->
  TrainingConfig.grad_accum_steps (config (self r)) <> 0 ->
  ((if window_closes (TrainingConfig.grad_accum_steps (config (self r))) i
    then 1 else 0) <= ticks_left r)%nat ->
  exists l' r',
    train_batch e i l r = (Ok l', r') /\
    operational r' = true /\
    advanced
      (if window_closes (TrainingConfig.grad_accum_steps (config (self r))) i
       then 1 else 0) r r'.
Proof.
  expose r. unfold train_batch, mod_, window_closes, advanced, scheduler_step.
  run_monad. intros Hop HW Hleft.
  destruct opt; try discriminate.
  destruct sch; try discriminate.
  destruct (Z.eqb_spec (TrainingConfig.grad_accum_steps cfg) 0) as [|_];
    [contradiction|].
  run_monad.
  destruct ((Z.of_nat i + 1) mod TrainingConfig.grad_accum_steps cfg =? 0).
  - destruct (Z.ltb_spec total_steps (Z.of_nat (S ticks))) as [Hlt|Hge];
      [lia|].
    destruct main; run_monad;
      rewrite ?(truediv_nonzero _ _ (window_divisor_nonzero _ _));
      cbn [fst snd]; run_monad;
      destruct (Z.ltb_spec total_steps (Z.of_nat (S ticks))) as [Hlt|_];
      try lia;
      eexists; eexists;
      (split; [reflexivity|]); cbn; repeat split; lia.
  - cbn. eexists; eexists. split; [reflexivity|].
    cbn. repeat split; lia.
Qed.

(** ** Loops *)

Section LoopFrame.

Context {A L : Type}.
Variable R : Run -> Run -> Prop.
Hypothesis R_refl : forall r, R r r.
Hypothesis R_trans : forall r1 r2 r3, R r1 r2 -> R r2 r3 -> R r1 r3.
Variable body : A -> L -> M L.
Hypothesis body_frame : forall x l r, R r (snd (body x l r)).

Lemma for_each_frame xs : forall l r, R r (snd (for_each xs body l r)).
Proof.
  induction xs as [|x xs IH]; intros l r; cbn.
  - apply R_refl.
  - unfold bind. specialize (body_frame x l r).
    destruct (body x l r) as [[l'|e] r']; cbn in *.
    + eapply R_trans; [eassumption|apply IH].
    + assumption.
Qed.

End LoopFrame.

Lemma for_each_app {A L} (xs ys : list A) (body : A -> L -> M L) l r :
  for_each (xs ++ ys)%list body l r =
  bind (for_each xs body l) (for_each ys body) r.
Proof.
  revert l r. induction xs as [|x xs IH]; intros l r; cbn.
  - reflexivity.
  - unfold bind in *. destruct (body x l r) as [[l'|e] r']; [apply IH|reflexivity].
Qed.

Lemma windows_closed_cons W i idxs :
  windows_closed W (i :: idxs) =
  ((if window_closes W i then 1 else 0) + windows_closed W idxs)%nat.
Proof.
  unfold windows_closed. cbn [filter]. destruct (window_closes W i); reflexivity.
Qed.

Lemma train_batches_ok e W idxs : forall l r,
  operational r = true ->
  TrainingConfig.grad_accum_steps (config (self r)) = W ->
  W <> 0 ->
  (windows_closed W idxs <= ticks_left r)%nat ->
  exists l' r',
    for_each idxs (train_batch e) l r = (Ok l', r') /\
    operational r' = true /\
    advanced (windows_closed W idxs) r r'.
Proof.
  induction idxs as [|i idxs IH]; intros l r Hop HW HW0 Hleft;
    cbn [for_each].
  - exists l, r. split; [reflexivity|]. split; [assumption|apply advanced_zero].
  - subst W. rewrite windows_closed_cons in *.
    assert (Hleft1 :
              ((if window_closes
                      (TrainingConfig.grad_accum_steps (config (self r))) i
                then 1 else 0) <= ticks_left r)%nat) by lia.
    destruct (train_batch_ok e i l r Hop HW0 Hleft1)
      as (l1 & r1 & E1 & Hop1 & Hadv1).
    pose proof (train_batch_frame e i l r) as F1. rewrite E1 in F1. cbn in F1.
    destruct F1 as (S1 & _).
    assert (HW1 : TrainingConfig.grad_accum_steps (config (self r1)) =
                  TrainingConfig.grad_accum_steps (config (self r)))
      by (rewrite (keep_config _ _ S1); reflexivity).
    assert (Hleft2 :
              (windows_closed
                 (TrainingConfig.grad_accum_steps (config (self r))) idxs
               <= ticks_left r1)%nat).
    { destruct Hadv1 as (_ & _ & _ & Ht & _). rewrite Ht. lia. }
    destruct (IH l1 r1 Hop1 HW1 HW0 Hleft2) as (l2 & r2 & E2 & Hop2 & Hadv2).
    exists l2, r2. unfold bind. rewrite E1, E2.
    split; [reflexivity|]. split; [assumption|].
    eapply advanced_trans; eassumption.
Qed.

(** The number of boundaries among the first [B] micro-batches. *)
Lemma windows_closed_seq W B :
  0 < W -> Z.of_nat (windows_closed W (seq 0 B)) = Z.of_nat B / W.
Proof.
  intros HW. unfold windows_closed. induction B as [|B IH].
  - reflexivity.
  - rewrite seq_S, filter_app, length_app, Nat2Z.inj_add, IH.
    cbn [Nat.add filter]. unfold window_closes.
    replace (Z.of_nat (S B)) with (Z.of_nat B + 1) by lia.
    pose proof (Z.div_mod (Z.of_nat B) W ltac:(lia)) as D1.
    pose proof (Z.mod_pos_bound (Z.of_nat B) W HW) as B1.
    pose proof (Z.div_mod (Z.of_nat B + 1) W ltac:(lia)) as D2.
    pose proof (Z.mod_pos_bound (Z.of_nat B + 1) W HW) as B2.
    destruct (Z.eqb_spec ((Z.of_nat B + 1) mod W) 0) as [E|E]; cbn [List.length];
      nia.
Qed.

(** ** One training epoch *)

Lemma train_epoch_general r :
  same_setting r (snd (train_epoch r)) /\
  best_loss_of (snd (train_epoch r)) = best_loss_of r /\
  disk (proc (snd (train_epoch r))) = disk (proc r) /\
  epoch_of (snd (train_epoch r)) =
    match fst (train_epoch r) with
    | Ok _ => epoch_of r + 1
    | Raise _ => epoch_of r
    end.
Proof.
  unfold train_epoch. run_monad.
  pose proof (for_each_frame training_frame training_frame_refl
                training_frame_trans
                (train_batch (TrainerState.epoch (state (self r))))
                (train_batch_frame (TrainerState.epoch (state (self r))))
                (seq 0 (len (train_loader (self r))))
                {| total_loss := fun _ => zero; accum_steps := 0 |} r) as F.
  destruct (for_each _ _ _ r) as [[l'|e] r']; cbn [fst snd] in *;
    destruct F as ([] & He & Hb & Hd); expose r'; expose r;
    run_monad; cbn in *; subst; repeat split;
    first [assumption | reflexivity | congruence].
Qed.

Lemma train_epoch_ok r :
  operational r = true ->
  TrainingConfig.grad_accum_steps (config (self r)) <> 0 ->
  (steps_per_epoch r <= ticks_left r)%nat ->
  exists r',
    train_epoch r = (Ok tt, r') /\
    operational r' = true /\
    advanced (steps_per_epoch r) r r'.
Proof.
  intros Hop HW Hleft.
  destruct (train_batches_ok (TrainerState.epoch (state (self r))) _
              (seq 0 (len (train_loader (self r))))
              {| total_loss := fun _ => zero; accum_steps := 0 |}
              r Hop eq_refl HW Hleft) as (l' & r' & E & Hop' & Hadv).
  unfold train_epoch. unfold bind at 1. unfold get_self at 1.
  unfold bind at 1. rewrite E.
  eexists. split; [reflexivity|].
  unfold steps_per_epoch.
  expose r'. expose r. unfold advanced in *. run_monad. cbn in *.
  split; [assumption|]. assumption.
Qed.

(** A micro-batch that closes no window only accumulates its gradient,
    whatever the trainer holds as optimizer and scheduler. *)
Lemma train_batch_open e i l r :
  TrainingConfig.grad_accum_steps (config (self r)) <> 0 ->
  window_closes (TrainingConfig.grad_accum_steps (config (self r))) i = false ->
  exists l',
    train_batch e i l r =
      (Ok l', {| self := set_model (backward (model (self r))) (self r);
                 proc := proc r |}).
Proof.
  expose r. unfold train_batch, mod_, window_closes. run_monad.
  intros HW Hopen.
  destruct (Z.eqb_spec (TrainingConfig.grad_accum_steps cfg) 0) as [|_];
    [contradiction|].
  run_monad. rewrite Hopen. eexists. reflexivity.
Qed.

Lemma train_batches_open e idxs : forall l r,
  TrainingConfig.grad_accum_steps (config (self r)) <> 0 ->
  windows_closed (TrainingConfig.grad_accum_steps (config (self r))) idxs = O ->
  exists l' r',
    for_each idxs (train_batch e) l r = (Ok l', r') /\
    state (self r') = state (self r) /\
    optimizer (self r') = optimizer (self r) /\
    scheduler (self r') = scheduler (self r) /\
    updates (model (self r')) = updates (model (self r)) /\
    pending_grads (model (self r')) =
      (pending_grads (model (self r)) + List.length idxs)%nat /\
    proc r' = proc r.
Proof.
  induction idxs as [|i idxs IH]; intros l r HW Hnone; cbn [for_each].
  - exists l, r. repeat split. cbn. lia.
  - rewrite windows_closed_cons in Hnone.
    destruct (window_closes _ i) eqn:Hopen; [discriminate|].
    destruct (train_batch_open e i l r HW Hopen) as (l1 & E1).
    unfold bind. rewrite E1.
    destruct (IH l1 {| self := set_model (backward (model (self r))) (self r);
                       proc := proc r |})
      as (l2 & r2 & E2 & Hs & Ho & Hsc & Hu & Hp & Hpr).
    + destruct r as [[] ?]. exact HW.
    + destruct r as [[] ?]. exact Hnone.
    + exists l2, r2. rewrite E2. split; [reflexivity|].
      destruct r as [[] ?]. cbn in *.
      repeat split; try assumption. lia.
Qed.

(** An epoch over an empty loader only counts the epoch. *)
Lemma train_epoch_empty r :
  len (train_loader (self r)) = O ->
  train_epoch r =
    (Ok tt, {| self := set_state (bump_epoch (state (self r))) (self r);
               proc := proc r |}).
Proof.
  intros H. unfold train_epoch. run_monad. rewrite H. reflexivity.
Qed.

(** ** Saving *)

Lemma save_checkpoint_other_rank best r :
  is_main (self r) = false -> save_checkpoint best r = (Ok tt, r).
Proof.
  intros H. unfold save_checkpoint. run_monad. rewrite H. destruct r; reflexivity.
Qed.

Lemma save_checkpoint_main best r :
  is_main (self r) = true ->
  operational r = true ->
  writable (proc r) = true ->
  save_checkpoint best r =
    (Ok tt, {| self := self r; proc := saved (self r) best (proc r) |}).
Proof.
  expose r. unfold save_checkpoint, saved, checkpoint_path, bundle_of.
  run_monad. intros -> Hop ->.
  destruct opt; try discriminate. destruct sch; try discriminate.
  reflexivity.
Qed.

(** Whatever happens, [save_checkpoint] leaves the trainer as it is, and the
    disk either as it is or with the one bundle on top. *)
Lemma save_checkpoint_general best r :
  self (snd (save_checkpoint best r)) = self r /\
  same_setting r (snd (save_checkpoint best r)) /\
  (disk (proc (snd (save_checkpoint best r))) = disk (proc r) \/
   (is_main (self r) = true /\
    fst (save_checkpoint best r) = Ok tt /\
    disk (proc (snd (save_checkpoint best r))) =
      (checkpoint_path (self r) best, bundle_of (self r)) :: disk (proc r))).
Proof.
  expose r. unfold save_checkpoint, checkpoint_path, bundle_of,
    optimizer_state_dict, scheduler_state_dict.
  run_monad.
  destruct main, opt, sch, wr; cbn; run_monad;
    (split; [reflexivity|]); (split; [constructor; reflexivity|]);
    first [left; reflexivity | right; repeat split; reflexivity].
Qed.

(** ** Validation *)

Lemma emit_all_trace es : forall p,
  trace (emit_all es p) = (rev es ++ trace p)%list.
Proof.
  induction es as [|ev es IH]; intros p; cbn.
  - reflexivity.
  - unfold emit_all in IH. rewrite IH. cbn. rewrite <- app_assoc. reflexivity.
Qed.

Lemma emit_all_rest es : forall p,
  rank (emit_all es p) = rank p /\
  world_size (emit_all es p) = world_size p /\
  disk (emit_all es p) = disk p /\
  writable (emit_all es p) = writable p /\
  broadcast_src (emit_all es p) = broadcast_src p.
Proof.
  induction es as [|ev es IH]; intros p; cbn.
  - repeat split.
  - destruct (IH (emit ev p)) as (?&?&?&?&?). repeat split; assumption.
Qed.

Lemma validate_batches e idxs : forall acc r,
  for_each idxs
    (validate_batch e (Zpos (world_size (proc r)))) acc r =
  (Ok (fold_left fadd
         (map (batch_mean (val_loader (self r)) e (world_size (proc r))) idxs)
         acc),
   {| self := self r;
      proc := emit_all
                (validation_reduces (val_loader (self r)) e
                   (world_size (proc r)) idxs)
                (proc r) |}).
Proof.
  induction idxs as [|i idxs IH]; intros acc r.
  - destruct r; reflexivity.
  - cbn [for_each]. unfold bind at 1.
    assert (E : validate_batch e (Zpos (world_size (proc r))) i acc r =
                (Ok (fadd acc (batch_mean (val_loader (self r)) e
                                 (world_size (proc r)) i)),
                 {| self := self r;
                    proc := emit (AllReduce
                                    (collective_sum (world_size (proc r))
                                       (loss (val_loader (self r)) e i)))
                                 (proc r) |})).
    { unfold validate_batch, batch_mean, collective_sum, ranks. run_monad.
      rewrite truediv_nonzero by discriminate. reflexivity. }
    rewrite E.
    specialize (IH (fadd acc (batch_mean (val_loader (self r)) e
                                (world_size (proc r)) i))
                   {| self := self r;
                      proc := emit (AllReduce
                                      (collective_sum (world_size (proc r))
                                         (loss (val_loader (self r)) e i)))
                                   (proc r) |}).
    cbn [self proc emit world_size] in IH. rewrite IH. reflexivity.
Qed.

(** A validation pass over a non-empty loader: the collectives of the
    batches, then the judgement of the mean. *)
Lemma validate_nonempty r :
  len (val_loader (self r)) <> O ->
  validate r =
    judge (mean_validation_loss (val_loader (self r)) (epoch_of r)
             (world_size (proc r)))
      {| self := self r;
         proc := emit_all
                   (validation_reduces (val_loader (self r)) (epoch_of r)
                      (world_size (proc r))
                      (seq 0 (len (val_loader (self r)))))
                   (proc r) |}.
Proof.
  intros Hlen. unfold validate, judge, mean_validation_loss, float_sum.
  unfold bind at 1. unfold get_self at 1.
  destruct (Nat.eqb_spec (len (val_loader (self r))) 0) as [|_];
    [contradiction|].
  unfold bind at 1. unfold get_proc at 1.
  unfold bind at 1. rewrite validate_batches.
  unfold bind at 1. unfold lift at 1.
  rewrite truediv_nonzero by lia.
  unfold epoch_of, best_loss_of. cbn [self proc].
  destruct (is_main (self r)); [|reflexivity].
  run_monad.
  destruct (flt _ _); reflexivity.
Qed.

Lemma validate_empty r :
  len (val_loader (self r)) = O -> validate r = (Ok tt, r).
Proof.
  intros H. unfold validate. run_monad. rewrite H. reflexivity.
Qed.

(** ** Order on floats *)

Lemma flt_trans x y z : flt x y = true -> flt y z = true -> flt x z = true.
Proof.
  unfold flt, SFltb, SFcompare.
  destruct x as [[]|[]| |[] mx ex], y as [[]|[]| |[] my ey],
    z as [[]|[]| |[] mz ez]; try discriminate; try reflexivity.
  all: rewrite ?Pos.compare_cont_spec; cbn [Pos.switch_Eq].
  all: destruct (Z.compare_spec ex ey), (Z.compare_spec ey ez),
         (Z.compare_spec ex ez);
    try discriminate; try reflexivity; try lia.
  all: destruct (Pos.compare_spec mx my), (Pos.compare_spec my mz),
         (Pos.compare_spec mx mz);
    cbn; try discriminate; try reflexivity; try lia.
Qed.

Lemma fle_refl x : fle x x.
Proof. left; reflexivity. Qed.

Lemma fle_trans x y z : fle x y -> fle y z -> fle x z.
Proof.
  intros [->|Hxy] [->|Hyz].
  - left; reflexivity.
  - right; assumption.
  - right; assumption.
  - right; eapply flt_trans; eassumption.
Qed.

(** ** Checkpoint names *)

Lemma append_inj_l (s a b : string) : (s ++ a = s ++ b)%string -> a = b.
Proof.
  induction s as [|c s IH]; cbn; intros H.
  - assumption.
  - injection H as H. auto.
Qed.

Lemma periodic_name_not_best dir e :
  String.eqb (path_join dir (checkpoint_filename e false))
             (path_join dir "best.pt") = false.
Proof.
  apply String.eqb_neq. unfold path_join. intros H.
  apply append_inj_l in H. cbn in H. discriminate.
Qed.

(** ** A validation pass of a working trainer *)

Lemma validate_ok r :
  operational r = true ->
  (is_main (self r) = true -> writable (proc r) = true) ->
  len (val_loader (self r)) <> O ->
  validate r = (Ok tt, after_validation r).
Proof.
  intros Hop Hwr Hlen. rewrite (validate_nonempty r Hlen).
  unfold judge, after_validation. cbn [self proc].
  destruct (is_main (self r)) eqn:Hmain; [|reflexivity].
  unfold best_loss_of at 1. cbn [self].
  fold (best_loss_of r).
  destruct (flt _ (best_loss_of r)); [|reflexivity].
  rewrite save_checkpoint_main.
  - reflexivity.
  - cbn. exact Hmain.
  - revert Hop. destruct r as [t p]. destruct t. unfold operational, improved.
    run_monad. exact (fun H => H).
  - cbn [proc emit writable].
    destruct (emit_all_rest
                (validation_reduces (val_loader (self r)) (epoch_of r)
                   (world_size (proc r)) (seq 0 (len (val_loader (self r)))))
                (proc r)) as (_&_&_&Hw&_).
    rewrite Hw. auto.
Qed.

Lemma after_validation_self r :
  self (after_validation r) = self r /\
    disk (proc (after_validation r)) = disk (proc r) \/
  is_main (self r) = true /\
    flt (mean_validation_loss (val_loader (self r)) (epoch_of r)
           (world_size (proc r))) (best_loss_of r) = true /\
    self (after_validation r) =
      improved (mean_validation_loss (val_loader (self r)) (epoch_of r)
                  (world_size (proc r))) (self r) /\
    disk (proc (after_validation r)) =
      (path_join (TrainingConfig.checkpoint_dir (config (self r))) "best.pt",
       bundle_of (self (after_validation r))) :: disk (proc r).
Proof.
  unfold after_validation.
  destruct (emit_all_rest
              (validation_reduces (val_loader (self r)) (epoch_of r)
                 (world_size (proc r)) (seq 0 (len (val_loader (self r)))))
              (proc r)) as (_&_&Hd&_&_).
  destruct (is_main (self r)).
  - destruct (flt _ _) eqn:E.
    + right. cbn [self proc]. repeat split; try assumption.
      unfold saved. cbn [emit write_file disk]. rewrite Hd. reflexivity.
    + left. cbn. auto.
  - left. cbn. auto.
Qed.

Lemma after_validation_setting r : same_setting r (after_validation r).
Proof.
  unfold after_validation.
  destruct (emit_all_rest
              (validation_reduces (val_loader (self r)) (epoch_of r)
                 (world_size (proc r)) (seq 0 (len (val_loader (self r)))))
              (proc r)) as (?&?&?&?&?).
  destruct (is_main (self r)); [destruct (flt _ _)|];
    constructor; cbn; auto.
Qed.

Lemma improved_keeps avg t :
  config (improved avg t) = config t /\
  is_main (improved avg t) = is_main t /\
  model (improved avg t) = model t /\
  optimizer (improved avg t) = optimizer t /\
  scheduler (improved avg t) = scheduler t /\
  TrainerState.epoch (state (improved avg t)) = TrainerState.epoch (state t) /\
  TrainerState.global_step (state (improved avg t)) =
    TrainerState.global_step (state t) /\
  TrainerState.best_loss (state (improved avg t)) = avg.
Proof. repeat split. Qed.

(** A validation pass moves neither counter, takes no optimizer step, never
    raises the best loss and writes no periodic file. *)
Lemma after_validation_facts r :
  epoch_of (after_validation r) = epoch_of r /\
  advanced 0 r (after_validation r) /\
  operational (after_validation r) = operational r /\
  fle (best_loss_of (after_validation r)) (best_loss_of r) /\
  (is_main (self r) = false ->
     self (after_validation r) = self r /\
     disk (proc (after_validation r)) = disk (proc r)) /\
  periodic_saves (TrainingConfig.checkpoint_dir (config (self r)))
    (disk (proc (after_validation r))) =
  periodic_saves (TrainingConfig.checkpoint_dir (config (self r)))
    (disk (proc r)).
Proof.
  assert (Hfle : fle (best_loss_of (after_validation r)) (best_loss_of r) /\
                 self (after_validation r) =
                   improved (best_loss_of (after_validation r)) (self r)).
  { destruct (after_validation_self r) as [[Hs Hd]|(Hm & Hlt & Hs & Hd)].
    - unfold best_loss_of. rewrite Hs. split; [apply fle_refl|].
      destruct (self r) as [? ? ? ? ? ? ? []]. reflexivity.
    - unfold best_loss_of at 1 3. rewrite Hs. cbn. split; [|reflexivity].
      right. exact Hlt. }
  destruct Hfle as [Hfle Hself].
  unfold epoch_of, advanced, global_step_of, optimizer_steps, scheduler_ticks,
    ticks_left, operational.
  rewrite Hself. cbn [improved set_state state config model optimizer
                        scheduler TrainerState.epoch TrainerState.global_step
                        set_best_loss].
  split; [reflexivity|]. split; [repeat split; lia|]. split; [reflexivity|].
  split; [exact Hfle|].
  destruct (after_validation_self r) as [[Hs Hd]|(Hm & Hlt & Hs & Hd)].
  - split; [intros _; split; [rewrite <- Hself; exact Hs|exact Hd]|].
    rewrite Hd. reflexivity.
  - split; [intros H; rewrite Hm in H; discriminate|].
    rewrite Hd. unfold periodic_saves. cbn [filter]. unfold is_periodic at 1.
    cbn [fst]. rewrite String.eqb_refl. reflexivity.
Qed.

Lemma validate_ready r :
  operational r = true ->
  (is_main (self r) = true -> writable (proc r) = true) ->
  exists r',
    validate r = (Ok tt, r') /\
    same_setting r r' /\
    epoch_of r' = epoch_of r /\
    advanced 0 r r' /\
    operational r' = true /\
    fle (best_loss_of r') (best_loss_of r) /\
    (is_main (self r) = false ->
       self r' = self r /\ disk (proc r') = disk (proc r)) /\
    periodic_saves (TrainingConfig.checkpoint_dir (config (self r)))
      (disk (proc r')) =
    periodic_saves (TrainingConfig.checkpoint_dir (config (self r)))
      (disk (proc r)).
Proof.
  intros Hop Hwr.
  destruct (Nat.eq_dec (len (val_loader (self r))) 0) as [E|E].
  - exists r. rewrite (validate_empty r E).
    repeat split; try assumption; try apply fle_refl; try lia.
  - exists (after_validation r). rewrite (validate_ok r Hop Hwr E).
    destruct (after_validation_facts r) as (He & Ha & Ho & Hb & Hn & Hp).
    split; [reflexivity|]. split; [apply after_validation_setting|].
    split; [exact He|]. split; [exact Ha|]. split; [congruence|].
    split; [exact Hb|]. split; [exact Hn|exact Hp].
Qed.

Lemma ready_moves cfg r r' :
  ready cfg r -> same_setting r r' -> operational r' = true -> ready cfg r'.
Proof.
  intros [Hc Ho HW Hv Hk Hd] [Kc Km Kt Kv Kr Kw Kwr Kb] Hop.
  constructor; try assumption.
  - congruence.
  - intros H. rewrite Kwr. apply Hd. congruence.
Qed.

Lemma steps_per_epoch_moves r r' :
  same_setting r r' -> steps_per_epoch r' = steps_per_epoch r.
Proof. intros []. unfold steps_per_epoch. congruence. Qed.

Lemma mod_nonzero a b : b <> 0 -> mod_ a b = Ok (a mod b).
Proof.
  intros H. unfold mod_. destruct (Z.eqb_spec b 0); [contradiction|reflexivity].
Qed.

Lemma train_iteration_ok cfg r :
  ready cfg r ->
  (steps_per_epoch r <= ticks_left r)%nat ->
  exists r', train_iteration cfg (epoch_of r) r = (Ok tt, r') /\ turn cfg r r'.
Proof.
  intros Hr Hleft. pose proof Hr as [Hcfg Hop HW Hvf Hcf Hwr].
  (* the training pass *)
  assert (HW' : TrainingConfig.grad_accum_steps (config (self r)) <> 0)
    by (rewrite Hcfg; exact HW).
  destruct (train_epoch_ok r Hop HW' Hleft) as (r1 & E1 & Hop1 & Hadv1).
  destruct (train_epoch_general r) as (S1 & Hb1 & Hd1 & He1).
  rewrite E1 in S1, Hb1, Hd1, He1. cbn [fst snd] in *.
  pose proof (ready_moves _ _ _ Hr S1 Hop1) as Hr1.
  (* the validation pass, when due *)
  assert (V : exists r2,
             (if (epoch_of r + 1) mod TrainingConfig.validation_freq cfg =? 0
              then validate else ret tt) r1 = (Ok tt, r2) /\
             same_setting r1 r2 /\ epoch_of r2 = epoch_of r1 /\
             advanced 0 r1 r2 /\ operational r2 = true /\
             fle (best_loss_of r2) (best_loss_of r1) /\
             (is_main (self r1) = false ->
                self r2 = self r1 /\ disk (proc r2) = disk (proc r1)) /\
             periodic_saves (TrainingConfig.checkpoint_dir (config (self r1)))
               (disk (proc r2)) =
             periodic_saves (TrainingConfig.checkpoint_dir (config (self r1)))
               (disk (proc r1))).
  { destruct (_ =? 0).
    - apply validate_ready; [exact Hop1|exact (ready_disk _ _ Hr1)].
    - exists r1. repeat split; try assumption; try apply fle_refl; lia. }
  destruct V as (r2 & E2 & S2 & He2 & Hadv2 & Hop2 & Hb2 & Hn2 & Hp2).
  pose proof (ready_moves _ _ _ Hr1 S2 Hop2) as Hr2.
  pose proof (same_setting_trans _ _ _ S1 S2) as S12.
  assert (Hm2 : is_main (self r2) = is_main (self r))
    by (apply (keep_is_main _ _ S12)).
  assert (Hm1 : is_main (self r1) = is_main (self r))
    by (apply (keep_is_main _ _ S1)).
  assert (Hc1 : config (self r1) = cfg)
    by (rewrite (keep_config _ _ S1); exact Hcfg).
  assert (Hc2 : config (self r2) = cfg)
    by (rewrite (keep_config _ _ S12); exact Hcfg).
  rewrite Hc1 in Hp2.
  assert (Hadv12 : advanced (steps_per_epoch r) r r2).
  { replace (steps_per_epoch r) with (steps_per_epoch r + 0)%nat by lia.
    eapply advanced_trans; eassumption. }
  (* the periodic save, when due *)
  unfold train_iteration. unfold bind at 1. rewrite E1.
  unfold bind at 1. unfold lift at 1. rewrite (mod_nonzero _ _ Hvf).
  unfold bind at 1. rewrite E2.
  unfold bind at 1. unfold lift at 1. rewrite (mod_nonzero _ _ Hcf).
  destruct ((epoch_of r + 1) mod TrainingConfig.checkpoint_freq cfg =? 0)
    eqn:Hdue.
  - destruct (is_main (self r)) eqn:Hmain.
    + rewrite (save_checkpoint_main false r2 Hm2 Hop2 (ready_disk _ _ Hr2 Hm2)).
      eexists. split; [reflexivity|].
      assert (S3 : same_setting r2
                     {| self := self r2; proc := saved (self r2) false (proc r2) |})
        by (constructor; reflexivity).
      constructor.
      * eapply ready_moves; [exact Hr2|exact S3|exact Hop2].
      * eapply same_setting_trans; [exact S12|exact S3].
      * unfold epoch_of in *. cbn [self]. lia.
      * exact Hadv12.
      * eapply fle_trans; [exact Hb2|]. rewrite Hb1. apply fle_refl.
      * intros H; congruence.
      * intros _. rewrite Hdue. cbn [self proc saved emit write_file disk].
        unfold periodic_saves at 1. cbn [filter]. unfold is_periodic at 1.
        cbn [fst]. unfold checkpoint_path. rewrite Hc2.
        rewrite periodic_name_not_best. cbn [negb map fst snd app].
        unfold periodic_entry. cbn [bundle_of CheckpointState.trainer_state].
        fold (epoch_of r2). rewrite He2, He1.
        f_equal. fold (periodic_saves (TrainingConfig.checkpoint_dir cfg)
                         (disk (proc r2))).
        rewrite Hp2, Hd1. reflexivity.
    + rewrite (save_checkpoint_other_rank false r2 Hm2).
      eexists. split; [reflexivity|].
      destruct (Hn2 Hm1) as [Hs2 Hd2].
      constructor; try assumption.
      * lia.
      * eapply fle_trans; [exact Hb2|]. rewrite Hb1. apply fle_refl.
      * intros _. unfold best_loss_of in *. rewrite Hs2. split; congruence.
      * intros H. congruence.
  - eexists. split; [reflexivity|].
    constructor; try assumption.
    + lia.
    + eapply fle_trans; [exact Hb2|]. rewrite Hb1. apply fle_refl.
    + intros Hmain. rewrite <- Hm1 in Hmain. destruct (Hn2 Hmain) as [Hs2 Hd2].
      unfold best_loss_of in *. rewrite Hs2. split; congruence.
    + intros _. rewrite Hdue. cbn [app]. rewrite Hp2, Hd1. reflexivity.
Qed.

(** ** The epoch loop *)

Lemma completed_epochs_S start n :
  completed_epochs start (S n) = (start + 1) :: completed_epochs (start + 1) n.
Proof.
  unfold completed_epochs. cbn [seq map]. f_equal; [cbn; lia|].
  rewrite <- seq_shift, map_map. apply map_ext. intros k. lia.
Qed.

Lemma periodic_expected_S cfg start n :
  periodic_expected cfg start (S n) =
  ((if (start + 1) mod TrainingConfig.checkpoint_freq cfg =? 0
    then [periodic_entry (TrainingConfig.checkpoint_dir cfg) (start + 1)]
    else [])
     ++ periodic_expected cfg (start + 1) n)%list.
Proof.
  unfold periodic_expected. rewrite completed_epochs_S. cbn [filter].
  destruct (_ =? 0); reflexivity.
Qed.

Lemma train_turns_ok cfg n : forall r,
  ready cfg r ->
  (n * steps_per_epoch r <= ticks_left r)%nat ->
  exists r',
    for_count n (epoch_of r) (train_iteration cfg) r = (Ok tt, r') /\
    ready cfg r' /\
    same_setting r r' /\
    epoch_of r' = epoch_of r + Z.of_nat n /\
    advanced (n * steps_per_epoch r) r r' /\
    fle (best_loss_of r') (best_loss_of r) /\
    (is_main (self r) = false ->
       best_loss_of r' = best_loss_of r /\ disk (proc r') = disk (proc r)) /\
    (is_main (self r) = true ->
       periodic_saves (TrainingConfig.checkpoint_dir cfg) (disk (proc r')) =
       (rev (periodic_expected cfg (epoch_of r) n)
          ++ periodic_saves (TrainingConfig.checkpoint_dir cfg)
               (disk (proc r)))%list).
Proof.
  induction n as [|n IH]; intros r Hr Hleft.
  - exists r. cbn [for_count Nat.mul]. split; [reflexivity|].
    split; [assumption|]. split; [apply same_setting_refl|].
    split; [lia|]. split; [apply advanced_zero|]. split; [apply fle_refl|].
    split; [auto|]. intros _. reflexivity.
  - assert (Hleft1 : (steps_per_epoch r <= ticks_left r)%nat) by lia.
    destruct (train_iteration_ok cfg r Hr Hleft1) as (r1 & E1 & T1).
    destruct T1 as [Hr1 S1 He1 Hadv1 Hb1 Hn1 Hp1].
    assert (Hleft2 : (n * steps_per_epoch r1 <= ticks_left r1)%nat).
    { rewrite (steps_per_epoch_moves _ _ S1).
      destruct Hadv1 as (_ & _ & _ & Ht & _). rewrite Ht. lia. }
    destruct (IH r1 Hr1 Hleft2)
      as (r2 & E2 & Hr2 & S2 & He2 & Hadv2 & Hb2 & Hn2 & Hp2).
    exists r2. cbn [for_count]. unfold bind. rewrite E1.
    rewrite <- He1. rewrite E2.
    pose proof (keep_is_main _ _ S1) as Hm1.
    split; [reflexivity|]. split; [assumption|].
    split; [eapply same_setting_trans; eassumption|].
    split; [lia|].
    split.
    { replace (S n * steps_per_epoch r)%nat
        with (steps_per_epoch r + n * steps_per_epoch r1)%nat
        by (rewrite (steps_per_epoch_moves _ _ S1); lia).
      eapply advanced_trans; eassumption. }
    split; [eapply fle_trans; eassumption|].
    split.
    { intros Hmain. destruct (Hn1 Hmain) as [A1 B1].
      rewrite <- Hm1 in Hmain. destruct (Hn2 Hmain) as [A2 B2].
      split; congruence. }
    intros Hmain. rewrite periodic_expected_S, rev_app_distr, <- app_assoc.
    rewrite <- Hm1 in Hmain. rewrite (Hp2 Hmain). rewrite He1.
    f_equal. rewrite Hm1 in Hmain. rewrite (Hp1 Hmain).
    destruct (_ =? 0); reflexivity.
Qed.

(** The loop of [train] on a ready run that has epochs left to do. *)
Lemma train_loop_ok cfg r :
  ready cfg r ->
  (Z.to_nat (TrainingConfig.epochs cfg - epoch_of r) * steps_per_epoch r
   <= ticks_left r)%nat ->
  exists r',
    train_loop cfg r = (Ok tt, r') /\
    ready cfg r' /\
    same_setting r r' /\
    epoch_of r' = Z.max (epoch_of r) (TrainingConfig.epochs cfg) /\
    advanced (Z.to_nat (TrainingConfig.epochs cfg - epoch_of r)
                * steps_per_epoch r) r r' /\
    fle (best_loss_of r') (best_loss_of r) /\
    (is_main (self r) = false ->
       best_loss_of r' = best_loss_of r /\ disk (proc r') = disk (proc r)) /\
    (is_main (self r) = true ->
       periodic_saves (TrainingConfig.checkpoint_dir cfg) (disk (proc r')) =
       (rev (periodic_expected cfg (epoch_of r)
               (Z.to_nat (TrainingConfig.epochs cfg - epoch_of r)))
          ++ periodic_saves (TrainingConfig.checkpoint_dir cfg)
               (disk (proc r)))%list).
Proof.
  intros Hr Hleft.
  destruct (train_turns_ok cfg
              (Z.to_nat (TrainingConfig.epochs cfg - epoch_of r)) r Hr Hleft)
    as (r' & E & Hr' & S' & He & Hrest).
  exists r'. unfold train_loop, for_range.
  unfold bind at 1. unfold get_self at 1. fold (epoch_of r). rewrite E.
  split; [reflexivity|]. split; [assumption|]. split; [assumption|].
  split; [lia|]. exact Hrest.
Qed.

(** ** What holds of every run, working or not *)

Lemma judge_general avg r :
  same_setting r (snd (judge avg r)) /\
  epoch_of (snd (judge avg r)) = epoch_of r /\
  global_step_of (snd (judge avg r)) = global_step_of r /\
  model (self (snd (judge avg r))) = model (self r) /\
  optimizer (self (snd (judge avg r))) = optimizer (self r) /\
  scheduler (self (snd (judge avg r))) = scheduler (self r) /\
  best_loss_of (snd (judge avg r)) =
    (if is_main (self r) && flt avg (best_loss_of r) then avg
     else best_loss_of r).
Proof.
  unfold judge.
  destruct (is_main (self r)) eqn:Hmain; cbn [andb].
  - destruct (flt avg (best_loss_of r)) eqn:Hlt.
    + match goal with
      | |- context [save_checkpoint true ?x] =>
          destruct (save_checkpoint_general true x) as (Hs & Hset & _);
          set (r1 := x) in *
      end.
      unfold epoch_of, global_step_of, best_loss_of.
      rewrite Hs. subst r1. cbn [self].
      split; [|repeat split].
      eapply same_setting_trans; [|exact Hset].
      constructor; cbn; auto.
    + cbn [snd]. split; [constructor; cbn; auto|repeat split].
  - cbn [snd]. split; [apply same_setting_refl|repeat split].
Qed.

Lemma validate_general r :
  same_setting r (snd (validate r)) /\
  epoch_of (snd (validate r)) = epoch_of r /\
  global_step_of (snd (validate r)) = global_step_of r /\
  model (self (snd (validate r))) = model (self r) /\
  optimizer (self (snd (validate r))) = optimizer (self r) /\
  scheduler (self (snd (validate r))) = scheduler (self r) /\
  best_loss_of (snd (validate r)) =
    (if Nat.eqb (len (val_loader (self r))) 0 then best_loss_of r
     else if is_main (self r)
               && flt (mean_validation_loss (val_loader (self r)) (epoch_of r)
                         (world_size (proc r))) (best_loss_of r)
          then mean_validation_loss (val_loader (self r)) (epoch_of r)
                 (world_size (proc r))
          else best_loss_of r).
Proof.
  destruct (Nat.eqb_spec (len (val_loader (self r))) 0) as [E|E].
  - rewrite (validate_empty r E). cbn [snd].
    split; [apply same_setting_refl|repeat split].
  - rewrite (validate_nonempty r E).
    set (reduces := validation_reduces (val_loader (self r)) (epoch_of r)
                      (world_size (proc r))
                      (seq 0 (len (val_loader (self r))))).
    set (avg := mean_validation_loss (val_loader (self r)) (epoch_of r)
                  (world_size (proc r))).
    destruct (emit_all_rest reduces (proc r)) as (?&?&?&?&?).
    destruct (judge_general avg
                {| self := self r; proc := emit_all reduces (proc r) |})
      as (S1 & He & Hg & Hm & Ho & Hs & Hb).
    split; [|repeat split; assumption].
    eapply same_setting_trans; [|exact S1].
    constructor; cbn; auto.
Qed.

Lemma monotone_refl r : monotone r r.
Proof.
  split; [apply same_setting_refl|]. split; [lia|apply fle_refl].
Qed.

Lemma monotone_trans r1 r2 r3 :
  monotone r1 r2 -> monotone r2 r3 -> monotone r1 r3.
Proof.
  intros (S1 & E1 & B1) (S2 & E2 & B2).
  split; [eapply same_setting_trans; eassumption|].
  split; [lia|eapply fle_trans; eassumption].
Qed.

Lemma train_epoch_monotone r : monotone r (snd (train_epoch r)).
Proof.
  destruct (train_epoch_general r) as (S1 & B1 & _ & E1).
  split; [exact S1|]. split.
  - rewrite E1. destruct (fst (train_epoch r)); lia.
  - rewrite B1. apply fle_refl.
Qed.

Lemma validate_monotone r : monotone r (snd (validate r)).
Proof.
  destruct (validate_general r) as (S1 & E1 & _ & _ & _ & _ & B1).
  split; [exact S1|]. split; [lia|].
  rewrite B1. destruct (Nat.eqb _ 0); [apply fle_refl|].
  destruct (is_main (self r)); cbn [andb]; [|apply fle_refl].
  destruct (flt _ _) eqn:Hlt; [right; exact Hlt|apply fle_refl].
Qed.

Lemma save_checkpoint_monotone best r :
  monotone r (snd (save_checkpoint best r)).
Proof.
  destruct (save_checkpoint_general best r) as (Hs & S1 & _).
  unfold monotone, epoch_of, best_loss_of. rewrite Hs.
  split; [exact S1|]. split; [lia|apply fle_refl].
Qed.

Section Sequencing.

Variable R : Run -> Run -> Prop.
Hypothesis R_refl : forall r, R r r.
Hypothesis R_trans : forall r1 r2 r3, R r1 r2 -> R r2 r3 -> R r1 r3.

Lemma bind_frame {A B} (m : M A) (k : A -> M B) :
(forall r, R r (snd (m r))) ->
(forall a r, R r (snd (k a r))) ->
forall r, R r (snd (bind m k r)).
Proof.
intros Hm Hk r. unfold bind. specialize (Hm r).
destruct (m r) as [[a|e] r1]; cbn [snd] in *.
- eapply R_trans; [exact Hm|apply Hk].
- exact Hm.
Qed.

Lemma lift_frame {A} (x : result A) : forall r, R r (snd (lift x r)).
Proof. intros r. apply R_refl. Qed.

Lemma ret_frame {A} (a : A) : forall r, R r (snd (ret a r)).
Proof. intros r. apply R_refl. Qed.

Lemma for_count_frame (body : Z -> M unit) :
(forall i r, R r (snd (body i r))) ->
forall n i r, R r (snd (for_count n i body r)).
Proof.
intros Hbody. induction n as [|n IH]; intros i r; cbn [for_count].
- apply R_refl.
- apply bind_frame; [apply Hbody|]. intros _. apply IH.
Qed.

End Sequencing.

Lemma train_iteration_monotone cfg e r :
  monotone r (snd (train_iteration cfg e r)).
Proof.
  revert r. unfold train_iteration.
  apply (bind_frame monotone monotone_trans);
    [exact train_epoch_monotone|intros _].
  apply (bind_frame monotone monotone_trans);
    [apply lift_frame, monotone_refl|intros due].
  apply (bind_frame monotone monotone_trans).
  - destruct (due =? 0); [exact validate_monotone|exact monotone_refl].
  - intros _.
    apply (bind_frame monotone monotone_trans);
      [apply lift_frame, monotone_refl|intros due'].
    destruct (due' =? 0);
      [exact (save_checkpoint_monotone false)|exact monotone_refl].
Qed.

Lemma train_loop_monotone cfg r : monotone r (snd (train_loop cfg r)).
Proof.
  revert r. unfold train_loop, for_range.
  apply (bind_frame monotone monotone_trans).
  - exact monotone_refl.
  - intros t.
    apply (for_count_frame monotone monotone_refl monotone_trans).
    intros i r1. apply train_iteration_monotone.
Qed.

(** [E] calls of the epoch runner in a row, on a working trainer. *)
Lemma train_epochs_ok E : forall i r,
  operational r = true ->
  TrainingConfig.grad_accum_steps (config (self r)) <> 0 ->
  (E * steps_per_epoch r <= ticks_left r)%nat ->
  exists r',
    for_count E i (fun _ => train_epoch) r = (Ok tt, r') /\
    operational r' = true /\
    same_setting r r' /\
    epoch_of r' = epoch_of r + Z.of_nat E /\
    advanced (E * steps_per_epoch r) r r'.
Proof.
  induction E as [|E IH]; intros i r Hop HW Hleft.
  - exists r. cbn. split; [reflexivity|]. split; [assumption|].
    split; [apply same_setting_refl|]. split; [lia|apply advanced_zero].
  - assert (Hleft1 : (steps_per_epoch r <= ticks_left r)%nat) by lia.
    destruct (train_epoch_ok r Hop HW Hleft1) as (r1 & E1 & Hop1 & Hadv1).
    destruct (train_epoch_general r) as (S1 & _ & _ & He1).
    rewrite E1 in S1, He1. cbn [fst snd] in *.
    assert (HW1 : TrainingConfig.grad_accum_steps (config (self r1)) <> 0)
      by (rewrite (keep_config _ _ S1); exact HW).
    assert (Hleft2 : (E * steps_per_epoch r1 <= ticks_left r1)%nat).
    { rewrite (steps_per_epoch_moves _ _ S1).
      destruct Hadv1 as (_ & _ & _ & Ht & _). rewrite Ht. lia. }
    destruct (IH (i + 1) r1 Hop1 HW1 Hleft2)
      as (r2 & E2 & Hop2 & S2 & He2 & Hadv2).
    exists r2. cbn [for_count]. unfold bind. rewrite E1, E2.
    split; [reflexivity|]. split; [assumption|].
    split; [eapply same_setting_trans; eassumption|]. split; [lia|].
    replace (S E * steps_per_epoch r)%nat
      with (steps_per_epoch r + E * steps_per_epoch r1)%nat
      by (rewrite (steps_per_epoch_moves _ _ S1); lia).
    eapply advanced_trans; eassumption.
Qed.

(** ** The constructor on a configuration its collaborators accept *)

Lemma buildable_optimizer cfg :
  buildable cfg = true ->
  _create_optimizer cfg =
    Ok (if String.eqb (TrainingConfig.optimizer cfg) "AdamW"
        then AdamW (TrainingConfig.learning_rate cfg) 0
        else OptimizerNotImplementedError
               ("Optimizer: " ++ TrainingConfig.optimizer cfg
                  ++ " not implemented!")).
Proof.
  unfold buildable, _create_optimizer, AdamW_new. intros H.
  apply andb_prop in H. destruct H as (H & _).
  apply andb_prop in H. destruct H as (H & _).
  destruct (String.eqb (TrainingConfig.optimizer cfg) "AdamW");
    [|reflexivity].
  cbn [negb orb] in H. rewrite H. reflexivity.
Qed.

Lemma buildable_dataloaders cfg tl vl :
  buildable cfg = true -> _create_dataloaders cfg tl vl = Ok (tl, vl).
Proof.
  unfold buildable, _create_dataloaders, DataLoader_new. intros H.
  apply andb_prop in H. destruct H as (H & Hw).
  apply andb_prop in H. destruct H as (_ & Hb).
  apply Z.ltb_lt in Hw, Hb.
  destruct (Z.ltb_spec (TrainingConfig.num_workers cfg) 0); [lia|].
  destruct (Z.eqb_spec (TrainingConfig.num_workers cfg) 0); [lia|].
  destruct (Z.leb_spec (TrainingConfig.batch_size cfg) 0); [lia|].
  reflexivity.
Qed.

(** With the supported kinds, a window that is not zero and a positive
    total, the constructor builds the trainer and, where a checkpoint is
    named, resumes. *)
Lemma constructor_working cfg m tl vl p :
  buildable cfg = true ->
  TrainingConfig.optimizer cfg = "AdamW" ->
  TrainingConfig.lr_scheduler cfg = "OneCycleLR" ->
  TrainingConfig.grad_accum_steps cfg <> 0 ->
  0 < TrainingConfig.epochs cfg
        * (Z.of_nat (len tl) / TrainingConfig.grad_accum_steps cfg) ->
  __init__ cfg m tl vl p =
    let t :=
      {| config := cfg;
         is_main := Nat.eqb (rank p) 0;
         model := m;
         optimizer := AdamW (TrainingConfig.learning_rate cfg) 0;
         train_loader := tl;
         val_loader := vl;
         scheduler :=
           OneCycleLR (TrainingConfig.learning_rate cfg)
             (TrainingConfig.epochs cfg
                * (Z.of_nat (len tl) / TrainingConfig.grad_accum_steps cfg)) 0;
         state := TrainerState.default |} in
    match TrainingConfig.resume_checkpoint cfg with
    | Some _ =>
        match load_checkpoint {| self := t; proc := p |} with
        | (Ok _, r) => (Ok (self r), proc r)
        | (Raise e, r) => (Raise e, proc r)
        end
    | None => (Ok t, p)
    end.
Proof.
  intros Hb Hopt Hsch HW Htotal. unfold __init__.
  rewrite (buildable_optimizer cfg Hb), (buildable_dataloaders cfg tl vl Hb).
  unfold _create_scheduler, floordiv, OneCycleLR_new.
  rewrite Hopt, Hsch. cbn [String.eqb Ascii.eqb Bool.eqb].
  destruct (Z.eqb_spec (TrainingConfig.grad_accum_steps cfg) 0) as [|_];
    [contradiction|].
  destruct (Z.leb_spec
              (TrainingConfig.epochs cfg
                 * (Z.of_nat (len tl) / TrainingConfig.grad_accum_steps cfg)) 0)
    as [|_]; [lia|].
  reflexivity.
Qed.

(** The trainers of the scenarios are the ones the constructor builds. *)
Lemma scenario_constructed e w c v k :
  w <> 0 ->
  0 < e * (4 / w) ->
  __init__ (Scenario.run_config e w c v) TTSTransformer Scenario.four_batches
    Scenario.one_validation_batch (Scenario.process k) =
    (Ok (Scenario.trainer (Scenario.run_config e w c v) k), Scenario.process k).
Proof.
  intros Hw Htotal.
  rewrite constructor_working;
    [reflexivity|vm_compute; reflexivity|reflexivity|reflexivity
    |exact Hw|exact Htotal].
Qed.

(** The run from scratch, from the entry point: with the supported kinds, a
    window between one and the number of batches, at least one epoch,
    non-zero cadences and a store rank 0 can write, [train] builds the
    trainer, goes through all its epochs and tears the group down.  The
    schedule is used up exactly. *)
Lemma train_from_scratch cfg tl vl p :
  buildable cfg = true ->
  TrainingConfig.resume_checkpoint cfg = None ->
  TrainingConfig.optimizer cfg = "AdamW" ->
  TrainingConfig.lr_scheduler cfg = "OneCycleLR" ->
  0 < TrainingConfig.grad_accum_steps cfg ->
  TrainingConfig.validation_freq cfg <> 0 ->
  TrainingConfig.checkpoint_freq cfg <> 0 ->
  (rank p = O -> writable p = true) ->
  0 < TrainingConfig.epochs cfg ->
  TrainingConfig.grad_accum_steps cfg <= Z.of_nat (len tl) ->
  exists t r',
    __init__ cfg TTSTransformer tl vl p = (Ok t, p) /\
    state t = TrainerState.default /\
    train_loop cfg {| self := t; proc := p |} = (Ok tt, r') /\
    train cfg tl vl p =
      (Ok tt, Some (self r'), emit DestroyProcessGroup (proc r')) /\
    ready cfg r' /\
    train_loader (self r') = tl /\
    epoch_of r' = TrainingConfig.epochs cfg /\
    global_step_of r' =
      TrainingConfig.epochs cfg
        * (Z.of_nat (len tl) / TrainingConfig.grad_accum_steps cfg) /\
    Z.of_nat (optimizer_steps r') = global_step_of r' /\
    Z.of_nat (updates (model (self r'))) = global_step_of r' /\
    Z.of_nat (scheduler_ticks r') = global_step_of r' /\
    ticks_left r' = O.
Proof.
  intros Hb Hres Hopt Hsch HW Hlen0 Hcf Hwr Hep Hlen.
  assert (Hwin : 0 < Z.of_nat (len tl) / TrainingConfig.grad_accum_steps cfg)
    by (apply Z.div_str_pos; lia).
  assert (Htotal : 0 < TrainingConfig.epochs cfg
                         * (Z.of_nat (len tl)
                            / TrainingConfig.grad_accum_steps cfg)) by nia.
  pose proof (constructor_working cfg TTSTransformer tl vl p Hb Hopt Hsch
                ltac:(lia) Htotal) as Hinit.
  rewrite Hres in Hinit. cbv zeta in Hinit.
  unfold train. rewrite Hinit.
  match goal with
  | |- context [(train_loop cfg ;; destroy_process_group) ?x] => set (r := x)
  end.
  assert (Hr : ready cfg r).
  { constructor; try assumption; try reflexivity; try lia.
    subst r. cbn. intros H. apply Hwr. apply Nat.eqb_eq, H. }
  assert (Hsteps : Z.of_nat (steps_per_epoch r)
                   = Z.of_nat (len tl) / TrainingConfig.grad_accum_steps cfg)
    by (apply windows_closed_seq; exact HW).
  assert (Hleft : (Z.to_nat (TrainingConfig.epochs cfg - epoch_of r)
                     * steps_per_epoch r = ticks_left r)%nat).
  { subst r. unfold ticks_left, epoch_of in *. cbn in *. nia. }
  destruct (train_loop_ok cfg r Hr ltac:(lia))
    as (r' & E & Hr' & S' & He & (Hg & Ho & Hs & Ht & Hu) & _).
  assert (Hcount : Z.of_nat (Z.to_nat (TrainingConfig.epochs cfg - epoch_of r)
                             * steps_per_epoch r) =
                   TrainingConfig.epochs cfg
                     * (Z.of_nat (len tl) / TrainingConfig.grad_accum_steps cfg)).
  { subst r. unfold epoch_of in *. cbn in *. nia. }
  assert (Hg' : global_step_of r' =
                TrainingConfig.epochs cfg
                  * (Z.of_nat (len tl) / TrainingConfig.grad_accum_steps cfg)).
  { rewrite Hg, Hcount. subst r. reflexivity. }
  eexists. exists r'. split; [reflexivity|]. split; [reflexivity|].
  fold r. split; [exact E|].
  split.
  { unfold bind. rewrite E. reflexivity. }
  split; [exact Hr'|].
  split; [rewrite (keep_train_loader _ _ S'); reflexivity|].
  split; [subst r; unfold epoch_of in *; cbn in He; lia|].
  split; [exact Hg'|]. rewrite Hg'.
  split; [rewrite Ho, <- Hcount; subst r; cbn; lia|].
  split; [rewrite Hu, <- Hcount; subst r; cbn; lia|].
  split; [rewrite Hs, <- Hcount; subst r; cbn; lia|].
  lia.
Qed.

(** ** The step count *)

(** C1. Let the accumulation window be [W >= 1] and let the training loader
    yield [B] batches per epoch.  On a working trainer a micro-batch brings
    one optimizer step, one schedule tick, one parameter update and one
    increment of [global_step] exactly when its index plus one is a multiple
    of [W], and none otherwise; [E] calls of [train_epoch] in a row, for
    which the schedule has the [E * floor(B / W)] ticks left, complete and
    leave [global_step], the optimizer's step count and the schedule's tick
    count at their initial values plus [E * floor(B / W)].  On any trainer
    an epoch of fewer than [W] batches, an empty one included, completes
    without a step: the gradients of its micro-batches stay accumulated.
    The same count holds of the program's own loop, with its validation
    passes and checkpoint saves between the epochs: the epoch loop of
    [train], entered with [E] epochs to go on a trainer it goes through
    (working, non-zero cadences, a store rank 0 can write, the ticks left),
    completes [E] epochs later with the three counters at their initial
    values plus [E * floor(B / W)]; and [train] itself, from scratch with
    [E >= 1] epochs and a window of at most [B] batches, returns with
    [epoch = E] and [global_step = E * floor(B / W)]. *)
Theorem step_count_invariant (r : Run) (W : Z) (B E : nat) :
  TrainingConfig.grad_accum_steps (config (self r)) = W ->
  0 < W ->
  len (train_loader (self r)) = B ->
  (operational r = true ->
   (1 <= ticks_left r)%nat ->
   forall e i l,
      exists l' r',
        train_batch e i l r = (Ok l', r') /\
        advanced (if (Z.of_nat i + 1) mod W =? 0 then 1 else 0) r r') /\
  (operational r = true ->
   Z.of_nat E * (Z.of_nat B / W) <= Z.of_nat (ticks_left r) ->
   exists r',
      for_count E (epoch_of r) (fun _ => train_epoch) r = (Ok tt, r') /\
      global_step_of r' = global_step_of r + Z.of_nat E * (Z.of_nat B / W) /\
      Z.of_nat (optimizer_steps r') =
        Z.of_nat (optimizer_steps r) + Z.of_nat E * (Z.of_nat B / W) /\
      Z.of_nat (scheduler_ticks r') =
        Z.of_nat (scheduler_ticks r) + Z.of_nat E * (Z.of_nat B / W)) /\
  (Z.of_nat B < W ->
   exists r',
      train_epoch r = (Ok tt, r') /\
      global_step_of r' = global_step_of r /\
      optimizer (self r') = optimizer (self r) /\
      scheduler (self r') = scheduler (self r) /\
      updates (model (self r')) = updates (model (self r)) /\
      pending_grads (model (self r')) = (pending_grads (model (self r)) + B)%nat) /\
  (forall cfg,
      ready cfg r ->
      Z.to_nat (TrainingConfig.epochs cfg - epoch_of r) = E ->
      Z.of_nat E * (Z.of_nat B / W) <= Z.of_nat (ticks_left r) ->
      exists r',
        train_loop cfg r = (Ok tt, r') /\
        epoch_of r' = epoch_of r + Z.of_nat E /\
        global_step_of r' = global_step_of r + Z.of_nat E * (Z.of_nat B / W) /\
        Z.of_nat (optimizer_steps r') =
          Z.of_nat (optimizer_steps r) + Z.of_nat E * (Z.of_nat B / W) /\
        Z.of_nat (scheduler_ticks r') =
          Z.of_nat (scheduler_ticks r) + Z.of_nat E * (Z.of_nat B / W)) /\
  (forall cfg tl vl p,
      buildable cfg = true ->
      TrainingConfig.resume_checkpoint cfg = None ->
      TrainingConfig.optimizer cfg = "AdamW" ->
      TrainingConfig.lr_scheduler cfg = "OneCycleLR" ->
      TrainingConfig.grad_accum_steps cfg = W ->
      len tl = B ->
      TrainingConfig.epochs cfg = Z.of_nat E ->
      (1 <= E)%nat ->
      W <= Z.of_nat B ->
      TrainingConfig.validation_freq cfg <> 0 ->
      TrainingConfig.checkpoint_freq cfg <> 0 ->
      (rank p = O -> writable p = true) ->
      exists t p',
        train cfg tl vl p = (Ok tt, Some t, p') /\
        TrainerState.epoch (state t) = Z.of_nat E /\
        TrainerState.global_step (state t) = Z.of_nat E * (Z.of_nat B / W)).
Proof.
  intros HW Hpos HB.
  assert (HW0 : TrainingConfig.grad_accum_steps (config (self r)) <> 0) by lia.
  assert (Hsteps : Z.of_nat (steps_per_epoch r) = Z.of_nat B / W).
  { unfold steps_per_epoch. rewrite HW, HB. apply windows_closed_seq, Hpos. }
  split; [|split; [|split; [|split]]].
  - intros Hop Hleft e i l.
    assert (Hleft1 :
              ((if window_closes
                      (TrainingConfig.grad_accum_steps (config (self r))) i
                then 1 else 0) <= ticks_left r)%nat)
      by (destruct (window_closes _ i); lia).
    destruct (train_batch_ok e i l r Hop HW0 Hleft1)
      as (l' & r' & E1 & _ & Hadv).
    exists l', r'. split; [exact E1|].
    unfold window_closes in Hadv. rewrite HW in Hadv. exact Hadv.
  - intros Hop Hleft.
    assert (Hleft1 : (E * steps_per_epoch r <= ticks_left r)%nat) by nia.
    destruct (train_epochs_ok E (epoch_of r) r Hop HW0 Hleft1)
      as (r' & E1 & _ & _ & _ & Hg & Ho & Hs & _).
    exists r'. split; [exact E1|]. rewrite <- Hsteps. repeat split; lia.
  - intros Hshort.
    assert (Hz : steps_per_epoch r = 0%nat).
    { apply Nat2Z.inj. rewrite Hsteps. apply Z.div_small. lia. }
    destruct (train_batches_open (TrainerState.epoch (state (self r)))
                (seq 0 (len (train_loader (self r))))
                {| total_loss := fun _ => zero; accum_steps := 0 |} r HW0 Hz)
      as (l' & r' & E1 & Hs & Ho & Hsc & Hu & Hp & _).
    unfold train_epoch. unfold bind at 1. unfold get_self at 1.
    unfold bind at 1. rewrite E1. run_monad.
    eexists. split; [reflexivity|]. cbn.
    rewrite Hs, length_seq, HB in *. repeat split; assumption.
  - intros cfg Hr HE Hleft.
    assert (Hleft1 : (Z.to_nat (TrainingConfig.epochs cfg - epoch_of r)
                        * steps_per_epoch r <= ticks_left r)%nat)
      by (rewrite HE; nia).
    destruct (train_loop_ok cfg r Hr Hleft1)
      as (r' & E1 & _ & _ & He & (Hg & Ho & Hs & _) & _).
    rewrite HE in Hg, Ho, Hs.
    exists r'. split; [exact E1|]. rewrite <- Hsteps.
    repeat split; lia.
  - intros cfg tl vl p Hb Hres Hopt Hsch HWc Hlen Hep HE HWB Hvf Hcf Hwr.
    destruct (train_from_scratch cfg tl vl p Hb Hres Hopt Hsch
                ltac:(lia) Hvf Hcf Hwr ltac:(lia) ltac:(lia))
      as (t & r' & _ & _ & _ & Htrain & _ & _ & He & Hg & _).
    exists (self r'), (emit DestroyProcessGroup (proc r')).
    split; [exact Htrain|].
    unfold epoch_of, global_step_of in *. rewrite He, Hg, Hep, HWc, Hlen.
    split; reflexivity.
Qed.

(** The scenario of the specification: two ranks, four batches per epoch,
    window 2, one epoch. *)
Lemma step_count_invariant_witness :
  TrainingConfig.grad_accum_steps
    (config (self (Scenario.run (Scenario.run_config 1 2 1 1) 0))) = 2 /\
  0 < 2 /\
  len (train_loader (self (Scenario.run (Scenario.run_config 1 2 1 1) 0)))
    = 4%nat /\
  operational (Scenario.run (Scenario.run_config 1 2 1 1) 0) = true /\
  Z.of_nat 1 * (Z.of_nat 4 / 2)
    <= Z.of_nat (ticks_left (Scenario.run (Scenario.run_config 1 2 1 1) 0)) /\
  (exists r',
      for_count 1 (epoch_of (Scenario.run (Scenario.run_config 1 2 1 1) 0))
        (fun _ => train_epoch) (Scenario.run (Scenario.run_config 1 2 1 1) 0)
        = (Ok tt, r') /\
      global_step_of r' = 0 + Z.of_nat 1 * (Z.of_nat 4 / 2) /\
      Z.of_nat (optimizer_steps r') =
        Z.of_nat 0 + Z.of_nat 1 * (Z.of_nat 4 / 2) /\
      Z.of_nat (scheduler_ticks r') =
        Z.of_nat 0 + Z.of_nat 1 * (Z.of_nat 4 / 2)) /\
  (exists r',
      train_loop (Scenario.run_config 1 2 1 1)
        (Scenario.run (Scenario.run_config 1 2 1 1) 0) = (Ok tt, r') /\
      epoch_of r' = 1 /\
      global_step_of r' = 2) /\
  (exists t p',
      train (Scenario.run_config 1 2 1 1) Scenario.four_batches
        Scenario.one_validation_batch (Scenario.process 0)
        = (Ok tt, Some t, p') /\
      TrainerState.epoch (state t) = 1 /\
      TrainerState.global_step (state t) = 2).
Proof.
  destruct (step_count_invariant
              (Scenario.run (Scenario.run_config 1 2 1 1) 0) 2 4 1
              eq_refl eq_refl eq_refl) as (_ & Hepochs & _ & Hloop & Htrain).
  split; [reflexivity|]. split; [lia|]. split; [reflexivity|].
  split; [reflexivity|]. split; [vm_compute; discriminate|].
  split; [|split].
  - apply Hepochs; [reflexivity|vm_compute; discriminate].
  - destruct (Hloop (Scenario.run_config 1 2 1 1)) as (r' & E & He & Hg & _).
    + constructor; try reflexivity; discriminate.
    + reflexivity.
    + vm_compute. discriminate.
    + exists r'. split; [exact E|]. split; [exact He|exact Hg].
  - destruct (Htrain (Scenario.run_config 1 2 1 1) Scenario.four_batches
                Scenario.one_validation_batch (Scenario.process 0))
      as (t & p' & E & He & Hg);
      [vm_compute; reflexivity|reflexivity|reflexivity|reflexivity
      |reflexivity|reflexivity|reflexivity|lia|discriminate
      |discriminate|discriminate|reflexivity|].
    exists t, p'. split; [exact E|]. split; [exact He|exact Hg].
Defined.

(** ** Unsupported kinds *)

(** C2. With optimizer kind "SGD" and scheduler kind "StepLR" the
    constructor raises nothing: it returns a trainer that holds the two
    exception objects the factories returned.  [train] then runs the
    micro-batches of the first epoch and stops with an [AttributeError] at
    the first window boundary, with two gradients accumulated; where no
    window closes, a rank other than 0 finishes the whole run. *)
Theorem unsupported_kinds_are_accepted :
  TrainingConfig.optimizer unsupported_kinds <> "AdamW" /\
  TrainingConfig.lr_scheduler unsupported_kinds <> "OneCycleLR" /\
  __init__ unsupported_kinds TTSTransformer Scenario.four_batches
    Scenario.one_validation_batch (Scenario.process 0) =
    (Ok {| config := unsupported_kinds;
           is_main := true;
           model := TTSTransformer;
           optimizer :=
             OptimizerNotImplementedError "Optimizer: SGD not implemented!";
           train_loader := Scenario.four_batches;
           val_loader := Scenario.one_validation_batch;
           scheduler :=
             SchedulerNotImplementedError
               "lr_scheduler:StepLR not implemented!";
           state := TrainerState.default |},
     Scenario.process 0) /\
  (exists t p,
      train unsupported_kinds Scenario.four_batches
        Scenario.one_validation_batch (Scenario.process 0) =
        (Raise (AttributeError "NotImplementedError" "step"), Some t, p) /\
      pending_grads (model t) = 2%nat /\
      state t = TrainerState.default) /\
  (exists t p,
      train unsupported_kinds one_batch Scenario.one_validation_batch
        (Scenario.process 1) = (Ok tt, Some t, p) /\
      TrainerState.epoch (state t) = 1).
Proof.
  split; [discriminate|]. split; [discriminate|]. split; [reflexivity|].
  split; eexists; eexists; (split; [vm_compute; reflexivity|]);
    split; reflexivity || (vm_compute; reflexivity).
Qed.

(** ** Resuming *)

Lemma load_checkpoint_state r c :
  fst (load_checkpoint r) = Ok tt ->
  read_file
    (match TrainingConfig.resume_checkpoint (config (self r)) with
     | Some f => f
     | None => ""
     end) (disk (proc r)) = Some c ->
  state (self (snd (load_checkpoint r))) = CheckpointState.trainer_state c.
Proof.
  expose r. unfold load_checkpoint, CheckpointState_load,
    optimizer_load_state_dict, scheduler_load_state_dict.
  run_monad.
  destruct (TrainingConfig.resume_checkpoint cfg) as [f|]; run_monad;
    [|discriminate].
  destruct (read_file f dk) as [c'|]; run_monad; [|discriminate].
  intros H E. injection E as ->. revert H.
  destruct opt; run_monad; [|discriminate].
  destruct (CheckpointState.scheduler_state c) as [n|]; run_monad.
  - destruct sch; run_monad; [|discriminate]. reflexivity.
  - reflexivity.
Qed.

(** C4. [load_checkpoint] leaves in [self.state] the trainer state of the
    bundle the rank itself read, whatever the broadcast delivered.  So when
    rank 1 reads a bundle of epoch 2 and step 20 at the resume path while
    rank 0, source of the broadcast, resumes at epoch 3 and step 30, the
    broadcast delivers [3; 30] to rank 1 and rank 1 leaves the constructor
    at epoch 2 and step 20. *)
Theorem resume_keeps_local_counters :
  (forall r c,
      fst (load_checkpoint r) = Ok tt ->
      read_file
        (match TrainingConfig.resume_checkpoint (config (self r)) with
         | Some f => f
         | None => ""
         end) (disk (proc r)) = Some c ->
      state (self (snd (load_checkpoint r))) =
        CheckpointState.trainer_state c) /\
  exists t0 p0 t1 p1,
    __init__ Resume.resuming TTSTransformer Scenario.four_batches
      Scenario.one_validation_batch
      (Resume.process 0 (Resume.bundle 3 30 (lit 1 2)) []) = (Ok t0, p0) /\
    __init__ Resume.resuming TTSTransformer Scenario.four_batches
      Scenario.one_validation_batch
      (Resume.process 1 (Resume.bundle 2 20 (lit 1 2)) [3; 30]) = (Ok t1, p1) /\
    state t0 = {| TrainerState.epoch := 3; TrainerState.global_step := 30;
                  TrainerState.best_loss := lit 1 2 |} /\
    trace p1 = [Logged (LogResumed (Some Resume.path) 2); Broadcast [3; 30]] /\
    state t1 = {| TrainerState.epoch := 2; TrainerState.global_step := 20;
                  TrainerState.best_loss := lit 1 2 |} /\
    state t1 <> state t0.
Proof.
  split; [exact load_checkpoint_state|].
  do 4 eexists.
  split; [vm_compute; reflexivity|].
  split; [vm_compute; reflexivity|].
  split; [vm_compute; reflexivity|].
  split; [vm_compute; reflexivity|].
  split; [vm_compute; reflexivity|].
  vm_compute. discriminate.
Qed.

(** ** Configurations nobody checks *)








(** ** The best loss *)

Lemma judge_disk avg r :
  disk (proc (snd (judge avg r))) = disk (proc r) \/
  (is_main (self r) && flt avg (best_loss_of r) = true /\
   fst (judge avg r) = Ok tt /\
   disk (proc (snd (judge avg r))) =
     (path_join (TrainingConfig.checkpoint_dir (config (self r))) "best.pt",
      bundle_of (improved avg (self r))) :: disk (proc r)).
Proof.
  unfold judge. destruct (is_main (self r)) eqn:Hmain; [|left; reflexivity].
  destruct (flt avg (best_loss_of r)) eqn:Hlt; [|left; reflexivity].
  match goal with
  | |- context [save_checkpoint true ?x] =>
      destruct (save_checkpoint_general true x) as (_ & _ & [Hd|(_ & Hok & Hd)])
  end.
  - left. rewrite Hd. reflexivity.
  - right. split; [reflexivity|]. split; [exact Hok|]. rewrite Hd. reflexivity.
Qed.

Lemma validate_disk r :
  disk (proc (snd (validate r))) = disk (proc r) \/
  (len (val_loader (self r)) <> O /\
   is_main (self r)
     && flt (mean_validation_loss (val_loader (self r)) (epoch_of r)
               (world_size (proc r))) (best_loss_of r) = true /\
   fst (validate r) = Ok tt /\
   disk (proc (snd (validate r))) =
     (path_join (TrainingConfig.checkpoint_dir (config (self r))) "best.pt",
      bundle_of
        (improved
           (mean_validation_loss (val_loader (self r)) (epoch_of r)
              (world_size (proc r))) (self r))) :: disk (proc r)).
Proof.
  destruct (Nat.eq_dec (len (val_loader (self r))) 0) as [E|E].
  - left. rewrite (validate_empty r E). reflexivity.
  - rewrite (validate_nonempty r E).
    set (reduces := validation_reduces (val_loader (self r)) (epoch_of r)
                      (world_size (proc r))
                      (seq 0 (len (val_loader (self r))))).
    set (avg := mean_validation_loss (val_loader (self r)) (epoch_of r)
                  (world_size (proc r))).
    destruct (emit_all_rest reduces (proc r)) as (_&_&Hd&_&_).
    destruct (judge_disk avg
                {| self := self r; proc := emit_all reduces (proc r) |})
      as [H|(Hup & Hok & H)]; cbn [self proc] in *.
    + left. rewrite H. exact Hd.
    + right. split; [exact E|]. split; [exact Hup|]. split; [exact Hok|].
      rewrite H, Hd. reflexivity.
Qed.

Lemma best_saves_cons_best dir c d :
  best_saves dir ((path_join dir "best.pt", c) :: d) =
  TrainerState.best_loss (CheckpointState.trainer_state c) :: best_saves dir d.
Proof.
  unfold best_saves. cbn [filter]. unfold is_periodic at 1. cbn [fst].
  rewrite String.eqb_refl. reflexivity.
Qed.

Lemma best_saves_cons_periodic dir e c d :
  best_saves dir ((path_join dir (checkpoint_filename e false), c) :: d) =
  best_saves dir d.
Proof.
  unfold best_saves. cbn [filter]. unfold is_periodic at 1. cbn [fst].
  rewrite periodic_name_not_best. reflexivity.
Qed.

(** C5, as the code has it.  The best loss starts at plus infinity.  A
    validation pass over a non-empty loader replaces it by the mean
    validation loss exactly when the rank is rank 0 and the mean is strictly
    below it, so on rank 0 a first mean below plus infinity qualifies, and
    on every other rank it never changes; either way it does not increase,
    and it does not increase over the epoch loop.  A bundle is written under
    the name of the best file only by such a replacement, it records the new
    best loss, and on a working trainer with a writable store every
    replacement writes one; training passes and periodic saves write none. *)
Theorem best_loss_dynamics (r : Run) :
  len (val_loader (self r)) <> O ->
  TrainerState.best_loss TrainerState.default = inf /\
  best_loss_of (snd (validate r)) =
    (if is_main (self r)
          && flt (mean_validation_loss (val_loader (self r)) (epoch_of r)
                    (world_size (proc r))) (best_loss_of r)
     then mean_validation_loss (val_loader (self r)) (epoch_of r)
            (world_size (proc r))
     else best_loss_of r) /\
  fle (best_loss_of (snd (validate r))) (best_loss_of r) /\
  (forall cfg, fle (best_loss_of (snd (train_loop cfg r))) (best_loss_of r)) /\
  (best_saves (TrainingConfig.checkpoint_dir (config (self r)))
     (disk (proc (snd (validate r)))) =
   best_saves (TrainingConfig.checkpoint_dir (config (self r)))
     (disk (proc r)) \/
   is_main (self r)
     && flt (mean_validation_loss (val_loader (self r)) (epoch_of r)
               (world_size (proc r))) (best_loss_of r) = true /\
   best_saves (TrainingConfig.checkpoint_dir (config (self r)))
     (disk (proc (snd (validate r)))) =
   mean_validation_loss (val_loader (self r)) (epoch_of r)
     (world_size (proc r))
     :: best_saves (TrainingConfig.checkpoint_dir (config (self r)))
          (disk (proc r))) /\
  (operational r = true ->
   writable (proc r) = true ->
   is_main (self r)
     && flt (mean_validation_loss (val_loader (self r)) (epoch_of r)
               (world_size (proc r))) (best_loss_of r) = true ->
   fst (validate r) = Ok tt /\
   best_saves (TrainingConfig.checkpoint_dir (config (self r)))
     (disk (proc (snd (validate r)))) =
   mean_validation_loss (val_loader (self r)) (epoch_of r)
     (world_size (proc r))
     :: best_saves (TrainingConfig.checkpoint_dir (config (self r)))
          (disk (proc r))) /\
  best_saves (TrainingConfig.checkpoint_dir (config (self r)))
    (disk (proc (snd (train_epoch r)))) =
  best_saves (TrainingConfig.checkpoint_dir (config (self r)))
    (disk (proc r)) /\
  best_saves (TrainingConfig.checkpoint_dir (config (self r)))
    (disk (proc (snd (save_checkpoint false r)))) =
  best_saves (TrainingConfig.checkpoint_dir (config (self r)))
    (disk (proc r)).
Proof.
  intros Hlen.
  destruct (validate_general r) as (_ & _ & _ & _ & _ & _ & Hb).
  destruct (Nat.eqb_spec (len (val_loader (self r))) 0) as [|_];
    [contradiction|].
  split; [reflexivity|]. split; [exact Hb|].
  split; [apply validate_monotone|].
  split; [intros cfg; apply train_loop_monotone|].
  split; [|split; [|split]].
  - destruct (validate_disk r) as [Hd|(_ & Hup & _ & Hd)].
    + left. rewrite Hd. reflexivity.
    + right. split; [exact Hup|]. rewrite Hd, best_saves_cons_best. reflexivity.
  - intros Hop Hwr Hup.
    rewrite (validate_ok r Hop (fun _ => Hwr) Hlen). cbn [fst snd].
    split; [reflexivity|].
    destruct (after_validation_self r) as [[Hs Hd]|(_ & _ & Hs & Hd)].
    + exfalso. pose proof Hb as Hb'.
      rewrite (validate_ok r Hop (fun _ => Hwr) Hlen) in Hb'. cbn [snd] in Hb'.
      unfold after_validation in Hs, Hd.
      apply andb_prop in Hup. destruct Hup as [Hm Hlt].
      rewrite Hm, Hlt in Hd. cbn [self proc saved emit write_file disk] in Hd.
      destruct (emit_all_rest
                  (validation_reduces (val_loader (self r)) (epoch_of r)
                     (world_size (proc r))
                     (seq 0 (len (val_loader (self r)))))
                  (proc r)) as (_&_&Hd'&_&_).
      rewrite Hd' in Hd.
      apply (f_equal (@List.length _)) in Hd. cbn in Hd. lia.
    + rewrite Hd, best_saves_cons_best, Hs. reflexivity.
  - destruct (train_epoch_general r) as (_ & _ & Hd & _). rewrite Hd.
    reflexivity.
  - destruct (save_checkpoint_general false r) as (_ & _ & [Hd|(_ & _ & Hd)]);
      rewrite Hd; [reflexivity|].
    unfold checkpoint_path. apply best_saves_cons_periodic.
Qed.

(** The first validation of the scenario on rank 0: mean 0.5 against plus
    infinity. *)
Lemma best_loss_dynamics_witness :
  len (val_loader (self (Scenario.run (Scenario.run_config 1 2 1 1) 0))) <> O /\
  best_loss_of (snd (validate (Scenario.run (Scenario.run_config 1 2 1 1) 0)))
    = lit 1 2.
Proof.
  split; [discriminate|].
  rewrite (proj1 (proj2 (best_loss_dynamics
                           (Scenario.run (Scenario.run_config 1 2 1 1) 0)
                           ltac:(discriminate)))).
  vm_compute. reflexivity.
Defined.

(** Two validation passes that do not do what C5 says: on rank 1 a mean of
    0.5 against a best loss of plus infinity changes nothing; on rank 0 a
    first pass whose mean is plus infinity does not qualify. *)
Lemma validation_without_update :
  (is_main (self (Scenario.run (Scenario.run_config 1 2 1 1) 1)) = false /\
   fst (validate (Scenario.run (Scenario.run_config 1 2 1 1) 1)) = Ok tt /\
   mean_validation_loss Scenario.one_validation_batch 0 2 = lit 1 2 /\
   flt (lit 1 2) inf = true /\
   best_loss_of (Scenario.run (Scenario.run_config 1 2 1 1) 1) = inf /\
   best_loss_of (snd (validate (Scenario.run (Scenario.run_config 1 2 1 1) 1)))
     = inf) /\
  (let r := {| self := set_state TrainerState.default
                         {| config := Scenario.run_config 1 2 1 1;
                            is_main := true;
                            model := TTSTransformer;
                            optimizer := AdamW (lit 3 10000) 0;
                            train_loader := Scenario.four_batches;
                            val_loader :=
                              {| len := 1; loss := fun _ _ _ => inf |};
                            scheduler := OneCycleLR (lit 3 10000) 2 0;
                            state := TrainerState.default |};
               proc := Scenario.process 0 |} in
   fst (validate r) = Ok tt /\
   best_loss_of (snd (validate r)) = inf /\
   disk (proc (snd (validate r))) = []).
Proof.
  split.
  - repeat split; vm_compute; reflexivity.
  - repeat split; vm_compute; reflexivity.
Qed.

(** ** The reported validation loss *)

(** C6. On rank 0, a validation pass over a non-empty loader performs one
    collective sum per batch and then logs, as the validation loss, the sum
    over the batches of (the collective sum of the ranks' losses for the
    batch, divided by the world size), divided by the number of batches;
    the only line that can follow it is the one of the best save. *)
Theorem validation_mean_reported (r : Run) :
  len (val_loader (self r)) <> O ->
  is_main (self r) = true ->
  let vl := val_loader (self r) in
  let w := world_size (proc r) in
  let e := epoch_of r in
  let reported :=
    fdiv
      (fold_left fadd
         (map (fun i =>
                 fdiv
                   (Tensor.item
                      (Tensor.sum
                         (map (fun k => Tensor.tensor (loss vl e i k))
                              (seq 0 (Pos.to_nat w)))))
                   (float_of_int (Zpos w)))
              (seq 0 (len vl)))
         zero)
      (float_of_int (Z.of_nat (len vl))) in
  reported = mean_validation_loss vl e w /\
  exists later,
    trace (proc (snd (validate r))) =
      (later
         ++ Logged (LogValidation reported)
         :: rev (map (fun i =>
                        AllReduce
                          (Tensor.sum
                             (map (fun k => Tensor.tensor (loss vl e i k))
                                  (seq 0 (Pos.to_nat w)))))
                     (seq 0 (len vl)))
         ++ trace (proc r))%list /\
    (later = [] \/
     later = [Logged (LogSaved
                        (path_join
                           (TrainingConfig.checkpoint_dir (config (self r)))
                           "best.pt"))]).
Proof.
  intros Hlen Hmain vl w e reported.
  assert (Hrep : reported = mean_validation_loss vl e w) by reflexivity.
  split; [exact Hrep|].
  rewrite (validate_nonempty r Hlen). fold vl w e. rewrite <- Hrep.
  unfold judge. cbn [self proc]. rewrite Hmain.
  set (reduces := validation_reduces vl e w (seq 0 (len vl))).
  assert (Htr : trace (emit_all reduces (proc r))
                = (rev reduces ++ trace (proc r))%list)
    by apply emit_all_trace.
  destruct (flt reported _).
  - unfold save_checkpoint, optimizer_state_dict, scheduler_state_dict.
    run_monad. rewrite Hmain. cbn [negb].
    destruct (emit_all_rest reduces (proc r)) as (_&_&_&Hw&_).
    destruct (optimizer (self r)); run_monad;
      [|exists []; split; [cbn; rewrite Htr; reflexivity|left; reflexivity]].
    destruct (scheduler (self r)); run_monad;
      [|exists []; split; [cbn; rewrite Htr; reflexivity|left; reflexivity]].
    rewrite Hw. destruct (writable (proc r)); run_monad.
    + eexists [_]. split; [cbn; rewrite Htr; reflexivity|right; reflexivity].
    + exists []. split; [cbn; rewrite Htr; reflexivity|left; reflexivity].
  - exists []. split; [cbn; rewrite Htr; reflexivity|left; reflexivity].
Qed.

(** The scenario of the specification: losses 0.4 and 0.6 on the two ranks
    reduce to 1.0, and the reported mean is 0.5. *)
Lemma validation_mean_reported_witness :
  len (val_loader (self (Scenario.run (Scenario.run_config 1 2 1 1) 0))) <> O /\
  is_main (self (Scenario.run (Scenario.run_config 1 2 1 1) 0)) = true /\
  (exists later,
      trace (proc (snd (validate
                          (Scenario.run (Scenario.run_config 1 2 1 1) 0)))) =
        (later
           ++ Logged (LogValidation
                        (mean_validation_loss Scenario.one_validation_batch 0 2))
           :: rev (map (fun i =>
                          AllReduce
                            (collective_sum 2
                               (loss Scenario.one_validation_batch 0 i)))
                       (seq 0 1))
           ++ [])%list /\
      (later = [] \/ later = [Logged (LogSaved "checkpoints/best.pt")])) /\
  collective_sum 2 (loss Scenario.one_validation_batch 0 0)
    = Tensor.tensor (float_of_int 1) /\
  mean_validation_loss Scenario.one_validation_batch 0 2 = lit 1 2.
Proof.
  split; [discriminate|]. split; [reflexivity|].
  split;
    [exact (proj2 (validation_mean_reported
                     (Scenario.run (Scenario.run_config 1 2 1 1) 0)
                     ltac:(discriminate) eq_refl))|].
  split; vm_compute; reflexivity.
Defined.

(** ** Periodic checkpoints *)

Lemma zeros_length n : String.length (zeros n) = n.
Proof. induction n as [|n IH]; cbn; [reflexivity|rewrite IH; reflexivity]. Qed.

Lemma append_length (a b : string) :
  String.length (a ++ b) = (String.length a + String.length b)%nat.
Proof. induction a as [|c a IH]; cbn; [reflexivity|rewrite IH; reflexivity]. Qed.

Lemma format_04d_width e :
  0 <= e ->
  String.length (format_04d e) = Nat.max 4 (String.length (digits e)).
Proof.
  intros He. unfold format_04d, zfill.
  destruct (Z.ltb_spec e 0) as [|_]; [lia|].
  rewrite append_length, zeros_length. lia.
Qed.

(** C7. On a run the epoch loop goes through (working trainer, non-zero
    window and cadences, writable store on rank 0, a schedule with the ticks
    of the remaining epochs left), the loop completes, and
    on rank 0 the periodic files it adds to the store are exactly those of
    the completed epochs [e] with [e mod checkpoint_freq = 0], oldest first,
    each named [checkpoint_] followed by [e] in the format [04d] and [.pt],
    and each holding the trainer state of epoch [e]; this whatever best
    files validation wrote in between.  On any other rank the store is left
    as it was, and a call of [save_checkpoint] there returns at once.  The
    format pads the digits of [e >= 0] with zeros to four characters and
    cuts nothing off. *)
Theorem periodic_checkpoints (cfg : TrainingConfig.t) (r : Run) :
  ready cfg r ->
  (Z.to_nat (TrainingConfig.epochs cfg - epoch_of r) * steps_per_epoch r
   <= ticks_left r)%nat ->
  (exists r',
      train_loop cfg r = (Ok tt, r') /\
      (is_main (self r) = true ->
       periodic_saves (TrainingConfig.checkpoint_dir cfg) (disk (proc r')) =
       (rev (map (fun e =>
                    (path_join (TrainingConfig.checkpoint_dir cfg)
                       ("checkpoint_" ++ format_04d e ++ ".pt"), e))
                 (filter (fun e => e mod TrainingConfig.checkpoint_freq cfg =? 0)
                    (completed_epochs (epoch_of r)
                       (Z.to_nat (TrainingConfig.epochs cfg - epoch_of r)))))
          ++ periodic_saves (TrainingConfig.checkpoint_dir cfg)
               (disk (proc r)))%list) /\
      (is_main (self r) = false -> disk (proc r') = disk (proc r))) /\
  (forall best r0,
      is_main (self r0) = false -> save_checkpoint best r0 = (Ok tt, r0)) /\
  (forall e,
      0 <= e ->
      String.length (format_04d e) = Nat.max 4 (String.length (digits e))).
Proof.
  intros Hr Hleft. split; [|split].
  - destruct (train_loop_ok cfg r Hr Hleft)
      as (r' & E & _ & _ & _ & _ & _ & Hother & Hmain).
    exists r'. split; [exact E|]. split.
    + intros Hm. rewrite (Hmain Hm). reflexivity.
    + intros Hm. apply (Hother Hm).
  - intros best r0. apply save_checkpoint_other_rank.
  - exact format_04d_width.
Qed.

(** The scenario of the specification: checkpoint cadence 2 over 5 epochs. *)
Lemma periodic_checkpoints_witness :
  ready (Scenario.run_config 5 2 2 1)
    (Scenario.run (Scenario.run_config 5 2 2 1) 0) /\
  (Z.to_nat (TrainingConfig.epochs (Scenario.run_config 5 2 2 1)
             - epoch_of (Scenario.run (Scenario.run_config 5 2 2 1) 0))
   * steps_per_epoch (Scenario.run (Scenario.run_config 5 2 2 1) 0)
   <= ticks_left (Scenario.run (Scenario.run_config 5 2 2 1) 0))%nat /\
  (exists r',
      train_loop (Scenario.run_config 5 2 2 1)
        (Scenario.run (Scenario.run_config 5 2 2 1) 0) = (Ok tt, r') /\
      (true = true ->
       periodic_saves "checkpoints" (disk (proc r')) =
         [("checkpoints/checkpoint_0004.pt", 4);
          ("checkpoints/checkpoint_0002.pt", 2)]) /\
      (true = false -> disk (proc r') = [])) /\
  map fst
    (disk (proc (snd (train_loop (Scenario.run_config 5 2 2 1)
                        (Scenario.run (Scenario.run_config 5 2 2 1) 0))))) =
    ["checkpoints/checkpoint_0004.pt"; "checkpoints/checkpoint_0002.pt";
     "checkpoints/best.pt"] /\
  disk (proc (snd (train_loop (Scenario.run_config 5 2 2 1)
                     (Scenario.run (Scenario.run_config 5 2 2 1) 1)))) = [].
Proof.
  assert (Hr : ready (Scenario.run_config 5 2 2 1)
                 (Scenario.run (Scenario.run_config 5 2 2 1) 0))
    by (constructor; (reflexivity || discriminate)).
  assert (Hleft :
            (Z.to_nat (TrainingConfig.epochs (Scenario.run_config 5 2 2 1)
                       - epoch_of (Scenario.run (Scenario.run_config 5 2 2 1) 0))
             * steps_per_epoch (Scenario.run (Scenario.run_config 5 2 2 1) 0)
             <= ticks_left (Scenario.run (Scenario.run_config 5 2 2 1) 0))%nat)
    by (vm_compute; repeat constructor).
  split; [exact Hr|]. split; [exact Hleft|].
  split;
    [exact (proj1 (periodic_checkpoints (Scenario.run_config 5 2 2 1)
                     (Scenario.run (Scenario.run_config 5 2 2 1) 0)
                     Hr Hleft))|].
  split; vm_compute; reflexivity.
Defined.

(** ** The epoch counter *)

(** C8. A call of [train_epoch] that completes leaves the epoch counter one
    higher, and one that an exception cuts short leaves it as it was; on a
    working trainer with a non-zero window, whose schedule has the ticks of
    the epoch left, the call completes; over an empty
    loader it completes for any trainer and changes nothing but the epoch
    counter.  [validate] and [save_checkpoint] keep the counter, and the
    epoch loop of [train] never lowers it. *)
Theorem epoch_monotonicity (r : Run) :
  epoch_of (snd (train_epoch r)) =
    match fst (train_epoch r) with
    | Ok _ => epoch_of r + 1
    | Raise _ => epoch_of r
    end /\
  (operational r = true ->
   TrainingConfig.grad_accum_steps (config (self r)) <> 0 ->
   (steps_per_epoch r <= ticks_left r)%nat ->
   fst (train_epoch r) = Ok tt) /\
  (len (train_loader (self r)) = O ->
   train_epoch r =
     (Ok tt, {| self := set_state (bump_epoch (state (self r))) (self r);
                proc := proc r |})) /\
  epoch_of (snd (validate r)) = epoch_of r /\
  (forall best, epoch_of (snd (save_checkpoint best r)) = epoch_of r) /\
  (forall cfg, epoch_of r <= epoch_of (snd (train_loop cfg r))).
Proof.
  split; [apply train_epoch_general|].
  split.
  { intros Hop HW Hleft.
    destruct (train_epoch_ok r Hop HW Hleft) as (r' & E & _).
    rewrite E. reflexivity. }
  split; [apply train_epoch_empty|].
  split; [apply validate_general|].
  split.
  { intros best. destruct (save_checkpoint_general best r) as (Hs & _).
    unfold epoch_of. rewrite Hs. reflexivity. }
  intros cfg. apply train_loop_monotone.
Qed.

(** An epoch of the scenario, and an epoch over no batches on a trainer that
    holds the exception objects of unsupported kinds. *)
Lemma epoch_monotonicity_witness :
  fst (train_epoch (Scenario.run (Scenario.run_config 1 2 1 1) 0)) = Ok tt /\
  epoch_of (snd (train_epoch (Scenario.run (Scenario.run_config 1 2 1 1) 0)))
    = 1 /\
  let r := {| self :=
                {| config := unsupported_kinds;
                   is_main := true;
                   model := TTSTransformer;
                   optimizer :=
                     OptimizerNotImplementedError
                       "Optimizer: SGD not implemented!";
                   train_loader := Scenario.no_batches;
                   val_loader := Scenario.no_batches;
                   scheduler :=
                     SchedulerNotImplementedError
                       "lr_scheduler:StepLR not implemented!";
                   state := TrainerState.default |};
              proc := Scenario.process 0 |} in
  train_epoch r =
    (Ok tt, {| self := set_state (bump_epoch (state (self r))) (self r);
               proc := proc r |}).
Proof.
  pose proof (epoch_monotonicity (Scenario.run (Scenario.run_config 1 2 1 1) 0))
    as (He & Hok & _).
  specialize (Hok eq_refl ltac:(discriminate)
                  ltac:(vm_compute; repeat constructor)).
  split; [exact Hok|]. split.
  - rewrite He, Hok. reflexivity.
  - intros r.
    exact (proj1 (proj2 (proj2 (epoch_monotonicity r))) eq_refl).
Defined.

(** ** The frame of validation *)

Lemma judge_self avg r :
  self (snd (judge avg r)) = improved (best_loss_of (snd (judge avg r))) (self r).
Proof.
  assert (Hid : forall t, improved (TrainerState.best_loss (state t)) t = t)
    by (intros [? ? ? ? ? ? ? []]; reflexivity).
  unfold judge. destruct (is_main (self r)).
  - destruct (flt avg (best_loss_of r)).
    + match goal with
      | |- context [save_checkpoint true ?x] =>
          destruct (save_checkpoint_general true x) as (Hs & _)
      end.
      unfold best_loss_of. rewrite Hs. cbn [self].
      destruct (self r) as [? ? ? ? ? ? ? []]. reflexivity.
    + cbn [snd self]. unfold best_loss_of. cbn [self]. symmetry. apply Hid.
  - cbn [snd]. unfold best_loss_of. symmetry. apply Hid.
Qed.

(** C10. Whatever its outcome, a call of [validate] leaves the trainer as it
    was up to the best loss: epoch counter, global step, configuration,
    model, optimizer, scheduler and loaders are untouched.  Over an empty
    validation loader it returns at once, leaving trainer and process (no
    collective, no log line, no file) exactly as they were. *)
Theorem validate_frame (r : Run) :
  self (snd (validate r)) =
    improved (best_loss_of (snd (validate r))) (self r) /\
  epoch_of (snd (validate r)) = epoch_of r /\
  global_step_of (snd (validate r)) = global_step_of r /\
  (len (val_loader (self r)) = O -> validate r = (Ok tt, r)).
Proof.
  destruct (validate_general r) as (_ & He & Hg & _).
  split; [|split; [exact He|split; [exact Hg|apply validate_empty]]].
  destruct (Nat.eq_dec (len (val_loader (self r))) 0) as [E|E].
  - rewrite (validate_empty r E). cbn [snd]. unfold best_loss_of.
    destruct (self r) as [? ? ? ? ? ? ? []]. reflexivity.
  - rewrite (validate_nonempty r E).
    match goal with
    | |- context [judge ?a ?x] => exact (judge_self a x)
    end.
Qed.

(** Validation over no batches, on rank 0 of the scenario. *)
Lemma validate_frame_witness :
  let r := {| self := Scenario.without_validation; proc := Scenario.process 0 |} in
  validate r = (Ok tt, r).
Proof.
  intros r. exact (proj2 (proj2 (proj2 (validate_frame r))) eq_refl).
Defined.

(** ** Two ranks side by side *)

(** C9, as the code has it.  Two ranks that go through the epoch loop from
    the same trainer state with the same configuration and training loader,
    each with a schedule that has the ticks of the remaining epochs left,
    both complete it and leave it with the same epoch counter and the same
    global step, without exchanging anything.  The best loss follows the
    validation passes on rank 0 only: a rank other than 0 leaves the loop
    with the best loss it entered with, so two such ranks agree on the
    whole trainer state. *)
Theorem counters_agree_across_ranks (cfg : TrainingConfig.t) (r1 r2 : Run) :
  ready cfg r1 ->
  ready cfg r2 ->
  state (self r1) = state (self r2) ->
  train_loader (self r1) = train_loader (self r2) ->
  (Z.to_nat (TrainingConfig.epochs cfg - epoch_of r1) * steps_per_epoch r1
   <= Nat.min (ticks_left r1) (ticks_left r2))%nat ->
  exists r1' r2',
    train_loop cfg r1 = (Ok tt, r1') /\
    train_loop cfg r2 = (Ok tt, r2') /\
    epoch_of r1' = epoch_of r2' /\
    global_step_of r1' = global_step_of r2' /\
    (is_main (self r1) = false -> best_loss_of r1' = best_loss_of r1) /\
    (is_main (self r1) = false ->
     is_main (self r2) = false ->
     state (self r1') = state (self r2')).
Proof.
  intros H1 H2 Hstate Hloader Hleft.
  assert (Hsteps : steps_per_epoch r1 = steps_per_epoch r2).
  { unfold steps_per_epoch.
    rewrite (ready_config _ _ H1), (ready_config _ _ H2), Hloader.
    reflexivity. }
  assert (He : epoch_of r1 = epoch_of r2) by (unfold epoch_of; congruence).
  assert (Hleft1 :
            (Z.to_nat (TrainingConfig.epochs cfg - epoch_of r1)
               * steps_per_epoch r1 <= ticks_left r1)%nat) by lia.
  assert (Hleft2 :
            (Z.to_nat (TrainingConfig.epochs cfg - epoch_of r2)
               * steps_per_epoch r2 <= ticks_left r2)%nat)
    by (rewrite <- He, <- Hsteps; lia).
  destruct (train_loop_ok cfg r1 H1 Hleft1)
    as (r1' & E1 & _ & _ & He1 & (Hg1 & _) & _ & Ho1 & _).
  destruct (train_loop_ok cfg r2 H2 Hleft2)
    as (r2' & E2 & _ & _ & He2 & (Hg2 & _) & _ & Ho2 & _).
  exists r1', r2'.
  assert (Hg : global_step_of r1 = global_step_of r2)
    by (unfold global_step_of; congruence).
  assert (Hepoch : epoch_of r1' = epoch_of r2') by congruence.
  assert (Hstep : global_step_of r1' = global_step_of r2')
    by (rewrite Hg1, Hg2, Hsteps, He, Hg; reflexivity).
  split; [exact E1|]. split; [exact E2|]. split; [exact Hepoch|].
  split; [exact Hstep|]. split; [intros Hm; apply (Ho1 Hm)|].
  intros Hm1 Hm2.
  destruct (Ho1 Hm1) as [Hb1 _]. destruct (Ho2 Hm2) as [Hb2 _].
  unfold epoch_of, global_step_of, best_loss_of in *.
  destruct (state (self r1')), (state (self r2')). cbn in *.
  f_equal; congruence.
Qed.

(** Ranks 0 and 1 of the scenario over two epochs. *)
Lemma counters_agree_across_ranks_witness :
  ready (Scenario.run_config 2 2 1 1)
    (Scenario.run (Scenario.run_config 2 2 1 1) 1) /\
  ready (Scenario.run_config 2 2 1 1)
    (Scenario.run (Scenario.run_config 2 2 1 1) 0) /\
  exists r1' r2',
    train_loop (Scenario.run_config 2 2 1 1)
      (Scenario.run (Scenario.run_config 2 2 1 1) 1) = (Ok tt, r1') /\
    train_loop (Scenario.run_config 2 2 1 1)
      (Scenario.run (Scenario.run_config 2 2 1 1) 0) = (Ok tt, r2') /\
    epoch_of r1' = epoch_of r2' /\
    global_step_of r1' = global_step_of r2' /\
    (false = false ->
     best_loss_of r1' =
       best_loss_of (Scenario.run (Scenario.run_config 2 2 1 1) 1)) /\
    (false = false -> true = false -> state (self r1') = state (self r2')).
Proof.
  assert (H0 : ready (Scenario.run_config 2 2 1 1)
                 (Scenario.run (Scenario.run_config 2 2 1 1) 0))
    by (constructor; (reflexivity || discriminate)).
  assert (H1 : ready (Scenario.run_config 2 2 1 1)
                 (Scenario.run (Scenario.run_config 2 2 1 1) 1))
    by (constructor; (reflexivity || discriminate)).
  split; [exact H1|]. split; [exact H0|].
  exact (counters_agree_across_ranks (Scenario.run_config 2 2 1 1)
           (Scenario.run (Scenario.run_config 2 2 1 1) 1)
           (Scenario.run (Scenario.run_config 2 2 1 1) 0)
           H1 H0 eq_refl eq_refl
           ltac:(vm_compute; repeat constructor)).
Defined.

(** Ranks 0 and 1 start from the same configuration, trainer state and
    loaders and see the same losses; after one validation pass, and after
    the whole run, their trainer states differ in the best loss. *)
Lemma ranks_disagree_on_best_loss :
  config (self (Scenario.run (Scenario.run_config 1 2 1 1) 0)) =
    config (self (Scenario.run (Scenario.run_config 1 2 1 1) 1)) /\
  state (self (Scenario.run (Scenario.run_config 1 2 1 1) 0)) =
    state (self (Scenario.run (Scenario.run_config 1 2 1 1) 1)) /\
  val_loader (self (Scenario.run (Scenario.run_config 1 2 1 1) 0)) =
    val_loader (self (Scenario.run (Scenario.run_config 1 2 1 1) 1)) /\
  fst (validate (Scenario.run (Scenario.run_config 1 2 1 1) 0)) = Ok tt /\
  fst (validate (Scenario.run (Scenario.run_config 1 2 1 1) 1)) = Ok tt /\
  best_loss_of (snd (validate (Scenario.run (Scenario.run_config 1 2 1 1) 0)))
    = lit 1 2 /\
  best_loss_of (snd (validate (Scenario.run (Scenario.run_config 1 2 1 1) 1)))
    = inf /\
  state (self (snd (train_loop (Scenario.run_config 1 2 1 1)
                      (Scenario.run (Scenario.run_config 1 2 1 1) 0)))) <>
  state (self (snd (train_loop (Scenario.run_config 1 2 1 1)
                      (Scenario.run (Scenario.run_config 1 2 1 1) 1)))).
Proof.
  repeat split; try (vm_compute; reflexivity).
  vm_compute. discriminate.
Qed.

(** * Further properties *)

(** ** Epoch tags *)

Lemma digits_read n :
  0 <= n ->
  exists d, NilEmpty.uint_of_string (digits n) = Some d /\ Z.of_uint d = n.
Proof.
  intros Hn. unfold digits. exists (N.to_uint (Z.to_N n)). split.
  - assert (Hnn : N.to_uint (Z.to_N n) <> Decimal.Nil).
    { destruct (Z.to_N n); cbn;
        [discriminate|apply DecimalPos.Unsigned.to_uint_nonnil]. }
    destruct (N.to_uint (Z.to_N n)) eqn:E; try contradiction;
      unfold NilZero.string_of_uint; rewrite <- E at 1; rewrite <- E;
      apply NilEmpty.usu.
  - unfold Z.of_uint. change (Pos.of_uint ?d) with (N.of_uint d).
    rewrite DecimalN.Unsigned.of_to. lia.
Qed.

Lemma zeros_read k s d :
  NilEmpty.uint_of_string s = Some d ->
  exists d', NilEmpty.uint_of_string (zeros k ++ s) = Some d' /\
             Z.of_uint d' = Z.of_uint d.
Proof.
  intros H. induction k as [|k (d' & E & V)]; cbn.
  - exists d. split; [assumption|reflexivity].
  - exists (Decimal.D0 d'). rewrite E. split; [reflexivity|exact V].
Qed.

Lemma digits_nonempty n : digits n <> "".
Proof.
  unfold digits. destruct (Z.to_N n) as [|q]; cbn; [discriminate|].
  destruct (Pos.to_uint q); cbn; discriminate.
Qed.

Lemma zfill_nonempty w s : s <> "" -> zfill w s <> "".
Proof.
  unfold zfill. destruct (zeros (w - String.length s)); cbn;
    [trivial|discriminate].
Qed.

Lemma unsigned_read s d :
  s <> "" ->
  NilEmpty.uint_of_string s = Some d ->
  NilZero.int_of_string s = Some (Decimal.Pos d).
Proof.
  destruct s as [|a s]; [contradiction|]. intros _.
  cbn [NilZero.int_of_string].
  destruct (Ascii.eqb_spec a "-") as [->|_].
  - cbn. destruct (NilEmpty.uint_of_string s); discriminate.
  - unfold NilZero.uint_of_string. intros ->. reflexivity.
Qed.

Lemma format_04d_read e : read_04d (format_04d e) = Some e.
Proof.
  unfold read_04d, format_04d.
  destruct (Z.ltb_spec e 0) as [Hneg|Hpos].
  - destruct (digits_read (- e) ltac:(lia)) as (d & E & V).
    destruct (zeros_read (3 - String.length (digits (- e))) _ _ E)
      as (d' & E' & V').
    pose proof (zfill_nonempty 3 _ (digits_nonempty (- e))) as Hne.
    change ("-" ++ ?x) with (String "-" x).
    cbn [NilZero.int_of_string]. rewrite Ascii.eqb_refl.
    unfold NilZero.uint_of_string.
    destruct (zfill 3 (digits (- e))) eqn:Ez; [contradiction|].
    rewrite <- Ez. unfold zfill. rewrite E'. cbn. f_equal. lia.
  - destruct (digits_read e Hpos) as (d & E & V).
    destruct (zeros_read (4 - String.length (digits e)) _ _ E)
      as (d' & E' & V').
    rewrite (unsigned_read _ _ (zfill_nonempty 4 _ (digits_nonempty e)) E').
    cbn. f_equal. lia.
Qed.

Lemma append_inj_r (s a b : string) : a ++ s = b ++ s -> a = b.
Proof.
  intros H.
  assert (L : String.length a = String.length b).
  { apply (f_equal String.length) in H. rewrite !append_length in H. lia. }
  revert b H L. induction a as [|x a IH]; intros [|y b] H L; try discriminate.
  - reflexivity.
  - cbn in H. injection H as -> H. f_equal. apply IH; [assumption|].
    cbn in L. lia.
Qed.

(** X1. The epoch tag of a periodic checkpoint reads back as the epoch, for
    every integer, so the periodic checkpoints of two different epochs never
    share a file, and none of them is the file of the best checkpoint. *)
Theorem periodic_names_are_distinct :
  (forall e, read_04d (format_04d e) = Some e) /\
  (forall dir e1 e2,
      path_join dir (checkpoint_filename e1 false) =
      path_join dir (checkpoint_filename e2 false) -> e1 = e2) /\
  (forall dir e,
      path_join dir (checkpoint_filename e false) <>
      path_join dir (checkpoint_filename e true)).
Proof.
  split; [exact format_04d_read|]. split.
  - intros dir e1 e2 H. unfold path_join, checkpoint_filename in H.
    cbn [negb] in H.
    apply append_inj_l, append_inj_l, append_inj_l, append_inj_r in H.
    pose proof (format_04d_read e1) as R1. rewrite H, format_04d_read in R1.
    congruence.
  - intros dir e H.
    pose proof (periodic_name_not_best dir e) as N.
    change (checkpoint_filename e true) with "best.pt" in H.
    rewrite H, String.eqb_refl in N. discriminate.
Qed.

(** ** Saving, whatever the trainer *)

Lemma read_file_top path c d : read_file path ((path, c) :: d) = Some c.
Proof. cbn. rewrite String.eqb_refl. reflexivity. Qed.

(** X2. [save_checkpoint] is all or nothing.  It succeeds exactly on a rank
    other than 0, where it does nothing, and on a rank 0 whose optimizer and
    scheduler are working objects and whose store can be written; there the
    trainer is untouched, the file holds the bundle of the trainer as it is
    (its state and configuration included) and one line is logged, the
    newest of the trace.  When it fails it leaves the run exactly as it was,
    so no line claims a save that did not happen: with an [AttributeError]
    where a factory's exception object stands for the optimizer or the
    scheduler, with the store's error otherwise. *)
Theorem save_checkpoint_all_or_nothing (best : bool) (r : Run) :
  (forall e,
      fst (save_checkpoint best r) = Raise e ->
      snd (save_checkpoint best r) = r) /\
  (fst (save_checkpoint best r) = Ok tt <->
   is_main (self r) = false
     \/ (operational r = true /\ writable (proc r) = true)) /\
  (is_main (self r) = true ->
   fst (save_checkpoint best r) = Ok tt ->
   self (snd (save_checkpoint best r)) = self r /\
   read_file (checkpoint_path (self r) best)
     (disk (proc (snd (save_checkpoint best r)))) = Some (bundle_of (self r)) /\
   CheckpointState.trainer_state (bundle_of (self r)) = state (self r) /\
   trace (proc (snd (save_checkpoint best r))) =
     Logged (LogSaved (checkpoint_path (self r) best)) :: trace (proc r)) /\
  (is_main (self r) = true ->
   operational r = false ->
   fst (save_checkpoint best r) =
     Raise (AttributeError "NotImplementedError" "state_dict")) /\
  (is_main (self r) = true ->
   operational r = true ->
   writable (proc r) = false ->
   fst (save_checkpoint best r) =
     Raise (SaveError (checkpoint_path (self r) best))).
Proof.
  expose r. unfold save_checkpoint, checkpoint_path, bundle_of,
    optimizer_state_dict, scheduler_state_dict.
  run_monad.
  destruct main, opt, sch, wr; cbn; run_monad; rewrite ?String.eqb_refl;
    repeat split; try reflexivity; try discriminate; try tauto;
    try (intros [H|[H1 H2]]; discriminate).
Qed.

(** ** Loading *)

(** X3. What [save_checkpoint] writes, [load_checkpoint] reads back: a
    working trainer pointed at the file rank 0 just wrote ends up with the
    saved trainer's state (epoch, global step, best loss), its parameter
    updates, its optimizer step count and its schedule tick count. *)
Theorem checkpoint_round_trip (r : Run) (best : bool)
    (t : DistributedTTSTrainer) :
  is_main (self r) = true ->
  operational r = true ->
  writable (proc r) = true ->
  TrainingConfig.resume_checkpoint (config t)
    = Some (checkpoint_path (self r) best) ->
  operational {| self := t; proc := proc r |} = true ->
  exists r',
    load_checkpoint
      {| self := t; proc := proc (snd (save_checkpoint best r)) |}
      = (Ok tt, r') /\
    state (self r') = state (self r) /\
    updates (model (self r')) = updates (model (self r)) /\
    optimizer_steps r' = optimizer_steps r /\
    scheduler_ticks r' = scheduler_ticks r.
Proof.
  intros Hmain Hop Hwr Hres Hop'.
  rewrite (save_checkpoint_main best r Hmain Hop Hwr). cbn [snd].
  unfold load_checkpoint, CheckpointState_load, saved. run_monad.
  rewrite Hres. run_monad. rewrite read_file_top. run_monad.
  destruct t as [cfg' main' mdl' opt' tl' vl' sch' st'].
  cbn [optimizer scheduler model state self config] in *.
  destruct opt'; [|discriminate]. destruct sch'; [|discriminate].
  expose r. cbn [optimizer scheduler model state self config bundle_of
                 CheckpointState.model_state CheckpointState.optimizer_state
                 CheckpointState.scheduler_state
                 CheckpointState.trainer_state] in *.
  destruct opt; [|discriminate]. destruct sch; [|discriminate].
  cbn. eexists. split; [reflexivity|]. cbn. repeat split.
Qed.

Lemma checkpoint_round_trip_witness :
  let r := snd (train_epoch (Scenario.run (Scenario.run_config 5 2 1 1) 0)) in
  exists r',
    load_checkpoint
      {| self :=
           Scenario.trainer
             (resuming_from "checkpoints/checkpoint_0001.pt"
                (Scenario.run_config 5 2 1 1)) 1;
         proc := proc (snd (save_checkpoint false r)) |}
      = (Ok tt, r') /\
    state (self r') =
      {| TrainerState.epoch := 1; TrainerState.global_step := 2;
         TrainerState.best_loss := inf |} /\
    updates (model (self r')) = 2%nat /\
    optimizer_steps r' = 2%nat /\
    scheduler_ticks r' = 2%nat.
Proof.
  intros r.
  destruct (checkpoint_round_trip r false
              (Scenario.trainer
                 (resuming_from "checkpoints/checkpoint_0001.pt"
                    (Scenario.run_config 5 2 1 1)) 1))
    as (r' & E & Hs & Hu & Ho & Hsc);
    try (vm_compute; reflexivity).
  exists r'. split; [exact E|]. rewrite Hs, Hu, Ho, Hsc.
  repeat split; vm_compute; reflexivity.
Defined.

(** X4. A failed [load_checkpoint] never replaces the trainer state and
    never reaches the broadcast or the log.  When no bundle can be read it
    changes nothing at all.  When the optimizer is the exception object of
    the factory it fails on [load_state_dict], after the parameters of the
    model were overwritten from the bundle; when the bundle carries a
    scheduler state and the scheduler is such an object, after model and
    optimizer were. *)
Theorem load_checkpoint_failures (r : Run) :
  (forall e,
      fst (load_checkpoint r) = Raise e ->
      state (self (snd (load_checkpoint r))) = state (self r) /\
      proc (snd (load_checkpoint r)) = proc r) /\
  (TrainingConfig.resume_checkpoint (config (self r)) = None ->
   load_checkpoint r = (Raise (LoadError None), r)) /\
  (forall f,
      TrainingConfig.resume_checkpoint (config (self r)) = Some f ->
      read_file f (disk (proc r)) = None ->
      load_checkpoint r = (Raise (LoadError (Some f)), r)) /\
  (forall f c msg,
      TrainingConfig.resume_checkpoint (config (self r)) = Some f ->
      read_file f (disk (proc r)) = Some c ->
      optimizer (self r) = OptimizerNotImplementedError msg ->
      load_checkpoint r =
        (Raise (AttributeError "NotImplementedError" "load_state_dict"),
         {| self :=
              set_model
                {| updates := CheckpointState.model_state c;
                   pending_grads := pending_grads (model (self r)) |}
                (self r);
            proc := proc r |})) /\
  (forall f c lr k n msg,
      TrainingConfig.resume_checkpoint (config (self r)) = Some f ->
      read_file f (disk (proc r)) = Some c ->
      optimizer (self r) = AdamW lr k ->
      CheckpointState.scheduler_state c = Some n ->
      scheduler (self r) = SchedulerNotImplementedError msg ->
      load_checkpoint r =
        (Raise (AttributeError "NotImplementedError" "load_state_dict"),
         {| self :=
              set_optimizer (AdamW lr (CheckpointState.optimizer_state c))
                (set_model
                   {| updates := CheckpointState.model_state c;
                      pending_grads := pending_grads (model (self r)) |}
                   (self r));
            proc := proc r |})).
Proof.
  expose r. unfold load_checkpoint, CheckpointState_load,
    optimizer_load_state_dict, scheduler_load_state_dict.
  run_monad.
  split; [|split; [|split; [|split]]].
  - intros e.
    destruct (TrainingConfig.resume_checkpoint cfg) as [f|]; run_monad;
      [|intros _; split; reflexivity].
    destruct (read_file f dk) as [c|]; run_monad;
      [|intros _; split; reflexivity].
    destruct opt; run_monad; [|intros _; split; reflexivity].
    destruct (CheckpointState.scheduler_state c) as [n|]; run_monad;
      [|discriminate].
    destruct sch; run_monad; [discriminate|intros _; split; reflexivity].
  - intros ->. reflexivity.
  - intros f -> Hf. run_monad. rewrite Hf. reflexivity.
  - intros f c msg -> Hf ->. run_monad. rewrite Hf. reflexivity.
  - intros f c lr k n msg -> Hf -> Hn ->. run_monad. rewrite Hf. run_monad.
    rewrite Hn. reflexivity.
Qed.

(** X5. A successful resume.  With [AdamW] as optimizer, and [OneCycleLR] as
    scheduler when the bundle carries a scheduler state, [load_checkpoint]
    on a readable bundle completes: trainer state, parameter updates and
    optimizer step count are the bundle's; the schedule's tick count is the
    bundle's when it carries one and stays as it was otherwise; the gradients
    accumulated so far stay.  The configuration stored in the bundle is not
    read: configuration, loaders, rank and checkpoint store are as before.
    The trace gains the broadcast and then the log line.  With the tick
    count comes the total of the bundle's schedule, so the ticks left are
    counted against the total the bundle was saved under. *)
Theorem load_checkpoint_restores (r : Run) (f : string)
    (c : CheckpointState.t) :
  TrainingConfig.resume_checkpoint (config (self r)) = Some f ->
  read_file f (disk (proc r)) = Some c ->
  (exists lr k, optimizer (self r) = AdamW lr k) ->
  (CheckpointState.scheduler_state c <> None ->
   exists lr total k, scheduler (self r) = OneCycleLR lr total k) ->
  exists r',
    load_checkpoint r = (Ok tt, r') /\
    state (self r') = CheckpointState.trainer_state c /\
    updates (model (self r')) = CheckpointState.model_state c /\
    pending_grads (model (self r')) = pending_grads (model (self r)) /\
    optimizer_steps r' = CheckpointState.optimizer_state c /\
    scheduler_ticks r' =
      match CheckpointState.scheduler_state c with
      | Some s => saved_ticks s
      | None => scheduler_ticks r
      end /\
    config (self r') = config (self r) /\
    same_setting r r' /\
    disk (proc r') = disk (proc r) /\
    trace (proc r') =
      Logged (LogResumed (Some f)
                (TrainerState.epoch (CheckpointState.trainer_state c)))
        :: Broadcast (resume_broadcast (proc r) (CheckpointState.trainer_state c))
        :: trace (proc r) /\
    ticks_left r' =
      match CheckpointState.scheduler_state c with
      | Some s => Z.to_nat (saved_total s - Z.of_nat (saved_ticks s))
      | None => ticks_left r
      end.
Proof.
  expose r. unfold load_checkpoint, CheckpointState_load,
    optimizer_load_state_dict, scheduler_load_state_dict, resume_broadcast.
  run_monad.
  intros Hres Hf (lr & k & ->) Hsch. rewrite Hres. run_monad.
  rewrite Hf. run_monad.
  destruct (CheckpointState.scheduler_state c) as [n|]; run_monad.
  - destruct Hsch as (lr' & total & k' & ->); [discriminate|]. run_monad.
    eexists. split; [reflexivity|]. cbn. rewrite Hres.
    repeat split.
  - eexists. split; [reflexivity|]. cbn. rewrite Hres. repeat split.
Qed.

Lemma load_checkpoint_restores_witness :
  exists r',
    load_checkpoint
      {| self := Scenario.trainer Resume.resuming 1;
         proc := Resume.process 1 (Resume.bundle 3 30 (lit 1 2)) [3; 30] |}
      = (Ok tt, r') /\
    state (self r') =
      {| TrainerState.epoch := 3; TrainerState.global_step := 30;
         TrainerState.best_loss := lit 1 2 |} /\
    updates (model (self r')) = 30%nat /\
    optimizer_steps r' = 30%nat /\
    scheduler_ticks r' = 30%nat /\
    config (self r') = Resume.resuming /\
    trace (proc r') =
      [Logged (LogResumed (Some Resume.path) 3); Broadcast [3; 30]] /\
    ticks_left r' = 20%nat.
Proof.
  destruct (load_checkpoint_restores
              {| self := Scenario.trainer Resume.resuming 1;
                 proc := Resume.process 1 (Resume.bundle 3 30 (lit 1 2))
                           [3; 30] |}
              Resume.path (Resume.bundle 3 30 (lit 1 2)))
    as (r' & E & Hs & Hu & _ & Ho & Hsc & Hc & _ & _ & Ht & Hl).
  - reflexivity.
  - reflexivity.
  - do 2 eexists. reflexivity.
  - intros _. do 3 eexists. reflexivity.
  - exists r'. split; [exact E|]. rewrite Hs, Hu, Ho, Hsc, Hc, Ht, Hl.
    repeat split.
Defined.

(** ** A save that fails during validation *)

(** X6. [validate] moves [best_loss] before it saves.  On rank 0, when the
    mean validation loss improves on the best and the save cannot go through
    (the store is not writable, or the optimizer or scheduler is a factory's
    exception object), [validate] raises, leaves the store as it was, and
    the trainer already holds the new best loss, for which no best
    checkpoint exists. *)
Theorem failed_best_save_keeps_new_best (r : Run) :
  len (val_loader (self r)) <> O ->
  is_main (self r) = true ->
  flt (mean_validation_loss (val_loader (self r)) (epoch_of r)
         (world_size (proc r))) (best_loss_of r) = true ->
  operational r = false \/ writable (proc r) = false ->
  exists e r',
    validate r = (Raise e, r') /\
    best_loss_of r' =
      mean_validation_loss (val_loader (self r)) (epoch_of r)
        (world_size (proc r)) /\
    disk (proc r') = disk (proc r) /\
    epoch_of r' = epoch_of r /\
    global_step_of r' = global_step_of r.
Proof.
  intros Hlen Hmain Hlt Hbad. rewrite (validate_nonempty r Hlen).
  set (avg := mean_validation_loss _ _ _) in *.
  destruct (emit_all_rest
              (validation_reduces (val_loader (self r)) (epoch_of r)
                 (world_size (proc r)) (seq 0 (len (val_loader (self r)))))
              (proc r)) as (_ & _ & Hd & Hw & _).
  revert Hd Hw. generalize (emit_all
              (validation_reduces (val_loader (self r)) (epoch_of r)
                 (world_size (proc r)) (seq 0 (len (val_loader (self r)))))
              (proc r)).
  intros q Hd Hw. unfold judge. cbn [self proc].
  unfold best_loss_of at 1. cbn [self]. fold (best_loss_of r).
  rewrite Hmain, Hlt.
  unfold save_checkpoint, optimizer_state_dict, scheduler_state_dict.
  expose r. destruct q as [rk' ws' dk' wr' bsrc' tr']. run_monad.
  cbn [disk writable] in Hd, Hw. subst dk' wr'. subst main. cbn [negb].
  destruct Hbad as [Hop|Hwr].
  - destruct opt; [destruct sch; [discriminate|]|];
      run_monad; do 2 eexists; (split; [reflexivity|]); cbn; repeat split.
  - cbn in Hwr. subst wr.
    destruct opt; [destruct sch|];
      run_monad; do 2 eexists; (split; [reflexivity|]); cbn; repeat split.
Qed.

Lemma failed_best_save_keeps_new_best_witness :
  let r := {| self := Scenario.trainer (Scenario.run_config 1 2 1 1) 0;
              proc := {| rank := 0; world_size := 2; disk := [];
                         writable := false; broadcast_src := [];
                         trace := [] |} |} in
  exists e r',
    validate r = (Raise e, r') /\
    best_loss_of r' = lit 1 2 /\
    disk (proc r') = [] /\
    epoch_of r' = 0 /\
    global_step_of r' = 0.
Proof.
  intros r.
  destruct (failed_best_save_keeps_new_best r)
    as (e & r' & E & Hb & Hd & He & Hg).
  - discriminate.
  - reflexivity.
  - vm_compute. reflexivity.
  - right. reflexivity.
  - exists e, r'. split; [exact E|]. rewrite Hb, Hd, He, Hg.
    repeat split.
Defined.

(** ** The constructor *)

(** X7. The outcomes of the constructor when nothing is resumed, the model
    and the data sets being ones that can be built.  It raises [ValueError]
    when the optimizer kind is "AdamW" and the learning rate is not at least
    [0.0], and, the optimizer being built, when the batch size or the number
    of workers is not positive.  Past these, with a scheduler kind other
    than "OneCycleLR" it returns a trainer, whatever the window and the
    epochs are.  With "OneCycleLR" it fails on a zero accumulation window
    ([ZeroDivisionError]), on an optimizer kind other than "AdamW"
    ([TypeError]: the scheduler is handed the exception object) and on a step
    total [epochs * (len(train_loader) // grad_accum_steps)] that is not
    positive ([ValueError]); a positive number of epochs with a negative
    window, or with a window larger than the number of batches, is such a
    case.  Otherwise it returns the trainer at epoch 0, step 0 and best loss
    +infinity, with a schedule of exactly that total, and is the coordinating
    one exactly on rank 0.  The process is untouched in every case. *)
Theorem constructor_outcomes (cfg : TrainingConfig.t) (m : Model)
    (tl vl : DataLoader) (p : Process) :
  TrainingConfig.resume_checkpoint cfg = None ->
  let W := TrainingConfig.grad_accum_steps cfg in
  let total := TrainingConfig.epochs cfg * (Z.of_nat (len tl) / W) in
  (TrainingConfig.optimizer cfg = "AdamW" ->
   SFleb zero (TrainingConfig.learning_rate cfg) = false ->
   __init__ cfg m tl vl p = (Raise ValueError, p)) /\
  ((TrainingConfig.optimizer cfg = "AdamW" ->
    SFleb zero (TrainingConfig.learning_rate cfg) = true) ->
   TrainingConfig.batch_size cfg <= 0 \/ TrainingConfig.num_workers cfg <= 0 ->
   __init__ cfg m tl vl p = (Raise ValueError, p)) /\
  (buildable cfg = true ->
   TrainingConfig.lr_scheduler cfg <> "OneCycleLR" ->
   exists t,
     __init__ cfg m tl vl p = (Ok t, p) /\
     state t = TrainerState.default /\
     config t = cfg /\
     train_loader t = tl /\
     val_loader t = vl /\
     optimizer t =
       (if String.eqb (TrainingConfig.optimizer cfg) "AdamW"
        then AdamW (TrainingConfig.learning_rate cfg) 0
        else OptimizerNotImplementedError
               ("Optimizer: " ++ TrainingConfig.optimizer cfg
                  ++ " not implemented!")) /\
     scheduler t =
       SchedulerNotImplementedError
         ("lr_scheduler:" ++ TrainingConfig.lr_scheduler cfg
            ++ " not implemented!")) /\
  (buildable cfg = true ->
   TrainingConfig.lr_scheduler cfg = "OneCycleLR" ->
   W = 0 ->
   __init__ cfg m tl vl p = (Raise ZeroDivisionError, p)) /\
  (buildable cfg = true ->
   TrainingConfig.lr_scheduler cfg = "OneCycleLR" ->
   W <> 0 ->
   TrainingConfig.optimizer cfg <> "AdamW" ->
   __init__ cfg m tl vl p = (Raise TypeError, p)) /\
  (buildable cfg = true ->
   TrainingConfig.lr_scheduler cfg = "OneCycleLR" ->
   W <> 0 ->
   TrainingConfig.optimizer cfg = "AdamW" ->
   total <= 0 ->
   __init__ cfg m tl vl p = (Raise ValueError, p)) /\
  (0 < TrainingConfig.epochs cfg ->
   W < 0 \/ Z.of_nat (len tl) < W ->
   total <= 0) /\
  (buildable cfg = true ->
   TrainingConfig.lr_scheduler cfg = "OneCycleLR" ->
   TrainingConfig.optimizer cfg = "AdamW" ->
   W <> 0 ->
   0 < total ->
   __init__ cfg m tl vl p =
     (Ok {| config := cfg;
            is_main := Nat.eqb (rank p) 0;
            model := m;
            optimizer := AdamW (TrainingConfig.learning_rate cfg) 0;
            train_loader := tl;
            val_loader := vl;
            scheduler :=
              OneCycleLR (TrainingConfig.learning_rate cfg) total 0;
            state := TrainerState.default |}, p)).
Proof.
  intros Hres W total.
  split; [|split; [|split; [|split; [|split; [|split; [|split]]]]]].
  - intros Ho Hlr. unfold __init__, _create_optimizer, AdamW_new.
    rewrite Ho. cbn [String.eqb Ascii.eqb Bool.eqb]. rewrite Hlr. reflexivity.
  - intros Hlr Hbad. unfold __init__, _create_optimizer, AdamW_new.
    assert (Hopt : exists o,
               (if String.eqb (TrainingConfig.optimizer cfg) "AdamW"
                then if SFleb zero (TrainingConfig.learning_rate cfg)
                     then Ok (AdamW (TrainingConfig.learning_rate cfg) 0)
                     else Raise ValueError
                else Ok (OptimizerNotImplementedError
                           ("Optimizer: " ++ TrainingConfig.optimizer cfg
                              ++ " not implemented!"))) = Ok o).
    { destruct (String.eqb_spec (TrainingConfig.optimizer cfg) "AdamW")
        as [Ho|_]; [rewrite (Hlr Ho)|]; eexists; reflexivity. }
    destruct Hopt as (o & ->).
    unfold _create_dataloaders, DataLoader_new. cbn [andb].
    destruct (Z.ltb_spec (TrainingConfig.num_workers cfg) 0); [reflexivity|].
    destruct (Z.eqb_spec (TrainingConfig.num_workers cfg) 0); [reflexivity|].
    destruct (Z.leb_spec (TrainingConfig.batch_size cfg) 0); [reflexivity|].
    lia.
  - intros Hb Hk. unfold __init__.
    rewrite (buildable_optimizer cfg Hb), (buildable_dataloaders cfg tl vl Hb).
    unfold _create_scheduler. rewrite Hres.
    destruct (String.eqb_spec (TrainingConfig.lr_scheduler cfg) "OneCycleLR")
      as [|_]; [contradiction|].
    eexists. split; [reflexivity|]. repeat split.
  - intros Hb Hs HW. unfold __init__.
    rewrite (buildable_optimizer cfg Hb), (buildable_dataloaders cfg tl vl Hb).
    unfold _create_scheduler, floordiv. rewrite Hs. fold W. rewrite HW.
    reflexivity.
  - intros Hb Hs HW Ho. unfold __init__.
    rewrite (buildable_optimizer cfg Hb), (buildable_dataloaders cfg tl vl Hb).
    unfold _create_scheduler, floordiv, OneCycleLR_new. rewrite Hs. fold W.
    cbn [String.eqb Ascii.eqb Bool.eqb].
    destruct (Z.eqb_spec W 0) as [|_]; [contradiction|].
    destruct (String.eqb_spec (TrainingConfig.optimizer cfg) "AdamW")
      as [|_]; [contradiction|].
    reflexivity.
  - intros Hb Hs HW Ho Ht. unfold __init__.
    rewrite (buildable_optimizer cfg Hb), (buildable_dataloaders cfg tl vl Hb).
    unfold _create_scheduler, floordiv, OneCycleLR_new. rewrite Hs, Ho. fold W.
    cbn [String.eqb Ascii.eqb Bool.eqb].
    destruct (Z.eqb_spec W 0) as [|_]; [contradiction|].
    unfold total in Ht.
    destruct (Z.leb_spec (TrainingConfig.epochs cfg * (Z.of_nat (len tl) / W)) 0)
      as [_|]; [reflexivity|lia].
  - intros Hep [Hneg|Hshort]; subst total.
    + assert (Z.of_nat (len tl) / W <= 0).
      { pose proof (Z.div_mod (Z.of_nat (len tl)) W ltac:(lia)) as D.
        pose proof (Z.mod_neg_bound (Z.of_nat (len tl)) W Hneg) as B.
        nia. }
      nia.
    + rewrite Z.div_small by lia. lia.
  - intros Hb Hs Ho HW Ht.
    rewrite (constructor_working cfg m tl vl p Hb Ho Hs HW Ht), Hres.
    reflexivity.
Qed.

Lemma constructor_outcomes_witness :
  __init__ TrainingConfig.default TTSTransformer Scenario.four_batches
    Scenario.one_validation_batch (Scenario.process 0) =
    (Ok {| config := TrainingConfig.default;
           is_main := true;
           model := TTSTransformer;
           optimizer := AdamW (lit 3 10000) 0;
           train_loader := Scenario.four_batches;
           val_loader := Scenario.one_validation_batch;
           scheduler := OneCycleLR (lit 3 10000) 400 0;
           state := TrainerState.default |}, Scenario.process 0).
Proof.
  apply (proj2 (proj2 (proj2 (proj2 (proj2 (proj2 (proj2
           (constructor_outcomes TrainingConfig.default TTSTransformer
              Scenario.four_batches Scenario.one_validation_batch
              (Scenario.process 0) eq_refl))))))));
    [vm_compute; reflexivity|reflexivity|reflexivity|discriminate
    |reflexivity].
Defined.

(** ** Tearing the group down *)

Lemma quiet_refl r : quiet r r.
Proof. reflexivity. Qed.

Lemma quiet_trans r1 r2 r3 : quiet r1 r2 -> quiet r2 r3 -> quiet r1 r3.
Proof. unfold quiet. congruence. Qed.

(** Straight-line code: run it on every path. *)
Ltac run_paths :=
  run_monad; repeat (split_match; run_monad; cbn); reflexivity.

Lemma train_batch_quiet e i l r : quiet r (snd (train_batch e i l r)).
Proof.
  expose r. unfold quiet, teardowns, train_batch, mod_, truediv,
    optimizer_step, optimizer_zero_grad, scheduler_step.
  run_paths.
Qed.

Lemma train_epoch_quiet r : quiet r (snd (train_epoch r)).
Proof.
  unfold train_epoch. run_monad.
  pose proof (for_each_frame quiet quiet_refl quiet_trans
                (train_batch (TrainerState.epoch (state (self r))))
                (train_batch_quiet (TrainerState.epoch (state (self r))))
                (seq 0 (len (train_loader (self r))))
                {| total_loss := fun _ => zero; accum_steps := 0 |} r) as F.
  destruct (for_each _ _ _ r) as [[l'|e] r']; exact F.
Qed.

Lemma save_checkpoint_quiet best r : quiet r (snd (save_checkpoint best r)).
Proof.
  expose r. unfold quiet, teardowns, save_checkpoint, optimizer_state_dict,
    scheduler_state_dict.
  run_paths.
Qed.

Lemma validate_batch_quiet e w i acc r :
  quiet r (snd (validate_batch e w i acc r)).
Proof.
  expose r. unfold quiet, teardowns, validate_batch, truediv. run_paths.
Qed.

Lemma validate_quiet r : quiet r (snd (validate r)).
Proof.
  revert r. unfold validate.
  apply (bind_frame quiet quiet_trans); [exact quiet_refl|intros t].
  destruct (Nat.eqb _ 0); [exact quiet_refl|].
  apply (bind_frame quiet quiet_trans); [exact quiet_refl|intros p].
  apply (bind_frame quiet quiet_trans).
  - apply (for_each_frame quiet quiet_refl quiet_trans).
    intros i acc r. apply validate_batch_quiet.
  - intros total.
    apply (bind_frame quiet quiet_trans);
      [apply lift_frame, quiet_refl|intros avg].
    destruct (is_main t); [|exact quiet_refl].
    apply (bind_frame quiet quiet_trans); [intros r; reflexivity|intros _].
    destruct (flt _ _); [|exact quiet_refl].
    apply (bind_frame quiet quiet_trans); [intros r; reflexivity|intros _].
    exact (save_checkpoint_quiet true).
Qed.

Lemma train_loop_quiet cfg r : quiet r (snd (train_loop cfg r)).
Proof.
  revert r. unfold train_loop, for_range.
  apply (bind_frame quiet quiet_trans); [exact quiet_refl|intros t].
  apply (for_count_frame quiet quiet_refl quiet_trans). intros i.
  unfold train_iteration.
  apply (bind_frame quiet quiet_trans); [exact train_epoch_quiet|intros _].
  apply (bind_frame quiet quiet_trans);
    [apply lift_frame, quiet_refl|intros due].
  apply (bind_frame quiet quiet_trans).
  - destruct (due =? 0); [exact validate_quiet|exact quiet_refl].
  - intros _.
    apply (bind_frame quiet quiet_trans);
      [apply lift_frame, quiet_refl|intros due'].
    destruct (due' =? 0);
      [exact (save_checkpoint_quiet false)|exact quiet_refl].
Qed.

Lemma load_checkpoint_quiet r : quiet r (snd (load_checkpoint r)).
Proof.
  expose r. unfold quiet, teardowns, load_checkpoint, CheckpointState_load,
    optimizer_load_state_dict, scheduler_load_state_dict.
  run_paths.
Qed.

Lemma constructor_quiet cfg m tl vl p :
  teardowns (snd (__init__ cfg m tl vl p)) = teardowns p.
Proof.
  unfold __init__.
  destruct (_create_optimizer cfg) as [o|e]; [|reflexivity].
  destruct (_create_dataloaders cfg tl vl) as [[tl' vl']|e]; [|reflexivity].
  destruct (_create_scheduler cfg o tl') as [s|e]; [|reflexivity].
  destruct (TrainingConfig.resume_checkpoint cfg); [|reflexivity].
  match goal with
  | |- context [load_checkpoint ?x] =>
      pose proof (load_checkpoint_quiet x) as Q;
        destruct (load_checkpoint x) as [[u|e] r1]
  end; exact Q.
Qed.

(** X8. [train] destroys the process group exactly when it returns
    normally: a completed run adds one teardown, its last action, and a run
    that an exception ends, in the constructor or in any epoch, adds none. *)
Theorem teardown_only_on_completion (cfg : TrainingConfig.t)
    (tl vl : DataLoader) (p : Process) :
  teardowns (snd (train cfg tl vl p)) =
    (teardowns p
     + match fst (fst (train cfg tl vl p)) with
       | Ok _ => 1
       | Raise _ => 0
       end)%nat /\
  (fst (fst (train cfg tl vl p)) = Ok tt ->
   hd_error (trace (snd (train cfg tl vl p))) = Some DestroyProcessGroup).
Proof.
  unfold train.
  pose proof (constructor_quiet cfg TTSTransformer tl vl p) as Q0.
  destruct (__init__ cfg TTSTransformer tl vl p) as [[t|e] p0];
    cbn [fst snd] in *.
  - unfold bind.
    pose proof (train_loop_quiet cfg {| self := t; proc := p0 |}) as Q1.
    destruct (train_loop cfg {| self := t; proc := p0 |}) as [[u|e] r1];
      unfold quiet in Q1; cbn [fst snd proc] in *.
    + unfold destroy_process_group, modify_proc, emit, teardowns in *.
      cbn. split; [lia|reflexivity].
    + split; [lia|discriminate].
  - split; [lia|discriminate].
Qed.

(** ** The length of the schedule *)

Lemma train_batch_exhausted e i l r :
  operational r = true ->
  TrainingConfig.grad_accum_steps (config (self r)) <> 0 ->
  window_closes (TrainingConfig.grad_accum_steps (config (self r))) i = true ->
  ticks_left r = O ->
  exists r', train_batch e i l r = (Raise ValueError, r').
Proof.
  expose r. unfold train_batch, mod_, window_closes, scheduler_step.
  run_monad. intros Hop HW Hclose Hleft.
  destruct opt; try discriminate. destruct sch; try discriminate.
  destruct (Z.eqb_spec (TrainingConfig.grad_accum_steps cfg) 0) as [|_];
    [contradiction|].
  run_monad. rewrite Hclose.
  destruct main; run_monad;
    rewrite ?(truediv_nonzero _ _ (window_divisor_nonzero _ _));
    cbn [fst snd]; run_monad;
    (destruct (Z.ltb_spec total_steps (Z.of_nat (S ticks))) as [_|Hge];
       [|lia]);
    eexists; reflexivity.
Qed.

Lemma train_epoch_exhausted r :
  operational r = true ->
  0 < TrainingConfig.grad_accum_steps (config (self r)) ->
  TrainingConfig.grad_accum_steps (config (self r))
    <= Z.of_nat (len (train_loader (self r))) ->
  ticks_left r = O ->
  fst (train_epoch r) = Raise ValueError.
Proof.
  intros Hop HW Hlen Hleft.
  set (W := TrainingConfig.grad_accum_steps (config (self r))) in *.
  set (e := TrainerState.epoch (state (self r))).
  set (l0 := {| total_loss := fun _ => zero; accum_steps := 0 |}).
  assert (Hseq : seq 0 (len (train_loader (self r))) =
                 (seq 0 (Z.to_nat W - 1)
                    ++ [(Z.to_nat W - 1)%nat]
                    ++ seq (Z.to_nat W)
                         (len (train_loader (self r)) - Z.to_nat W))%list).
  { replace (len (train_loader (self r)))
      with ((Z.to_nat W - 1) + (1 + (len (train_loader (self r)) - Z.to_nat W)))%nat
      at 1 by lia.
    rewrite seq_app, seq_app. cbn [seq]. do 3 f_equal. lia. }
  assert (Hnone : windows_closed W (seq 0 (Z.to_nat W - 1)) = O).
  { apply Nat2Z.inj. rewrite (windows_closed_seq W _ HW).
    rewrite Z.div_small by lia. reflexivity. }
  destruct (train_batches_open e (seq 0 (Z.to_nat W - 1)) l0 r
              ltac:(fold W; lia) Hnone)
    as (l1 & r1 & E1 & Hs & Ho & Hsc & _ & _ & _).
  pose proof (for_each_frame training_frame training_frame_refl
                training_frame_trans (train_batch e) (train_batch_frame e)
                (seq 0 (Z.to_nat W - 1)) l0 r) as F.
  rewrite E1 in F. cbn [snd] in F. destruct F as (S1 & _).
  destruct (train_batch_exhausted e (Z.to_nat W - 1) l1 r1)
    as (r2 & E2).
  - unfold operational in *. rewrite Ho, Hsc. exact Hop.
  - rewrite (keep_config _ _ S1). fold W. lia.
  - rewrite (keep_config _ _ S1). fold W. unfold window_closes.
    replace (Z.of_nat (Z.to_nat W - 1) + 1) with W by lia.
    rewrite Z.mod_same by lia. reflexivity.
  - unfold ticks_left in *. rewrite Hsc. exact Hleft.
  - unfold train_epoch. unfold bind at 1. unfold get_self at 1.
    fold e. fold l0. rewrite Hseq.
    unfold bind at 1. rewrite for_each_app. unfold bind at 1. rewrite E1.
    cbn [app for_each]. unfold bind at 1. rewrite E2. reflexivity.
Qed.

(** X9. The schedule fits the run.  A run from scratch with the supported
    kinds, a configuration optimizer and loaders can be built from, a window
    of at least one and at most the number of batches, at least one epoch,
    non-zero cadences and a writable store on rank 0 completes.  The epoch
    loop ends at [epoch = epochs] and
    [global_step = epochs * (len(train_loader) // grad_accum_steps)], with as
    many optimizer steps, parameter updates and schedule ticks, and that is
    the total the constructor built the scheduler with: no tick is left, and
    one more call of [train_epoch] at the end of the loop, before the group
    is torn down, would be refused by the scheduler.  [train] then tears the
    group down and returns. *)
Theorem schedule_fits_the_run (cfg : TrainingConfig.t) (tl vl : DataLoader)
    (p : Process) :
  buildable cfg = true ->
  TrainingConfig.resume_checkpoint cfg = None ->
  TrainingConfig.optimizer cfg = "AdamW" ->
  TrainingConfig.lr_scheduler cfg = "OneCycleLR" ->
  0 < TrainingConfig.grad_accum_steps cfg ->
  TrainingConfig.grad_accum_steps cfg <= Z.of_nat (len tl) ->
  0 < TrainingConfig.epochs cfg ->
  TrainingConfig.validation_freq cfg <> 0 ->
  TrainingConfig.checkpoint_freq cfg <> 0 ->
  (rank p = O -> writable p = true) ->
  exists t r',
    __init__ cfg TTSTransformer tl vl p = (Ok t, p) /\
    Z.of_nat (ticks_left {| self := t; proc := p |}) =
      TrainingConfig.epochs cfg
        * (Z.of_nat (len tl) / TrainingConfig.grad_accum_steps cfg) /\
    train_loop cfg {| self := t; proc := p |} = (Ok tt, r') /\
    train cfg tl vl p =
      (Ok tt, Some (self r'), emit DestroyProcessGroup (proc r')) /\
    epoch_of r' = TrainingConfig.epochs cfg /\
    global_step_of r' =
      TrainingConfig.epochs cfg
        * (Z.of_nat (len tl) / TrainingConfig.grad_accum_steps cfg) /\
    Z.of_nat (optimizer_steps r') = global_step_of r' /\
    Z.of_nat (updates (model (self r'))) = global_step_of r' /\
    Z.of_nat (scheduler_ticks r') = global_step_of r' /\
    ticks_left r' = O /\
    fst (train_epoch r') = Raise ValueError.
Proof.
  intros Hb Hres Hopt Hsch HW Hlen Hep Hvf Hcf Hwr.
  destruct (train_from_scratch cfg tl vl p Hb Hres Hopt Hsch HW Hvf Hcf Hwr
              Hep Hlen)
    as (t & r' & Hinit & _ & Hloop & Htrain & Hr' & Htl & He & Hg & Ho & Hu
        & Hs & Ht).
  assert (Hwin : 0 < Z.of_nat (len tl) / TrainingConfig.grad_accum_steps cfg)
    by (apply Z.div_str_pos; lia).
  exists t, r'. split; [exact Hinit|]. split.
  { rewrite (constructor_working cfg TTSTransformer tl vl p Hb Hopt Hsch
               ltac:(lia) ltac:(nia)), Hres in Hinit.
    injection Hinit as <-. unfold ticks_left. cbn [self scheduler]. nia. }
  repeat (split; [assumption|]).
  apply train_epoch_exhausted.
  - exact (ready_operational _ _ Hr').
  - rewrite (ready_config _ _ Hr'). exact HW.
  - rewrite (ready_config _ _ Hr'), Htl. exact Hlen.
  - exact Ht.
Qed.

Lemma schedule_fits_the_run_witness :
  exists t r',
    __init__ TrainingConfig.default TTSTransformer Scenario.four_batches
      Scenario.one_validation_batch (Scenario.process 0) =
      (Ok t, Scenario.process 0) /\
    Z.of_nat (ticks_left {| self := t; proc := Scenario.process 0 |}) = 400 /\
    train_loop TrainingConfig.default
      {| self := t; proc := Scenario.process 0 |} = (Ok tt, r') /\
    epoch_of r' = 100 /\
    global_step_of r' = 400 /\
    ticks_left r' = O /\
    fst (train_epoch r') = Raise ValueError.
Proof.
  destruct (schedule_fits_the_run TrainingConfig.default Scenario.four_batches
              Scenario.one_validation_batch (Scenario.process 0))
    as (t & r' & Hinit & Hl & Hloop & _ & He & Hg & _ & _ & _ & Ht & Hx);
    [vm_compute; reflexivity|reflexivity|reflexivity|reflexivity|reflexivity
    |discriminate|reflexivity|discriminate|discriminate|reflexivity|].
  exists t, r'. split; [exact Hinit|]. split; [exact Hl|].
  split; [exact Hloop|]. rewrite He, Hg.
  repeat split; assumption.
Defined.

(** ** The best checkpoint follows the best loss *)

Lemma best_file_tracks_refl r : best_file_tracks r r.
Proof. split; [apply same_setting_refl|]. left. split; reflexivity. Qed.

Lemma best_file_tracks_trans r1 r2 r3 :
  best_file_tracks r1 r2 -> best_file_tracks r2 r3 -> best_file_tracks r1 r3.
Proof.
  intros (S1 & T1) (S2 & T2).
  split; [eapply same_setting_trans; eassumption|].
  destruct T2 as [(Hb2 & Hf2)|(c & Hf2 & Hc2 & Hlt2)].
  - destruct T1 as [(Hb1 & Hf1)|(c & Hf1 & Hc1 & Hlt1)].
    + left. split; congruence.
    + right. exists c. rewrite Hb2, Hf2. repeat split; assumption.
  - right. exists c. split; [assumption|]. split; [assumption|].
    destruct T1 as [(Hb1 & _)|(_ & _ & _ & Hlt1)].
    + rewrite <- Hb1. assumption.
    + eapply flt_trans; eassumption.
Qed.

Section OnSuccess.

Variable R : Run -> Run -> Prop.
Hypothesis R_refl : forall r, R r r.
Hypothesis R_trans : forall r1 r2 r3, R r1 r2 -> R r2 r3 -> R r1 r3.

Lemma bind_success {A B} (m : M A) (k : A -> M B) :
  (forall r a r', m r = (Ok a, r') -> R r r') ->
  (forall a r b r', k a r = (Ok b, r') -> R r r') ->
  forall r b r', bind m k r = (Ok b, r') -> R r r'.
Proof.
  intros Hm Hk r b r'. unfold bind.
  destruct (m r) as [[a|e] r1] eqn:E; [|discriminate].
  intros H. eapply R_trans; [eapply Hm, E|eapply Hk, H].
Qed.

Lemma lift_success {A} (x : result A) :
  forall r a r', lift x r = (Ok a, r') -> R r r'.
Proof. unfold lift. intros r a r' [= _ <-]. apply R_refl. Qed.

Lemma ret_success {A} (x : A) :
  forall r a r', ret x r = (Ok a, r') -> R r r'.
Proof. unfold ret. intros r a r' [= _ <-]. apply R_refl. Qed.

Lemma for_count_success (body : Z -> M unit) :
  (forall i r u r', body i r = (Ok u, r') -> R r r') ->
  forall n i r u r', for_count n i body r = (Ok u, r') -> R r r'.
Proof.
  intros Hbody. induction n as [|n IH]; intros i r u r'; cbn [for_count].
  - apply ret_success.
  - apply bind_success; [apply Hbody|]. intros _. apply IH.
Qed.

End OnSuccess.

Lemma train_epoch_tracks r u r' :
  train_epoch r = (Ok u, r') -> best_file_tracks r r'.
Proof.
  intros E. destruct (train_epoch_general r) as (S1 & Hb & Hd & _).
  rewrite E in *. cbn [snd] in *.
  split; [exact S1|]. left. split; [exact Hb|].
  unfold best_file. rewrite Hd, (keep_config _ _ S1). reflexivity.
Qed.

Lemma save_checkpoint_tracks r u r' :
  save_checkpoint false r = (Ok u, r') -> best_file_tracks r r'.
Proof.
  intros E.
  destruct (save_checkpoint_general false r) as (Hs & S1 & Hd).
  rewrite E in *. cbn [fst snd] in *.
  split; [exact S1|]. left.
  unfold best_loss_of, best_file. rewrite Hs. split; [reflexivity|].
  destruct Hd as [->|(_ & _ & ->)]; [reflexivity|].
  cbn [read_file]. unfold checkpoint_path.
  rewrite periodic_name_not_best. reflexivity.
Qed.

Lemma judge_tracks avg r u r' :
  judge avg r = (Ok u, r') -> best_file_tracks r r'.
Proof.
  intros E. pose proof (judge_general avg r) as (S1 & _).
  rewrite E in S1. cbn [snd] in S1. split; [exact S1|]. revert E.
  clear S1. expose r. unfold judge, save_checkpoint, optimizer_state_dict,
    scheduler_state_dict, best_file.
  run_monad.
  destruct main; [|intros [= _ <-]; left; split; reflexivity].
  destruct (flt avg (TrainerState.best_loss st)) eqn:Hlt;
    [|intros [= _ <-]; left; split; reflexivity].
  cbn [negb]. run_monad.
  destruct opt; run_monad; [|discriminate].
  destruct sch; run_monad; [|discriminate].
  destruct wr; run_monad; [|discriminate].
  intros [= _ <-]. right. cbn. rewrite String.eqb_refl.
  eexists. split; [reflexivity|]. split; [reflexivity|exact Hlt].
Qed.

Lemma validate_tracks r u r' :
  validate r = (Ok u, r') -> best_file_tracks r r'.
Proof.
  destruct (Nat.eq_dec (len (val_loader (self r))) 0) as [Hlen|Hlen].
  - rewrite (validate_empty r Hlen). intros [= _ <-].
    apply best_file_tracks_refl.
  - rewrite (validate_nonempty r Hlen). intros E.
    apply judge_tracks in E.
    eapply best_file_tracks_trans; [|exact E].
    destruct (emit_all_rest
                (validation_reduces (val_loader (self r)) (epoch_of r)
                   (world_size (proc r)) (seq 0 (len (val_loader (self r)))))
                (proc r)) as (H1 & H2 & H3 & H4 & H5).
    split; [constructor; cbn [self proc]; auto|].
    left. unfold best_file. cbn [self proc]. rewrite H3. split; reflexivity.
Qed.

Lemma train_loop_tracks cfg r u r' :
  train_loop cfg r = (Ok u, r') -> best_file_tracks r r'.
Proof.
  revert r u r'. unfold train_loop, for_range.
  apply (bind_success best_file_tracks best_file_tracks_trans).
  - unfold get_self. intros r a r' [= _ <-]. apply best_file_tracks_refl.
  - intros t.
    apply (for_count_success best_file_tracks best_file_tracks_refl
             best_file_tracks_trans).
    intros i. unfold train_iteration.
    apply (bind_success best_file_tracks best_file_tracks_trans);
      [exact train_epoch_tracks|intros _].
    apply (bind_success best_file_tracks best_file_tracks_trans);
      [apply lift_success, best_file_tracks_refl|intros due].
    apply (bind_success best_file_tracks best_file_tracks_trans).
    + destruct (due =? 0);
        [exact validate_tracks
        |apply ret_success, best_file_tracks_refl].
    + intros _.
      apply (bind_success best_file_tracks best_file_tracks_trans);
        [apply lift_success, best_file_tracks_refl|intros due'].
      destruct (due' =? 0);
        [exact save_checkpoint_tracks
        |apply ret_success, best_file_tracks_refl].
Qed.

Lemma flt_irrefl x : flt x x = false.
Proof.
  unfold flt, SFltb, SFcompare.
  destruct x as [[]|[]| |[] m e]; try reflexivity.
  all: rewrite Z.compare_refl, Pos.compare_cont_refl; reflexivity.
Qed.

(** X10. The best checkpoint follows the best loss.  Over any stretch of the
    epoch loop that completes, either the trainer's best loss and the file
    under the best name are what they were, or the best loss fell and the
    newest file under the best name records exactly the trainer's best loss.
    The loop does complete on a working trainer with non-zero window and
    cadences, a writable store on rank 0 and schedule ticks left; and when it
    started without a best file, a best file exists afterwards exactly when
    the best loss changed. *)
Theorem best_checkpoint_follows_best_loss (cfg : TrainingConfig.t) (r : Run) :
  ready cfg r ->
  (Z.to_nat (TrainingConfig.epochs cfg - epoch_of r) * steps_per_epoch r
   <= ticks_left r)%nat ->
  exists r',
    train_loop cfg r = (Ok tt, r') /\
    best_file_tracks r r' /\
    (best_file r = None ->
     (best_file r' = None <-> best_loss_of r' = best_loss_of r) /\
     forall c,
       best_file r' = Some c ->
       TrainerState.best_loss (CheckpointState.trainer_state c)
         = best_loss_of r').
Proof.
  intros Hr Hleft.
  destruct (train_loop_ok cfg r Hr Hleft) as (r' & E & _).
  exists r'. split; [exact E|].
  pose proof (train_loop_tracks cfg r tt r' E) as T.
  split; [exact T|]. intros Hnone.
  destruct T as (_ & [(Hb & Hf)|(c & Hf & Hc & Hlt)]).
  - rewrite Hf, Hnone. split; [tauto|discriminate].
  - rewrite Hf. split.
    + split; [discriminate|]. intros Heq. rewrite Heq, flt_irrefl in Hlt.
      discriminate.
    + intros c' [= <-]. exact Hc.
Qed.

Lemma best_checkpoint_follows_best_loss_witness :
  exists r',
    train_loop (Scenario.run_config 2 2 1 1)
      (Scenario.run (Scenario.run_config 2 2 1 1) 0) = (Ok tt, r') /\
    best_loss_of r' = lit 1 2 /\
    option_map
      (fun c => TrainerState.best_loss (CheckpointState.trainer_state c))
      (best_file r') = Some (lit 1 2).
Proof.
  destruct (best_checkpoint_follows_best_loss (Scenario.run_config 2 2 1 1)
              (Scenario.run (Scenario.run_config 2 2 1 1) 0))
    as (r' & E & _ & H).
  - constructor; try reflexivity; discriminate.
  - vm_compute. lia.
  - exists r'. split; [exact E|].
    assert (Hb : best_loss_of r' = lit 1 2).
    { change r' with (snd (Ok tt, r')). rewrite <- E. vm_compute. reflexivity. }
    split; [exact Hb|].
    destruct (H eq_refl) as (Hiff & Hrec).
    destruct (best_file r') as [c|] eqn:Hf.
    + cbn. rewrite (Hrec c eq_refl). f_equal. exact Hb.
    + exfalso. destruct Hiff as (Hnone & _).
      specialize (Hnone eq_refl). rewrite Hb in Hnone. vm_compute in Hnone.
      discriminate.
Defined.

(** ** The trace of a training epoch *)

Lemma train_batch_open_locals e i l r :
  TrainingConfig.grad_accum_steps (config (self r)) <> 0 ->
  window_closes (TrainingConfig.grad_accum_steps (config (self r))) i = false ->
  train_batch e i l r =
    (Ok {| total_loss :=
             fun k => fadd (total_loss l k) (loss (train_loader (self r)) e i k);
           accum_steps := S (accum_steps l) |},
     {| self := set_model (backward (model (self r))) (self r);
        proc := proc r |}).
Proof.
  expose r. unfold train_batch, mod_, window_closes. run_monad.
  intros HW Hopen.
  destruct (Z.eqb_spec (TrainingConfig.grad_accum_steps cfg) 0) as [|_];
    [contradiction|].
  run_monad. rewrite Hopen. reflexivity.
Qed.

Lemma train_batches_open_locals e idxs : forall l r,
  TrainingConfig.grad_accum_steps (config (self r)) <> 0 ->
  windows_closed (TrainingConfig.grad_accum_steps (config (self r))) idxs = O ->
  exists l' r',
    for_each idxs (train_batch e) l r = (Ok l', r') /\
    accum_steps l' = (accum_steps l + List.length idxs)%nat /\
    (forall k,
        total_loss l' k =
        fold_left fadd (map (fun i => loss (train_loader (self r)) e i k) idxs)
          (total_loss l k)).
Proof.
  induction idxs as [|i idxs IH]; intros l r HW Hnone; cbn [for_each].
  - exists l, r. split; [reflexivity|]. split; [cbn; lia|reflexivity].
  - rewrite windows_closed_cons in Hnone.
    destruct (window_closes _ i) eqn:Hopen; [discriminate|].
    unfold bind. rewrite (train_batch_open_locals e i l r HW Hopen).
    destruct (IH {| total_loss :=
                      fun k => fadd (total_loss l k)
                                 (loss (train_loader (self r)) e i k);
                    accum_steps := S (accum_steps l) |}
                 {| self := set_model (backward (model (self r))) (self r);
                    proc := proc r |})
      as (l2 & r2 & E2 & Ha & Ht).
    + destruct r as [[] ?]. exact HW.
    + destruct r as [[] ?]. exact Hnone.
    + exists l2, r2. rewrite E2. split; [reflexivity|].
      split; [cbn in *; lia|].
      intros k. rewrite Ht. destruct r as [[] ?]. reflexivity.
Qed.

Lemma train_batch_close e i l r :
  operational r = true ->
  TrainingConfig.grad_accum_steps (config (self r)) <> 0 ->
  window_closes (TrainingConfig.grad_accum_steps (config (self r))) i = true ->
  (1 <= ticks_left r)%nat ->
  exists r',
    train_batch e i l r =
      (Ok {| total_loss := fun _ => zero; accum_steps := 0 |}, r') /\
    trace (proc r') =
      ((if is_main (self r)
        then [Logged
                (LogTrain (epoch_of r) (global_step_of r)
                   (fdiv
                      (Tensor.item
                         (collective_sum (world_size (proc r))
                            (fun k => fadd (total_loss l k)
                                        (loss (train_loader (self r)) e i k))))
                      (float_of_int
                         (Z.of_nat (S (accum_steps l))
                            * Zpos (world_size (proc r))))))]
        else [])
         ++ AllReduce
              (collective_sum (world_size (proc r))
                 (fun k => fadd (total_loss l k)
                             (loss (train_loader (self r)) e i k)))
         :: trace (proc r))%list.
Proof.
  expose r. unfold train_batch, mod_, window_closes, scheduler_step,
    collective_sum, ranks.
  run_monad. intros Hop HW Hclose Hleft.
  destruct opt; try discriminate. destruct sch; try discriminate.
  destruct (Z.eqb_spec (TrainingConfig.grad_accum_steps cfg) 0) as [|_];
    [contradiction|].
  run_monad. rewrite Hclose.
  destruct main; run_monad;
    rewrite ?(truediv_nonzero _ _ (window_divisor_nonzero _ _));
    cbn [fst snd]; run_monad;
    (destruct (Z.ltb_spec total_steps (Z.of_nat (S ticks))) as [Hlt|_];
       [lia|]);
    eexists; (split; [reflexivity|]); reflexivity.
Qed.

Lemma window_interior_open (W : Z) (j n : nat) :
  0 < W ->
  (n < Z.to_nat W)%nat ->
  windows_closed W (seq (j * Z.to_nat W) n) = O.
Proof.
  intros HW. induction n as [|n IH]; intros Hn; [reflexivity|].
  unfold windows_closed in *.
  rewrite seq_S, filter_app, length_app, IH by lia.
  cbn [filter Nat.add]. unfold window_closes.
  replace (Z.of_nat (j * Z.to_nat W + n) + 1)
    with ((Z.of_nat n + 1) + Z.of_nat j * W) by lia.
  rewrite Z.mod_add, Z.mod_small by lia.
  destruct (Z.eqb_spec (Z.of_nat n + 1) 0); [lia|reflexivity].
Qed.

Lemma window_last_closes (W : Z) (j : nat) :
  0 < W ->
  window_closes W (j * Z.to_nat W + (Z.to_nat W - 1)) = true.
Proof.
  intros HW. unfold window_closes.
  replace (Z.of_nat (j * Z.to_nat W + (Z.to_nat W - 1)) + 1)
    with (0 + (Z.of_nat j + 1) * W) by lia.
  rewrite Z.mod_add by lia. reflexivity.
Qed.

Lemma collective_sum_ext w f g :
  (forall k, f k = g k) -> collective_sum w f = collective_sum w g.
Proof.
  intros H. unfold collective_sum. f_equal. apply map_ext.
  intros k. rewrite H. reflexivity.
Qed.

(** One whole window, entered with nothing accumulated. *)
Lemma train_window e g (j : nat) r :
  operational r = true ->
  0 < TrainingConfig.grad_accum_steps (config (self r)) ->
  (1 <= ticks_left r)%nat ->
  epoch_of r = e ->
  global_step_of r = g + Z.of_nat j ->
  let W := Z.to_nat (TrainingConfig.grad_accum_steps (config (self r))) in
  exists r',
    for_each (seq (j * W) W) (train_batch e)
      {| total_loss := fun _ => zero; accum_steps := 0 |} r =
      (Ok {| total_loss := fun _ => zero; accum_steps := 0 |}, r') /\
    trace (proc r') =
      (rev (window_events (is_main (self r)) (train_loader (self r)) e g
              (world_size (proc r)) W j)
         ++ trace (proc r))%list /\
    operational r' = true /\
    advanced 1 r r' /\
    training_frame r r'.
Proof.
  intros Hop HW Hleft He Hg W.
  set (Wz := TrainingConfig.grad_accum_steps (config (self r))) in *.
  set (l0 := {| total_loss := fun _ => zero; accum_steps := 0 |}).
  assert (Hseq : seq (j * W) W =
                 (seq (j * W) (W - 1) ++ [(j * W + (W - 1))%nat])%list).
  { replace W with (W - 1 + 1)%nat at 2 by (subst W; lia).
    rewrite seq_app. reflexivity. }
  pose proof (window_interior_open Wz j (W - 1) HW ltac:(subst W; lia))
    as Hnone. fold W in Hnone.
  destruct (train_batches_open_locals e (seq (j * W) (W - 1)) l0 r
              ltac:(fold Wz; lia) Hnone)
    as (l1 & r1 & E1 & Ha & Ht).
  destruct (train_batches_open e (seq (j * W) (W - 1)) l0 r
              ltac:(fold Wz; lia) Hnone)
    as (l1' & r1' & E1' & Hs & Ho & Hsc & Hu & _ & Hp).
  rewrite E1 in E1'. injection E1' as <- <-.
  pose proof (for_each_frame training_frame training_frame_refl
                training_frame_trans (train_batch e) (train_batch_frame e)
                (seq (j * W) (W - 1)) l0 r) as F1.
  rewrite E1 in F1. cbn [snd] in F1. pose proof F1 as (S1 & _).
  assert (Hop1 : operational r1 = true)
    by (unfold operational in *; rewrite Ho, Hsc; exact Hop).
  assert (HW1 : TrainingConfig.grad_accum_steps (config (self r1)) = Wz)
    by (rewrite (keep_config _ _ S1); reflexivity).
  assert (Hleft1 : (1 <= ticks_left r1)%nat)
    by (unfold ticks_left in *; rewrite Hsc; exact Hleft).
  destruct (train_batch_close e (j * W + (W - 1)) l1 r1 Hop1
              ltac:(rewrite HW1; lia)
              ltac:(rewrite HW1; apply window_last_closes; exact HW)
              Hleft1)
    as (r2 & E2 & Htr).
  destruct (train_batch_ok e (j * W + (W - 1)) l1 r1 Hop1
              ltac:(rewrite HW1; lia)) as (l2 & r2' & E2' & Hop2 & Hadv2).
  { rewrite HW1. destruct (window_closes Wz _); lia. }
  rewrite E2 in E2'. injection E2' as <- <-.
  pose proof (window_last_closes Wz j HW) as Hlast. fold W in Hlast.
  rewrite HW1, Hlast in Hadv2.
  pose proof (train_batch_frame e (j * W + (W - 1)) l1 r1) as F2.
  rewrite E2 in F2. cbn [snd] in F2.
  exists r2. rewrite Hseq, for_each_app. unfold bind. rewrite E1.
  cbn [for_each]. unfold bind. rewrite E2.
  split; [reflexivity|].
  split; [|split; [exact Hop2|split]].
  - rewrite Htr, Hp.
    rewrite (keep_is_main _ _ S1), (keep_train_loader _ _ S1).
    assert (Hred :
      collective_sum (world_size (proc r))
        (fun k => fadd (total_loss l1 k)
                    (loss (train_loader (self r)) e (j * W + (W - 1)) k)) =
      collective_sum (world_size (proc r))
        (window_loss (train_loader (self r)) e W j)).
    { apply collective_sum_ext. intros k. rewrite Ht. unfold window_loss.
      rewrite Hseq, map_app, fold_left_app. reflexivity. }
    rewrite Hred. unfold window_events.
    assert (Hacc : S (accum_steps l1) = W).
    { rewrite Ha. cbn [accum_steps l0]. rewrite length_seq. subst W. lia. }
    rewrite Hacc.
    assert (Her : epoch_of r1 = e).
    { destruct F1 as (_ & He1 & _). rewrite He1. exact He. }
    assert (Hgr : global_step_of r1 = g + Z.of_nat j).
    { unfold global_step_of. rewrite Hs. exact Hg. }
    rewrite Her, Hgr.
    destruct (is_main (self r)); cbn [rev app]; reflexivity.
  - destruct Hadv2 as (A1 & A2 & A3 & A4 & A5).
    unfold advanced, global_step_of, optimizer_steps, scheduler_ticks,
      ticks_left in *.
    rewrite Hs, Ho, Hsc, Hu in *. repeat split; assumption.
  - eapply training_frame_trans; eassumption.
Qed.

(** [q] whole windows in a row, from window [j] on. *)
Lemma train_windows e g q : forall (j : nat) r,
  operational r = true ->
  0 < TrainingConfig.grad_accum_steps (config (self r)) ->
  (q <= ticks_left r)%nat ->
  epoch_of r = e ->
  global_step_of r = g + Z.of_nat j ->
  exists r',
    for_each
      (seq (j * Z.to_nat (TrainingConfig.grad_accum_steps (config (self r))))
           (q * Z.to_nat (TrainingConfig.grad_accum_steps (config (self r)))))
      (train_batch e)
      {| total_loss := fun _ => zero; accum_steps := 0 |} r =
      (Ok {| total_loss := fun _ => zero; accum_steps := 0 |}, r') /\
    trace (proc r') =
      (rev (flat_map
              (window_events (is_main (self r)) (train_loader (self r)) e g
                 (world_size (proc r))
                 (Z.to_nat (TrainingConfig.grad_accum_steps (config (self r)))))
              (seq j q))
         ++ trace (proc r))%list /\
    operational r' = true /\
    advanced q r r' /\
    training_frame r r'.
Proof.
  induction q as [|q IH]; intros j r Hop HW Hleft He Hg.
  - exists r. cbn. split; [reflexivity|]. split; [reflexivity|].
    split; [exact Hop|]. split; [apply advanced_zero|apply training_frame_refl].
  - destruct (train_window e g j r Hop HW ltac:(lia) He Hg)
      as (r1 & E1 & T1 & Hop1 & Hadv1 & F1).
    pose proof F1 as (S1 & He1 & _).
    set (W := Z.to_nat (TrainingConfig.grad_accum_steps (config (self r))))
      in *.
    assert (HW1 : TrainingConfig.grad_accum_steps (config (self r1)) =
                  TrainingConfig.grad_accum_steps (config (self r)))
      by (rewrite (keep_config _ _ S1); reflexivity).
    destruct (IH (S j) r1 Hop1) as (r2 & E2 & T2 & Hop2 & Hadv2 & F2).
    + rewrite HW1. exact HW.
    + destruct Hadv1 as (_ & _ & _ & Ht & _). rewrite Ht. lia.
    + rewrite He1. exact He.
    + destruct Hadv1 as (Hg1 & _). rewrite Hg1, Hg. lia.
    + rewrite HW1 in E2, T2. fold W in E2, T2.
      exists r2.
      replace (S q * W)%nat with (W + q * W)%nat by lia.
      rewrite seq_app, for_each_app. unfold bind. rewrite E1.
      replace (j * W + W)%nat with (S j * W)%nat by lia.
      rewrite E2. split; [reflexivity|].
      split; [|split; [exact Hop2|split]].
      * rewrite T2, T1.
        rewrite (keep_is_main _ _ S1), (keep_train_loader _ _ S1),
          (keep_world_size _ _ S1).
        cbn [seq flat_map]. rewrite rev_app_distr, app_assoc. reflexivity.
      * change (S q) with (1 + q)%nat. eapply advanced_trans; eassumption.
      * eapply training_frame_trans; eassumption.
Qed.

Lemma window_collectives main tl e g w W js :
  filter is_collective (flat_map (window_events main tl e g w W) js) =
  map (fun j => AllReduce (collective_sum w (window_loss tl e W j))) js.
Proof.
  induction js as [|j js IH]; [reflexivity|].
  cbn [flat_map map]. rewrite filter_app, IH. unfold window_events.
  destruct main; reflexivity.
Qed.

(** X11. The trace of a training epoch.  On a working trainer with window
    [W >= 1] and schedule ticks left for the epoch, [train_epoch] completes
    and adds to the trace, for each of the [len(train_loader) // W] whole
    windows in turn, one collective sum of the ranks' window sums (a rank's
    window sum is the losses of the window's [W] batches added to [0.0]) and,
    on rank 0 only, one line with the epoch, the global step before the
    window's step, and that sum divided by [W * world_size]; a trailing
    partial window adds nothing.  The collectives do not depend on the rank
    or on the global step, so every rank with the same loader lengths joins
    the same ones. *)
Theorem training_log_per_window (r : Run) :
  operational r = true ->
  0 < TrainingConfig.grad_accum_steps (config (self r)) ->
  (steps_per_epoch r <= ticks_left r)%nat ->
  exists r',
    train_epoch r = (Ok tt, r') /\
    trace (proc r') = (rev (epoch_events r) ++ trace (proc r))%list /\
    filter is_collective (epoch_events r) =
      map (fun j =>
             AllReduce
               (collective_sum (world_size (proc r))
                  (window_loss (train_loader (self r)) (epoch_of r)
                     (Z.to_nat (TrainingConfig.grad_accum_steps
                                  (config (self r)))) j)))
          (seq 0 (len (train_loader (self r))
                  / Z.to_nat (TrainingConfig.grad_accum_steps
                                (config (self r))))).
Proof.
  intros Hop HW Hleft.
  set (Wz := TrainingConfig.grad_accum_steps (config (self r))) in *.
  set (W := Z.to_nat Wz).
  set (B := len (train_loader (self r))).
  set (e := epoch_of r).
  set (l0 := {| total_loss := fun _ => zero; accum_steps := 0 |}).
  assert (HWpos : (0 < W)%nat) by (subst W; lia).
  assert (Hq : (B / W)%nat = steps_per_epoch r).
  { apply Nat2Z.inj. unfold steps_per_epoch. fold Wz B.
    rewrite (windows_closed_seq Wz B HW), Nat2Z.inj_div.
    subst W. rewrite Z2Nat.id by lia. reflexivity. }
  assert (Hseq : seq 0 B =
                 (seq (0 * W) (B / W * W)
                    ++ seq (B / W * W) (B mod W))%list).
  { rewrite Nat.mul_0_l. change (B / W * W)%nat with (0 + B / W * W)%nat at 2.
    rewrite <- seq_app. f_equal.
    pose proof (Nat.div_mod_eq B W). lia. }
  destruct (train_windows e (global_step_of r) (B / W) 0 r Hop HW
              ltac:(lia) eq_refl ltac:(lia))
    as (r1 & E1 & T1 & Hop1 & Hadv1 & F1).
  fold Wz W l0 in E1, T1. pose proof F1 as (S1 & _).
  assert (HW1 : TrainingConfig.grad_accum_steps (config (self r1)) = Wz)
    by (rewrite (keep_config _ _ S1); reflexivity).
  pose proof (window_interior_open Wz (B / W) (B mod W) HW
                ltac:(fold W; apply Nat.mod_upper_bound; lia)) as Hnone.
  fold W in Hnone.
  destruct (train_batches_open e (seq (B / W * W) (B mod W)) l0 r1
              ltac:(rewrite HW1; lia) ltac:(rewrite HW1; exact Hnone))
    as (l2 & r2 & E2 & _ & _ & _ & _ & _ & Hp2).
  assert (E : train_epoch r =
              (Ok tt, {| self := set_state (bump_epoch (state (self r2)))
                                   (self r2);
                         proc := proc r2 |})).
  { unfold train_epoch. unfold bind at 1. unfold get_self at 1.
    change (TrainerState.epoch (state (self r))) with e.
    fold B l0. rewrite Hseq.
    unfold bind at 1. rewrite for_each_app. unfold bind at 1.
    rewrite E1, E2. reflexivity. }
  eexists. split; [exact E|]. cbn [proc].
  split.
  - rewrite Hp2, T1. reflexivity.
  - apply window_collectives.
Qed.

Lemma training_log_per_window_witness :
  exists r',
    train_epoch (Scenario.run (Scenario.run_config 1 2 1 1) 0) = (Ok tt, r') /\
    trace (proc r') =
      [Logged (LogTrain 0 1 (lit 3 8));
       AllReduce (Tensor.tensor (lit 3 2));
       Logged (LogTrain 0 0 (lit 3 8));
       AllReduce (Tensor.tensor (lit 3 2))].
Proof.
  destruct (training_log_per_window
              (Scenario.run (Scenario.run_config 1 2 1 1) 0))
    as (r' & E & T & _); [reflexivity|reflexivity|vm_compute; lia|].
  exists r'. split; [exact E|]. rewrite T. vm_compute. reflexivity.
Defined.


(** ** A resumed run *)

Lemma load_checkpoint_working r f c lr k lr' total k' :
  TrainingConfig.resume_checkpoint (config (self r)) = Some f ->
  read_file f (disk (proc r)) = Some c ->
  optimizer (self r) = AdamW lr k ->
  scheduler (self r) = OneCycleLR lr' total k' ->
  load_checkpoint r =
    (Ok tt,
     {| self :=
          set_state (CheckpointState.trainer_state c)
            (set_scheduler
               match CheckpointState.scheduler_state c with
               | Some s => OneCycleLR lr' (saved_total s) (saved_ticks s)
               | None => OneCycleLR lr' total k'
               end
               (set_optimizer (AdamW lr (CheckpointState.optimizer_state c))
                  (set_model
                     {| updates := CheckpointState.model_state c;
                        pending_grads := pending_grads (model (self r)) |}
                     (self r))));
        proc :=
          emit (Logged (LogResumed (Some f)
                          (TrainerState.epoch
                             (CheckpointState.trainer_state c))))
            (emit (Broadcast
                     (resume_broadcast (proc r)
                        (CheckpointState.trainer_state c)))
               (proc r)) |}).
Proof.
  expose r. unfold load_checkpoint, CheckpointState_load,
    optimizer_load_state_dict, scheduler_load_state_dict, resume_broadcast.
  run_monad. intros Hres Hf -> ->. rewrite Hres. run_monad.
  rewrite Hf. run_monad.
  destruct (CheckpointState.scheduler_state c) as [s|]; run_monad;
    rewrite Hres; reflexivity.
Qed.

(** X12. A resumed run goes on where the bundle stopped.  With the supported
    kinds, a configuration optimizer and loaders can be built from, a window
    of at least one, non-zero cadences, a writable store on rank 0 and a
    readable bundle, the constructor builds a fresh schedule and the resume
    replaces its total and tick count by the bundle's, where the bundle
    carries a scheduler state.  When the schedule the trainer then holds
    leaves room for the epochs still to run, [train] completes; the loop
    starts at the bundle's epoch, so the run ends at
    [epoch = max(bundle epoch, epochs)] with [global_step] the bundle's plus
    [len(train_loader) // grad_accum_steps] for every epoch still run, and
    with a best loss that is at most the bundle's.  A bundle at or past the
    last epoch trains nothing. *)
Theorem resumed_run_finishes (cfg : TrainingConfig.t) (tl vl : DataLoader)
    (p : Process) (f : string) (c : CheckpointState.t) :
  buildable cfg = true ->
  TrainingConfig.resume_checkpoint cfg = Some f ->
  read_file f (disk p) = Some c ->
  TrainingConfig.optimizer cfg = "AdamW" ->
  TrainingConfig.lr_scheduler cfg = "OneCycleLR" ->
  0 < TrainingConfig.grad_accum_steps cfg ->
  TrainingConfig.validation_freq cfg <> 0 ->
  TrainingConfig.checkpoint_freq cfg <> 0 ->
  (rank p = O -> writable p = true) ->
  let steps := Z.of_nat (len tl) / TrainingConfig.grad_accum_steps cfg in
  let e0 := TrainerState.epoch (CheckpointState.trainer_state c) in
  let left := Z.max 0 (TrainingConfig.epochs cfg - e0) in
  0 < TrainingConfig.epochs cfg * steps ->
  match CheckpointState.scheduler_state c with
  | Some s => Z.of_nat (saved_ticks s) + left * steps <= saved_total s
  | None => left * steps <= TrainingConfig.epochs cfg * steps
  end ->
  exists t p',
    train cfg tl vl p = (Ok tt, Some t, p') /\
    TrainerState.epoch (state t) = Z.max e0 (TrainingConfig.epochs cfg) /\
    TrainerState.global_step (state t) =
      TrainerState.global_step (CheckpointState.trainer_state c)
        + left * steps /\
    Z.of_nat (updates (model t)) =
      Z.of_nat (CheckpointState.model_state c) + left * steps /\
    fle (TrainerState.best_loss (state t))
        (TrainerState.best_loss (CheckpointState.trainer_state c)) /\
    (TrainingConfig.epochs cfg <= e0 ->
     state t = CheckpointState.trainer_state c /\
     trace p' =
       DestroyProcessGroup
         :: Logged (LogResumed (Some f) e0)
         :: Broadcast (resume_broadcast p (CheckpointState.trainer_state c))
         :: trace p).
Proof.
  intros Hb Hres Hf Hopt Hsch HW Hvf Hcf Hwr steps e0 left Htotal Hroom.
  unfold train.
  rewrite (constructor_working cfg TTSTransformer tl vl p Hb Hopt Hsch
             ltac:(lia) Htotal), Hres.
  cbv zeta.
  erewrite load_checkpoint_working;
    [|exact Hres|exact Hf|reflexivity|reflexivity].
  cbn [self proc set_state set_scheduler set_optimizer set_model config
       is_main model optimizer train_loader val_loader scheduler state].
  match goal with
  | |- context [(train_loop cfg ;; destroy_process_group) ?x] => set (r := x)
  end.
  assert (Hop : operational r = true).
  { subst r. cbv [operational set_state set_scheduler set_optimizer set_model
                  scheduler optimizer self].
    destruct (CheckpointState.scheduler_state c); reflexivity. }
  assert (Hr : ready cfg r).
  { constructor; try assumption; try reflexivity; try lia.
    subst r. cbn. intros H. apply Hwr. apply Nat.eqb_eq, H. }
  assert (Hsteps : Z.of_nat (steps_per_epoch r) = steps)
    by (apply windows_closed_seq; exact HW).
  assert (Hsteps0 : 0 <= steps) by lia.
  assert (He0 : epoch_of r = e0) by reflexivity.
  assert (Hcount : Z.of_nat (Z.to_nat (TrainingConfig.epochs cfg - epoch_of r)
                             * steps_per_epoch r) = left * steps).
  { rewrite Nat2Z.inj_mul, Hsteps, He0. subst left. lia. }
  assert (Hleft : (Z.to_nat (TrainingConfig.epochs cfg - epoch_of r)
                     * steps_per_epoch r <= ticks_left r)%nat).
  { apply Nat2Z.inj_le. rewrite Hcount. subst r.
    cbv [ticks_left set_state set_scheduler set_optimizer set_model
         scheduler self].
    fold steps.
    destruct (CheckpointState.scheduler_state c); lia. }
  destruct (train_loop_ok cfg r Hr Hleft)
    as (r' & E & _ & _ & He & (Hg & _ & _ & _ & Hu) & Hbl & _).
  unfold bind. rewrite E. unfold destroy_process_group, modify_proc.
  cbn [self proc].
  do 2 eexists. split; [reflexivity|].
  split; [exact He|].
  split; [fold (global_step_of r'); rewrite Hg, Hcount; reflexivity|].
  split; [rewrite Hu, Nat2Z.inj_add, Hcount; reflexivity|].
  split; [exact Hbl|].
  intros Hpast.
  assert (Hzero : Z.to_nat (TrainingConfig.epochs cfg - epoch_of r) = O)
    by (rewrite He0; lia).
  revert E. unfold train_loop, for_range. unfold bind, get_self.
  fold (epoch_of r). rewrite Hzero. cbn [for_count]. unfold ret.
  intros [= <-]. split; reflexivity.
Qed.

Lemma resumed_run_finishes_witness :
  exists t p',
    train Resume.resuming Scenario.four_batches Scenario.one_validation_batch
      (Resume.process 1 (Resume.bundle 3 6 (lit 1 2)) [3; 6]) =
      (Ok tt, Some t, p') /\
    TrainerState.epoch (state t) = 5 /\
    TrainerState.global_step (state t) = 10.
Proof.
  destruct (resumed_run_finishes Resume.resuming Scenario.four_batches
              Scenario.one_validation_batch
              (Resume.process 1 (Resume.bundle 3 6 (lit 1 2)) [3; 6])
              Resume.path (Resume.bundle 3 6 (lit 1 2)))
    as (t & p' & E & He & Hg & _);
    [vm_compute; reflexivity|reflexivity|reflexivity|reflexivity|reflexivity
    |reflexivity|discriminate|discriminate|discriminate|reflexivity
    |discriminate|].
  exists t, p'. split; [exact E|]. rewrite He, Hg. split; reflexivity.
Defined.

(** ** The cadence of validation *)

Lemma calm_refl r : calm r r.
Proof. reflexivity. Qed.

Lemma calm_trans r1 r2 r3 : calm r1 r2 -> calm r2 r3 -> calm r1 r3.
Proof. unfold calm. congruence. Qed.

Lemma train_batch_calm e i l r : calm r (snd (train_batch e i l r)).
Proof.
  expose r. unfold calm, validation_lines, train_batch, mod_, truediv,
    optimizer_step, optimizer_zero_grad, scheduler_step.
  run_paths.
Qed.

Lemma train_epoch_calm r : calm r (snd (train_epoch r)).
Proof.
  unfold train_epoch. run_monad.
  pose proof (for_each_frame calm calm_refl calm_trans
                (train_batch (TrainerState.epoch (state (self r))))
                (train_batch_calm (TrainerState.epoch (state (self r))))
                (seq 0 (len (train_loader (self r))))
                {| total_loss := fun _ => zero; accum_steps := 0 |} r) as F.
  destruct (for_each _ _ _ r) as [[l'|e] r']; exact F.
Qed.

Lemma save_checkpoint_calm best r : calm r (snd (save_checkpoint best r)).
Proof.
  expose r. unfold calm, validation_lines, save_checkpoint,
    optimizer_state_dict, scheduler_state_dict.
  run_paths.
Qed.

Lemma validation_reduces_calm vl e w idxs p :
  validation_lines (emit_all (validation_reduces vl e w idxs) p)
    = validation_lines p.
Proof.
  unfold validation_lines. rewrite emit_all_trace, filter_app, length_app.
  replace (List.length
             (filter is_validation_line
                (rev (validation_reduces vl e w idxs)))) with O;
    [reflexivity|].
  unfold validation_reduces. rewrite <- map_rev.
  induction (rev idxs) as [|i rest IH]; [reflexivity|exact IH].
Qed.

Lemma judge_validation_lines avg r u r' :
  judge avg r = (Ok u, r') ->
  validation_lines (proc r') =
    (validation_lines (proc r) + if is_main (self r) then 1 else 0)%nat.
Proof.
  expose r. unfold judge, save_checkpoint, optimizer_state_dict,
    scheduler_state_dict, validation_lines.
  run_monad.
  destruct main; [|intros [= _ <-]; cbn; lia].
  destruct (flt avg (TrainerState.best_loss st));
    [|intros [= _ <-]; cbn; lia].
  cbn [negb]. run_monad.
  destruct opt; run_monad; [|discriminate].
  destruct sch; run_monad; [|discriminate].
  destruct wr; run_monad; [|discriminate].
  intros [= _ <-]. cbn. lia.
Qed.

Lemma validate_validation_lines r u r' :
  validate r = (Ok u, r') ->
  validation_lines (proc r') =
    (validation_lines (proc r) + if reports_validation r then 1 else 0)%nat.
Proof.
  unfold reports_validation.
  destruct (Nat.eqb_spec (len (val_loader (self r))) 0) as [Hlen|Hlen].
  - rewrite (validate_empty r Hlen). intros [= _ <-].
    rewrite andb_false_r. lia.
  - rewrite (validate_nonempty r Hlen). intros E.
    apply judge_validation_lines in E. cbn [self proc] in E.
    rewrite validation_reduces_calm in E. rewrite andb_true_r. exact E.
Qed.

Lemma train_iteration_validation_lines cfg e r u r' :
  train_iteration cfg e r = (Ok u, r') ->
  same_setting r r' /\
  validation_lines (proc r') =
    (validation_lines (proc r)
     + if ((e + 1) mod TrainingConfig.validation_freq cfg =? 0)%Z
          && reports_validation r
       then 1 else 0)%nat.
Proof.
  destruct u. intros E.
  pose proof (train_iteration_monotone cfg e r) as (S0 & _).
  rewrite E in S0. cbn [snd] in S0. split; [exact S0|].
  revert E. unfold train_iteration. unfold bind at 1.
  pose proof (train_epoch_calm r) as C1.
  pose proof (train_epoch_general r) as (S1 & _).
  destruct (train_epoch r) as [[[]|x] r1]; [|discriminate].
  cbn [snd] in C1, S1. unfold calm in C1.
  unfold bind at 1. unfold lift at 1, mod_ at 1.
  destruct (Z.eqb_spec (TrainingConfig.validation_freq cfg) 0) as [|_];
    [discriminate|].
  unfold bind at 1.
  assert (Hrep : reports_validation r1 = reports_validation r).
  { unfold reports_validation.
    rewrite (keep_is_main _ _ S1), (keep_val_loader _ _ S1). reflexivity. }
  destruct ((e + 1) mod TrainingConfig.validation_freq cfg =? 0).
  - destruct (validate r1) as [[[]|x] r2] eqn:E2; [|discriminate].
    apply validate_validation_lines in E2. rewrite Hrep, C1 in E2.
    unfold bind at 1. unfold lift at 1, mod_ at 1.
    destruct (Z.eqb_spec (TrainingConfig.checkpoint_freq cfg) 0) as [|_];
      [discriminate|].
    cbn [andb].
    destruct (_ =? 0).
    + pose proof (save_checkpoint_calm false r2) as C3.
      destruct (save_checkpoint false r2) as [[[]|x] r3]; [|discriminate].
      intros [= <-]. cbn [snd] in C3. unfold calm in C3. congruence.
    + unfold ret. intros [= <-]. exact E2.
  - unfold ret at 1. unfold bind at 1. unfold lift at 1, mod_ at 1.
    destruct (Z.eqb_spec (TrainingConfig.checkpoint_freq cfg) 0) as [|_];
      [discriminate|].
    cbn [andb].
    destruct (_ =? 0).
    + pose proof (save_checkpoint_calm false r1) as C3.
      destruct (save_checkpoint false r1) as [[[]|x] r3]; [|discriminate].
      intros [= <-]. cbn [snd] in C3. unfold calm in C3. lia.
    + unfold ret. intros [= <-]. lia.
Qed.

Lemma train_turns_validation_lines cfg n : forall i r u r',
  for_count n i (train_iteration cfg) r = (Ok u, r') ->
  validation_lines (proc r') =
    (validation_lines (proc r)
     + if reports_validation r
       then List.length (validation_due cfg i n) else 0)%nat.
Proof.
  induction n as [|n IH]; intros i r [] r'; cbn [for_count].
  - unfold ret. intros [= <-]. destruct (reports_validation r); cbn; lia.
  - unfold bind.
    destruct (train_iteration cfg i r) as [[[]|x] r1] eqn:E1; [|discriminate].
    apply train_iteration_validation_lines in E1. destruct E1 as (S1 & C1).
    intros E2. apply IH in E2.
    assert (Hrep : reports_validation r1 = reports_validation r).
    { unfold reports_validation.
      rewrite (keep_is_main _ _ S1), (keep_val_loader _ _ S1). reflexivity. }
    rewrite Hrep, C1 in E2. rewrite E2.
    unfold validation_due. rewrite completed_epochs_S. cbn [filter].
    destruct (reports_validation r); rewrite ?andb_false_r, ?andb_true_r;
      [|lia].
    destruct (_ =? 0); cbn [List.length]; lia.
Qed.

(** X13. The cadence of validation.  On a working trainer with non-zero
    window and cadences, a writable store on rank 0 and schedule ticks left,
    the epoch loop completes, and the log of rank 0 gains one validation line
    for each completed epoch [e] (counted from 1) with
    [e % validation_freq == 0], provided the validation loader has batches;
    a rank other than 0, or a run without validation batches, gains none. *)
Theorem validation_cadence (cfg : TrainingConfig.t) (r : Run) :
  ready cfg r ->
  (Z.to_nat (TrainingConfig.epochs cfg - epoch_of r) * steps_per_epoch r
   <= ticks_left r)%nat ->
  exists r',
    train_loop cfg r = (Ok tt, r') /\
    validation_lines (proc r') =
      (validation_lines (proc r)
       + if reports_validation r
         then List.length
                (filter
                   (fun e => (e mod TrainingConfig.validation_freq cfg =? 0)%Z)
                   (completed_epochs (epoch_of r)
                      (Z.to_nat (TrainingConfig.epochs cfg - epoch_of r))))
         else 0)%nat.
Proof.
  intros Hr Hleft.
  destruct (train_loop_ok cfg r Hr Hleft) as (r' & E & _).
  exists r'. split; [exact E|].
  revert E. unfold train_loop, for_range. unfold bind at 1, get_self at 1.
  apply train_turns_validation_lines.
Qed.

Lemma validation_cadence_witness :
  exists r',
    train_loop (Scenario.run_config 5 2 1 2)
      (Scenario.run (Scenario.run_config 5 2 1 2) 0) = (Ok tt, r') /\
    validation_lines (proc r') = 2%nat.
Proof.
  destruct (validation_cadence (Scenario.run_config 5 2 1 2)
              (Scenario.run (Scenario.run_config 5 2 1 2) 0))
    as (r' & E & H).
  - constructor; try reflexivity; discriminate.
  - vm_compute. lia.
  - exists r'. split; [exact E|]. rewrite H. reflexivity.
Defined.

(** ** Gradients left over *)

Lemma train_batch_close_clears e i l r :
  operational r = true ->
  TrainingConfig.grad_accum_steps (config (self r)) <> 0 ->
  window_closes (TrainingConfig.grad_accum_steps (config (self r))) i = true ->
  (1 <= ticks_left r)%nat ->
  pending_grads (model (self (snd (train_batch e i l r)))) = O.
Proof.
  expose r. unfold train_batch, mod_, window_closes, scheduler_step.
  run_monad. intros Hop HW Hclose Hleft.
  destruct opt; try discriminate. destruct sch; try discriminate.
  destruct (Z.eqb_spec (TrainingConfig.grad_accum_steps cfg) 0) as [|_];
    [contradiction|].
  run_monad. rewrite Hclose.
  destruct main; run_monad;
    rewrite ?(truediv_nonzero _ _ (window_divisor_nonzero _ _));
    cbn [fst snd]; run_monad;
    (destruct (Z.ltb_spec total_steps (Z.of_nat (S ticks))) as [Hlt|_];
       [lia|]);
    reflexivity.
Qed.

Lemma windows_closed_app W xs ys :
  windows_closed W (xs ++ ys) = (windows_closed W xs + windows_closed W ys)%nat.
Proof. unfold windows_closed. rewrite filter_app, length_app. reflexivity. Qed.

(** X14. [train_epoch] clears the gradients only at a window boundary.  On
    a working trainer with window [W >= 1] and schedule ticks left for the
    epoch, the epoch completes and leaves accumulated the gradients of its
    trailing partial window: [len(train_loader) % W] micro-batches when at
    least one window closed, and everything that was accumulated before plus
    all its micro-batches when none did.  Nothing clears them at the end of
    the epoch, so they enter the first step of the next one. *)
Theorem leftover_gradients (r : Run) :
  operational r = true ->
  0 < TrainingConfig.grad_accum_steps (config (self r)) ->
  (steps_per_epoch r <= ticks_left r)%nat ->
  exists r',
    train_epoch r = (Ok tt, r') /\
    pending_grads (model (self r')) =
      if Z.of_nat (len (train_loader (self r)))
           <? TrainingConfig.grad_accum_steps (config (self r))
      then (pending_grads (model (self r)) + len (train_loader (self r)))%nat
      else (len (train_loader (self r))
              mod Z.to_nat (TrainingConfig.grad_accum_steps
                              (config (self r))))%nat.
Proof.
  intros Hop HW Hleft.
  set (Wz := TrainingConfig.grad_accum_steps (config (self r))) in *.
  set (W := Z.to_nat Wz).
  set (B := len (train_loader (self r))) in *.
  set (e := epoch_of r).
  set (l0 := {| total_loss := fun _ => zero; accum_steps := 0 |}).
  assert (HWpos : (0 < W)%nat) by (subst W; lia).
  assert (Hepoch : forall l2 r2,
             for_each (seq 0 B) (train_batch e) l0 r = (Ok l2, r2) ->
             train_epoch r =
               (Ok tt, {| self := set_state (bump_epoch (state (self r2)))
                                    (self r2);
                          proc := proc r2 |})).
  { intros l2 r2 E. unfold train_epoch. unfold bind at 1. unfold get_self at 1.
    change (TrainerState.epoch (state (self r))) with e. fold B l0.
    unfold bind at 1. rewrite E. reflexivity. }
  destruct (Z.ltb_spec (Z.of_nat B) Wz) as [Hshort|Hlong].
  - assert (Hnone : windows_closed Wz (seq 0 B) = O).
    { apply Nat2Z.inj. rewrite (windows_closed_seq Wz B HW).
      rewrite Z.div_small by lia. reflexivity. }
    destruct (train_batches_open e (seq 0 B) l0 r ltac:(fold Wz; lia) Hnone)
      as (l2 & r2 & E2 & _ & _ & _ & _ & Hp & _).
    eexists. split; [exact (Hepoch _ _ E2)|].
    cbn [self set_state model]. rewrite Hp, length_seq. reflexivity.
  - set (q := (B / W)%nat).
    assert (Hq : (1 <= q)%nat).
    { subst q. apply Nat.div_le_lower_bound; lia. }
    assert (Hseq : seq 0 B =
                   (seq 0 (q * W - 1)
                      ++ [(q * W - 1)%nat]
                      ++ seq (q * W) (B mod W))%list).
    { pose proof (Nat.div_mod_eq B W) as D. fold q in D.
      replace B with ((q * W - 1) + (1 + B mod W))%nat at 1 by nia.
      rewrite seq_app, seq_app. cbn [seq Nat.add].
      do 3 f_equal. nia. }
    assert (Hsteps : steps_per_epoch r =
                     (windows_closed Wz (seq 0 (q * W - 1))
                      + (windows_closed Wz [(q * W - 1)%nat]
                         + windows_closed Wz (seq (q * W) (B mod W))))%nat).
    { unfold steps_per_epoch. fold Wz B.
      rewrite Hseq at 1. rewrite !windows_closed_app. reflexivity. }
    assert (Hlast : window_closes Wz (q * W - 1) = true).
    { replace (q * W - 1)%nat with ((q - 1) * W + (W - 1))%nat by nia.
      apply window_last_closes. exact HW. }
    assert (Hone : windows_closed Wz [(q * W - 1)%nat] = 1%nat).
    { unfold windows_closed. cbn [filter]. rewrite Hlast. reflexivity. }
    destruct (train_batches_ok e Wz (seq 0 (q * W - 1)) l0 r Hop eq_refl
                ltac:(lia) ltac:(lia))
      as (l1 & r1 & E1 & Hop1 & Hadv1).
    pose proof (for_each_frame training_frame training_frame_refl
                  training_frame_trans (train_batch e) (train_batch_frame e)
                  (seq 0 (q * W - 1)) l0 r) as F1.
    rewrite E1 in F1. cbn [snd] in F1. destruct F1 as (S1 & _).
    assert (HW1 : TrainingConfig.grad_accum_steps (config (self r1)) = Wz)
      by (rewrite (keep_config _ _ S1); reflexivity).
    assert (Hleft1 : (1 <= ticks_left r1)%nat).
    { destruct Hadv1 as (_ & _ & _ & Ht & _). rewrite Ht. lia. }
    assert (Hclose1 : window_closes
                        (TrainingConfig.grad_accum_steps (config (self r1)))
                        (q * W - 1) = true)
      by (rewrite HW1; exact Hlast).
    pose proof (train_batch_close_clears e (q * W - 1) l1 r1 Hop1
                  ltac:(rewrite HW1; lia) Hclose1 Hleft1) as Hclear.
    destruct (train_batch_ok e (q * W - 1) l1 r1 Hop1
                ltac:(rewrite HW1; lia)
                ltac:(rewrite Hclose1; exact Hleft1))
      as (l2 & r2 & E2 & Hop2 & _).
    rewrite E2 in Hclear. cbn [snd] in Hclear.
    pose proof (train_batch_frame e (q * W - 1) l1 r1) as F2.
    rewrite E2 in F2. cbn [snd] in F2. destruct F2 as (S2 & _).
    assert (HW2 : TrainingConfig.grad_accum_steps (config (self r2)) = Wz)
      by (rewrite (keep_config _ _ S2); exact HW1).
    pose proof (window_interior_open Wz q (B mod W) HW
                  ltac:(fold W; apply Nat.mod_upper_bound; lia)) as Hnone.
    fold W in Hnone.
    destruct (train_batches_open e (seq (q * W) (B mod W)) l2 r2
                ltac:(rewrite HW2; lia) ltac:(rewrite HW2; exact Hnone))
      as (l3 & r3 & E3 & _ & _ & _ & _ & Hp3 & _).
    assert (E : for_each (seq 0 B) (train_batch e) l0 r = (Ok l3, r3)).
    { rewrite Hseq, for_each_app. unfold bind. rewrite E1.
      rewrite for_each_app. unfold bind. cbn [for_each]. unfold bind.
      rewrite E2. exact E3. }
    eexists. split; [exact (Hepoch _ _ E)|].
    cbn [self set_state model]. rewrite Hp3, Hclear, length_seq. reflexivity.
Qed.

Lemma leftover_gradients_witness :
  let r := {| self :=
                {| config := Scenario.run_config 1 3 1 1;
                   is_main := true;
                   model := TTSTransformer;
                   optimizer := AdamW (lit 3 10000) 0;
                   train_loader := Scenario.four_batches;
                   val_loader := Scenario.one_validation_batch;
                   scheduler := OneCycleLR (lit 3 10000) 1 0;
                   state := TrainerState.default |};
              proc := Scenario.process 0 |} in
  exists r',
    train_epoch r = (Ok tt, r') /\
    pending_grads (model (self r')) = 1%nat.
Proof.
  intros r.
  destruct (leftover_gradients r) as (r' & E & H);
    [reflexivity|reflexivity|vm_compute; lia|].
  exists r'. split; [exact E|]. rewrite H. reflexivity.
Defined.

(** ** Ranks other than 0 *)

Lemma silent_refl r : silent r r.
Proof. split; [apply same_setting_refl|]. intros _. split; reflexivity. Qed.

Lemma silent_trans r1 r2 r3 : silent r1 r2 -> silent r2 r3 -> silent r1 r3.
Proof.
  intros (S1 & H1) (S2 & H2).
  split; [eapply same_setting_trans; eassumption|].
  intros Hm. destruct (H1 Hm) as (L1 & D1).
  destruct H2 as (L2 & D2); [rewrite (keep_is_main _ _ S1); exact Hm|].
  split; congruence.
Qed.

Lemma train_batch_silent e i l r : silent r (snd (train_batch e i l r)).
Proof.
  split; [exact (proj1 (train_batch_frame e i l r))|].
  expose r. unfold log_lines, train_batch, mod_, truediv,
    optimizer_step, optimizer_zero_grad, scheduler_step.
  run_monad. intros ->.
  repeat (split_match; run_monad; cbn); split; reflexivity.
Qed.

Lemma train_epoch_silent r : silent r (snd (train_epoch r)).
Proof.
  split; [exact (proj1 (train_epoch_general r))|].
  unfold train_epoch. run_monad.
  pose proof (for_each_frame silent silent_refl silent_trans
                (train_batch (TrainerState.epoch (state (self r))))
                (train_batch_silent (TrainerState.epoch (state (self r))))
                (seq 0 (len (train_loader (self r))))
                {| total_loss := fun _ => zero; accum_steps := 0 |} r) as F.
  destruct (for_each _ _ _ r) as [[l'|e] r']; cbn [snd] in *;
    exact (proj2 F).
Qed.

Lemma save_checkpoint_silent best r : silent r (snd (save_checkpoint best r)).
Proof.
  split; [exact (proj1 (proj2 (save_checkpoint_general best r)))|].
  intros Hm. rewrite (save_checkpoint_other_rank best r Hm).
  split; reflexivity.
Qed.

Lemma validation_reduces_silent vl e w idxs p :
  log_lines (emit_all (validation_reduces vl e w idxs) p) = log_lines p.
Proof.
  unfold log_lines. rewrite emit_all_trace, filter_app.
  replace (filter is_log_line (rev (validation_reduces vl e w idxs)))
    with (@nil Event); [reflexivity|].
  unfold validation_reduces. rewrite <- map_rev.
  induction (rev idxs) as [|i rest IH]; [reflexivity|exact IH].
Qed.

Lemma validate_silent r : silent r (snd (validate r)).
Proof.
  split; [exact (proj1 (validate_general r))|]. intros Hm.
  destruct (Nat.eq_dec (len (val_loader (self r))) 0) as [Hlen|Hlen].
  - rewrite (validate_empty r Hlen). split; reflexivity.
  - rewrite (validate_nonempty r Hlen). unfold judge. cbn [self proc].
    rewrite Hm. cbn [snd proc].
    rewrite validation_reduces_silent.
    destruct (emit_all_rest
                (validation_reduces (val_loader (self r)) (epoch_of r)
                   (world_size (proc r)) (seq 0 (len (val_loader (self r)))))
                (proc r)) as (_ & _ & Hd & _).
    split; [reflexivity|exact Hd].
Qed.

Lemma train_loop_silent cfg r : silent r (snd (train_loop cfg r)).
Proof.
  revert r. unfold train_loop, for_range.
  apply (bind_frame silent silent_trans); [exact silent_refl|intros t].
  apply (for_count_frame silent silent_refl silent_trans). intros i.
  unfold train_iteration.
  apply (bind_frame silent silent_trans); [exact train_epoch_silent|intros _].
  apply (bind_frame silent silent_trans);
    [apply lift_frame, silent_refl|intros due].
  apply (bind_frame silent silent_trans).
  - destruct (due =? 0); [exact validate_silent|exact silent_refl].
  - intros _.
    apply (bind_frame silent silent_trans);
      [apply lift_frame, silent_refl|intros due'].
    destruct (due' =? 0);
      [exact (save_checkpoint_silent false)|exact silent_refl].
Qed.

(** X15. A rank other than 0 neither logs nor writes during training.
    Whatever the configuration and however the loop ends, the epoch loop on
    such a rank adds no line to the log and no file to the store: all it
    adds to the trace are collectives.  (The line of a resume is the
    exception: [load_checkpoint] logs it on every rank.) *)
Theorem other_ranks_are_silent (cfg : TrainingConfig.t) (r : Run) :
  is_main (self r) = false ->
  log_lines (proc (snd (train_loop cfg r))) = log_lines (proc r) /\
  disk (proc (snd (train_loop cfg r))) = disk (proc r) /\
  (forall best, save_checkpoint best r = (Ok tt, r)) /\
  log_lines (proc (snd (train_epoch r))) = log_lines (proc r) /\
  log_lines (proc (snd (validate r))) = log_lines (proc r).
Proof.
  intros Hm.
  destruct (train_loop_silent cfg r) as (_ & H1). destruct (H1 Hm) as (L1 & D1).
  destruct (train_epoch_silent r) as (_ & H2). destruct (H2 Hm) as (L2 & _).
  destruct (validate_silent r) as (_ & H3). destruct (H3 Hm) as (L3 & _).
  repeat split; try assumption.
  intros best. apply save_checkpoint_other_rank. exact Hm.
Qed.

Lemma other_ranks_are_silent_witness :
  log_lines
    (proc (snd (train_loop (Scenario.run_config 2 2 1 1)
                  (Scenario.run (Scenario.run_config 2 2 1 1) 1)))) = [] /\
  disk
    (proc (snd (train_loop (Scenario.run_config 2 2 1 1)
                  (Scenario.run (Scenario.run_config 2 2 1 1) 1)))) = [] /\
  List.length
    (trace
       (proc (snd (train_loop (Scenario.run_config 2 2 1 1)
                     (Scenario.run (Scenario.run_config 2 2 1 1) 1)))))
    = 6%nat.
Proof.
  destruct (other_ranks_are_silent (Scenario.run_config 2 2 1 1)
              (Scenario.run (Scenario.run_config 2 2 1 1) 1) eq_refl)
    as (L & D & _).
  split; [exact L|]. split; [exact D|]. vm_compute. reflexivity.
Defined.

(** ** The bundle as a file *)

(** X16. [CheckpointState.load] undoes [CheckpointState.save]: the
    dictionary written for an instance loads as that instance, whatever its
    fields hold.  On any other dictionary [load] subscripts the keys
    "model_state", "optimizer_state", "trainer_state" and "config" in that
    order and fails with a [KeyError] for the first one that is missing; it
    succeeds when all four are there.  Only "scheduler_state" may be
    missing: it is read with [get] and then loads as [None]. *)
Theorem checkpoint_file_round_trip :
  (forall c, Pickle.load (Pickle.save c) = Pickle.Loaded c) /\
  (forall b,
      Pickle.load (Pickle.save (Pickle.of_bundle b))
        = Pickle.Loaded (Pickle.of_bundle b)) /\
  (forall d,
      (forall k, In k Pickle.required -> Pickle.lookup k d <> None) ->
      exists c,
        Pickle.load d = Pickle.Loaded c /\
        Pickle.lookup "model_state" d = Some (Pickle.model_state c) /\
        Pickle.lookup "optimizer_state" d = Some (Pickle.optimizer_state c) /\
        Pickle.lookup "trainer_state" d = Some (Pickle.trainer_state c) /\
        Pickle.lookup "config" d = Some (Pickle.config c) /\
        (Pickle.lookup "scheduler_state" d = None ->
         Pickle.scheduler_state c = Pickle.NoneObj) /\
        (forall v,
            Pickle.lookup "scheduler_state" d = Some v ->
            Pickle.scheduler_state c = v)) /\
  (forall d k,
      Pickle.load d = Pickle.KeyError k <->
      exists before after,
        Pickle.required = (before ++ k :: after)%list /\
        Pickle.lookup k d = None /\
        forall k', In k' before -> Pickle.lookup k' d <> None).
Proof.
  split; [intros []; reflexivity|].
  split; [intros b; reflexivity|].
  split.
  - intros d Hall. unfold Pickle.load, Pickle.getitem, Pickle.get.
    destruct (Pickle.lookup "model_state" d) as [m|] eqn:Em;
      [|exfalso; apply (Hall "model_state"); cbn; tauto].
    destruct (Pickle.lookup "optimizer_state" d) as [o|] eqn:Eo;
      [|exfalso; apply (Hall "optimizer_state"); cbn; tauto].
    destruct (Pickle.lookup "trainer_state" d) as [t|] eqn:Et;
      [|exfalso; apply (Hall "trainer_state"); cbn; tauto].
    destruct (Pickle.lookup "config" d) as [c|] eqn:Ec;
      [|exfalso; apply (Hall "config"); cbn; tauto].
    eexists. split; [reflexivity|]. cbn.
    repeat split; try reflexivity.
    + intros ->. reflexivity.
    + intros v ->. reflexivity.
  - intros d k. unfold Pickle.load, Pickle.getitem, Pickle.required. split.
    + destruct (Pickle.lookup "model_state" d) as [m|] eqn:Em.
      2:{ intros [= <-]. exists [], ["optimizer_state"; "trainer_state"; "config"].
          repeat split; [assumption|]. intros k' []. }
      destruct (Pickle.lookup "optimizer_state" d) as [o|] eqn:Eo.
      2:{ intros [= <-]. exists ["model_state"], ["trainer_state"; "config"].
          repeat split; [assumption|].
          intros k' [<-|[]]. congruence. }
      destruct (Pickle.lookup "trainer_state" d) as [t|] eqn:Et.
      2:{ intros [= <-]. exists ["model_state"; "optimizer_state"], ["config"].
          repeat split; [assumption|].
          intros k' [<-|[<-|[]]]; congruence. }
      destruct (Pickle.lookup "config" d) as [c|] eqn:Ec; [discriminate|].
      intros [= <-].
      exists ["model_state"; "optimizer_state"; "trainer_state"], [].
      repeat split; [assumption|].
      intros k' [<-|[<-|[<-|[]]]]; congruence.
    + intros (before & after & Hsplit & Hmiss & Hbefore).
      destruct before as [|k1 before]; cbn in Hsplit.
      { injection Hsplit as <- _. rewrite Hmiss. reflexivity. }
      injection Hsplit as <- Hsplit.
      destruct (Pickle.lookup "model_state" d) eqn:Em;
        [|exfalso; apply (Hbefore "model_state"); cbn; tauto].
      destruct before as [|k2 before]; cbn in Hsplit.
      { injection Hsplit as <- _. rewrite Hmiss. reflexivity. }
      injection Hsplit as <- Hsplit.
      destruct (Pickle.lookup "optimizer_state" d) eqn:Eo;
        [|exfalso; apply (Hbefore "optimizer_state"); cbn; tauto].
      destruct before as [|k3 before]; cbn in Hsplit.
      { injection Hsplit as <- _. rewrite Hmiss. reflexivity. }
      injection Hsplit as <- Hsplit.
      destruct (Pickle.lookup "trainer_state" d) eqn:Et;
        [|exfalso; apply (Hbefore "trainer_state"); cbn; tauto].
      destruct before as [|k4 before]; cbn in Hsplit.
      { injection Hsplit as <- _. rewrite Hmiss. reflexivity. }
      injection Hsplit as _ Hsplit. destruct before; discriminate.
Qed.
